(** * The development-mode watcher of the plugin ([scripts/dev-watcher.py])

    A shallow embedding of [PluginDevWatcher]: the manifest loader, the build
    verifier, the artifact copier, the two debounce gates, the change-event
    filter and the two operating modes, followed by the properties of the
    debounced watch-build-copy pipeline.

    Conventions of the model.
    - Instants and durations ([time.time()], [st_mtime], cooldowns) are
      rationals, and their arithmetic is exact.
    - Methods run in a state-and-exception monad over the watcher object and
      the world it acts on (clock, project directory, plugin directory, and a
      trace of the effects performed).
    - What the outside world decides (the outcome of a [pnpm] run, whether a
      [copy2] or a [mkdir] fails, the parsed manifest) is an explicit input.
    - Strings hold code points below 256, and the standard output takes
      what the script prints: a [print] does not fail.
    - Looking a path up ([exists], [stat]) answers; [json.load] returns a
      value or raises [JSONDecodeError]. The failures left out this way
      (a directory that may not be searched, a manifest nested too deep or
      not in UTF-8) are outside the model.

    The last part embeds the version bump of [scripts/bump-version.py]:
    [parse_version], [bump_version] and the [main] that rewrites the three
    release files. *)

From Stdlib Require Import Ascii String QArith Qminmax Lqa.
From stdpp Require Import base option list gmap strings pretty.

Set Warnings "-register-all".

Local Open Scope string_scope.
Local Open Scope list_scope.
Local Open Scope Z_scope.

(** ** Strings, as [str] offers them *)

Module Str.

Fixpoint startswith (p s : string) : bool :=
  match p, s with
  | EmptyString, _ => true
  | String a p', String b s' => if Ascii.eqb a b then startswith p' s' else false
  | String _ _, EmptyString => false
  end.

(** [s.split(sep)] for a one-character separator: never empty. *)
Fixpoint split (sep : ascii) (s : string) : list string :=
  match s with
  | EmptyString => [EmptyString]
  | String c s' =>
      if Ascii.eqb c sep then EmptyString :: split sep s'
      else match split sep s' with
           | [] => [String c EmptyString]
           | w :: ws => String c w :: ws
           end
  end.

(** [sep.join(l)] *)
Fixpoint join (sep : string) (l : list string) : string :=
  match l with
  | [] => ""
  | [w] => w
  | w :: ws => w +:+ sep +:+ join sep ws
  end.

(** [s.rfind(c)]: the index of the last occurrence of [c], if any. *)
Fixpoint rfind (c : ascii) (s : string) : option nat :=
  match s with
  | EmptyString => None
  | String a s' =>
      match rfind c s' with
      | Some i => Some (S i)
      | None => if Ascii.eqb a c then Some O else None
      end
  end.

(** [s[i:]] *)
Fixpoint drop (i : nat) (s : string) : string :=
  match i, s with
  | O, _ => s
  | S i', String _ s' => drop i' s'
  | S _, EmptyString => EmptyString
  end.

(** [c.isspace()] on the ASCII range. *)
Definition is_space (c : ascii) : bool :=
  let n := Ascii.nat_of_ascii c in
  (Nat.eqb n 32 || (Nat.leb 9 n && Nat.leb n 13)
   || (Nat.leb 28 n && Nat.leb n 31))%bool.

Fixpoint lstrip (s : string) : string :=
  match s with
  | String c s' => if is_space c then lstrip s' else s
  | EmptyString => EmptyString
  end.

(** [s.strip()] *)
Definition strip (s : string) : string :=
  String.rev (lstrip (String.rev (lstrip s))).

Definition lines (s : string) : list string := split "010"%char (strip s).

Definition nonempty (s : string) : bool :=
  match s with EmptyString => false | _ => true end.

Definition mem (s : string) (l : list string) : bool :=
  existsb (String.eqb s) l.

End Str.

(** ** Paths, as [pathlib.PurePosixPath] parses and joins them *)

Record Path := { path_root : string; path_tail : list string }.

Module PathOps.

(** The components between slashes, without the empty ones and [.]. *)
Definition components (s : string) : list string :=
  filter (λ w, w ≠ "" ∧ w ≠ ".") (Str.split "/"%char s).

(** Exactly two leading slashes are kept as the root [//]. *)
Definition root_of (s : string) : string :=
  if Str.startswith "///" s then "/"
  else if Str.startswith "//" s then "//"
  else if Str.startswith "/" s then "/"
  else "".

(** [Path(s)] *)
Definition of_string (s : string) : Path :=
  {| path_root := root_of s; path_tail := components s |}.

(** [p / s]: an absolute segment replaces the path. *)
Definition joinpath (p : Path) (s : string) : Path :=
  if Str.startswith "/" s then of_string s
  else {| path_root := path_root p; path_tail := path_tail p ++ components s |}.

(** [str(p)] *)
Definition to_string (p : Path) : string :=
  match path_root p, path_tail p with
  | EmptyString, [] => "."
  | r, t => r +:+ Str.join "/" t
  end.

(** [p.parts] *)
Definition parts (p : Path) : list string :=
  if Str.nonempty (path_root p) then path_root p :: path_tail p else path_tail p.

(** [p.name] *)
Definition name (p : Path) : string := List.last (path_tail p) "".

(** [p.suffix] *)
Definition suffix (p : Path) : string :=
  let n := name p in
  match Str.rfind "."%char n with
  | Some i =>
      if (Nat.ltb 0 i && Nat.ltb i (String.length n - 1))%bool
      then Str.drop i n else ""
  | None => ""
  end.

Fixpoint is_prefix (l k : list string) : bool :=
  match l, k with
  | [], _ => true
  | a :: l', b :: k' => (String.eqb a b && is_prefix l' k')%bool
  | _ :: _, [] => false
  end.

(** [p.is_relative_to(other)]: [other] is [p] or one of its parents. *)
Definition is_relative_to (p other : Path) : bool :=
  (String.eqb (path_root p) (path_root other)
   && is_prefix (path_tail other) (path_tail p))%bool.

End PathOps.

Notation "p // s" := (PathOps.joinpath p s) (at level 40, left associativity).

(** ** Parsed JSON, as [json.load] returns it *)

Inductive JSON :=
| JNull
| JBool (b : bool)
| JInt (n : Z)
| JFloat (q : Q)
| JStr (s : string)
| JList (l : list JSON)
| JDict (d : gmap string JSON).

(** ** Files, exceptions and the trace of effects *)

(** A regular file: its bytes and its modification time. *)
Record File := { content : string; st_mtime : Q }.

Definition st_size (f : File) : Z := Z.of_nat (String.length (content f)).

Inductive Exception :=
| JSONDecodeError
| KeyError (key : string)
| TypeError
| ValueError
| AttributeError
| OSError
| TimeoutExpired.

(** One constructor per [print] of the script. *)
Inductive Message :=
| ManifestNotFound
| ManifestReadError (e : Exception)
| PluginBanner (name ident : JSON)
| CreatingPluginDir (p : Path)
| CreatedPluginDir (p : Path)
| CreatePluginDirFailed (p : Path) (e : Exception)
| PluginDirExists (p : Path)
| StartingDevMode
| DevModeStarted
| DevModeStartFailed (e : Exception)
| WaitingForInitialBuild
| InitialCopy
| MayHaveBuildIssues
| BuildingPlugin
| BuiltPlugin
| CopyingFiles
| CopiedFiles
| BuildFailed
| ReturnCode (rc : Z)
| StdoutHeader
| StderrHeader
| OutputLine (line : string)
| NoOutputCaptured
| BuildTimeoutOneMinute
| ErrorBuilding (e : Exception)
| SkippingFileCopy
| UpdatingPlugin (name : JSON)
| FailedToCopy (filename : string) (e : Exception)
| Updated (copied_files : list string)
| NoFilesToCopy
| SkippingRebuild (cooldown : Q)
| ChangeDetected (name : string)
| RebuildingPlugin
| RebuiltPlugin
| BuildTimeout
| ErrorRebuilding (e : Exception).

Inductive Effect :=
| Print (msg : Message)
| Sleep (seconds : Q)
| Run (cmd : list string) (timeout : Q)
| Popen (cmd : list string)
| Mkdir (p : Path)
| Copy2 (filename : string).

(** ** The world the watcher acts on *)

Record World := {
  clock : Q;                            (* what [time.time()] reads *)
  project_files : gmap string File;     (* regular files of [project_root], by name *)
  plugin_dir_exists : bool;             (* [plugin_dir.exists()] *)
  plugin_files : gmap string File;      (* regular files of [plugin_dir], by name *)
  mkdir_fails : bool;                   (* creating [plugin_dir] would raise *)
  copy_fails : string → bool;           (* [copy2] of that name would raise *)
  trace : list Effect                   (* effects performed so far, oldest first *)
}.

Definition set_clock (t : Q) (w : World) : World :=
  {| clock := t; project_files := project_files w;
     plugin_dir_exists := plugin_dir_exists w; plugin_files := plugin_files w;
     mkdir_fails := mkdir_fails w; copy_fails := copy_fails w; trace := trace w |}.

Definition set_project_files (fs : gmap string File) (w : World) : World :=
  {| clock := clock w; project_files := fs;
     plugin_dir_exists := plugin_dir_exists w; plugin_files := plugin_files w;
     mkdir_fails := mkdir_fails w; copy_fails := copy_fails w; trace := trace w |}.

Definition set_plugin_dir_exists (b : bool) (w : World) : World :=
  {| clock := clock w; project_files := project_files w;
     plugin_dir_exists := b; plugin_files := plugin_files w;
     mkdir_fails := mkdir_fails w; copy_fails := copy_fails w; trace := trace w |}.

Definition set_plugin_files (fs : gmap string File) (w : World) : World :=
  {| clock := clock w; project_files := project_files w;
     plugin_dir_exists := plugin_dir_exists w; plugin_files := fs;
     mkdir_fails := mkdir_fails w; copy_fails := copy_fails w; trace := trace w |}.

Definition set_trace (tr : list Effect) (w : World) : World :=
  {| clock := clock w; project_files := project_files w;
     plugin_dir_exists := plugin_dir_exists w; plugin_files := plugin_files w;
     mkdir_fails := mkdir_fails w; copy_fails := copy_fails w; trace := tr |}.

(** What one synchronous [pnpm run build] does: whether it can be launched
    at all, how long it runs, what it leaves in the project directory, and
    the completed process it hands back when it is not cut short. *)
Record BuildRun := {
  launch_fails : bool;
  duration : Q;
  writes : gmap string File → gmap string File;
  returncode : Z;
  stdout : string;
  stderr : string
}.

(** What the background [pnpm run dev] does: whether it can be launched, and
    what it has left in the project directory by the end of the grace period. *)
Record DevRun := {
  dev_launch_fails : bool;
  dev_writes : gmap string File → gmap string File
}.

Record CompletedProcess := {
  cp_returncode : Z;
  cp_stdout : string;
  cp_stderr : string
}.

Inductive Process := DevProcess.

(** ** The monad of methods: state, and exceptions that keep the state *)

Inductive Outcome (A : Type) :=
| Returned (a : A)
| Raised (e : Exception).
Arguments Returned {A} a.
Arguments Raised {A} e.

Definition M (St A : Type) : Type := St → Outcome A * St.

Global Instance M_ret {St} : MRet (M St) := λ A a s, (Returned a, s).

Global Instance M_bind {St} : MBind (M St) := λ A B f c s,
  match c s with
  | (Returned a, s') => f a s'
  | (Raised e, s') => (Raised e, s')
  end.

Definition raise {St A} (e : Exception) : M St A := λ s, (Raised e, s).

Definition gets {St A} (f : St → A) : M St A := λ s, (Returned (f s), s).

Definition modify {St} (f : St → St) : M St unit := λ s, (Returned tt, f s).

(** [try: body  except ...: handler]. The handler says which exceptions it
    catches; the others propagate. *)
Definition try_except {St A} (body : M St A) (handler : Exception → option (M St A))
  : M St A := λ s,
  match body s with
  | (Returned a, s') => (Returned a, s')
  | (Raised e, s') =>
      match handler e with
      | Some h => h s'
      | None => (Raised e, s')
      end
  end.

(** [for x in l: body x] *)
Fixpoint for_each {St A} (l : list A) (body : A → M St unit) : M St unit :=
  match l with
  | [] => mret tt
  | x :: l' => body x ;; for_each l' body
  end.

(** ** The library calls the script makes *)

Module Sys.

Definition emit (e : Effect) : M World unit :=
  modify (λ w, set_trace (trace w ++ [e]) w).

Definition print (msg : Message) : M World unit := emit (Print msg).

(** [time.time()] *)
Definition time_time : M World Q := gets clock.

(** [time.sleep(seconds)] *)
Definition time_sleep (seconds : Q) : M World unit :=
  modify (λ w, set_clock (clock w + seconds)%Q w) ;; emit (Sleep seconds).

(** [(project_root / filename).exists()] *)
Definition project_file_exists (filename : string) : M World bool :=
  gets (λ w, bool_decide (is_Some (project_files w !! filename))).

(** [(project_root / filename).stat()] *)
Definition project_file_stat (filename : string) : M World File :=
  f ← gets (λ w, project_files w !! filename);
  match f with
  | Some st => mret st
  | None => raise OSError
  end.

(** [plugin_dir.mkdir(parents=True, exist_ok=True)] *)
Definition mkdir (plugin_dir : Path) : M World unit :=
  present ← gets plugin_dir_exists;
  if present : bool then mret tt
  else
    fails ← gets mkdir_fails;
    if fails : bool then raise OSError
    else modify (set_plugin_dir_exists true) ;; emit (Mkdir plugin_dir).

(** [shutil.copy2(project_root / filename, plugin_dir / filename)]: the
    bytes and the modification time go to the plugin directory. *)
Definition copy2 (filename : string) : M World unit :=
  src ← project_file_stat filename;
  present ← gets plugin_dir_exists;
  fails ← gets (λ w, copy_fails w filename);
  if (negb present || fails)%bool then raise OSError
  else
    modify (λ w, set_plugin_files (<[filename := src]> (plugin_files w)) w) ;;
    emit (Copy2 filename).

(** [subprocess.run(cmd, capture_output=True, text=True, timeout=timeout)] *)
Definition subprocess_run (b : BuildRun) (cmd : list string) (timeout : Q)
  : M World CompletedProcess :=
  emit (Run cmd timeout) ;;
  if launch_fails b then raise OSError
  else
    modify (λ w, set_project_files (writes b (project_files w)) w) ;;
    if Qle_bool (duration b) timeout then
      modify (λ w, set_clock (clock w + duration b)%Q w) ;;
      mret {| cp_returncode := returncode b;
              cp_stdout := stdout b; cp_stderr := stderr b |}
    else
      modify (λ w, set_clock (clock w + timeout)%Q w) ;;
      raise TimeoutExpired.

(** [subprocess.Popen(cmd, ...)] *)
Definition subprocess_popen (d : DevRun) (cmd : list string) : M World Process :=
  if dev_launch_fails d then raise OSError
  else
    emit (Popen cmd) ;;
    modify (λ w, set_project_files (dev_writes d (project_files w)) w) ;;
    mret DevProcess.

End Sys.

(** ** The watcher object *)

(** The dictionary [_load_plugin_info] returns. *)
Record PluginInfo := {
  plugin_id : JSON;
  plugin_name : JSON;
  plugin_dir : Path
}.

Record PluginDevWatcher := {
  project_root : Path;
  obsidian_vault_path : Path;
  last_copy_time : Q;
  last_rebuild_time : Q;
  debounce_seconds : Q;
  rebuild_debounce_seconds : Q;
  dev_process : option Process;
  plugin_info : PluginInfo
}.

Definition set_last_copy_time (t : Q) (o : PluginDevWatcher) : PluginDevWatcher :=
  {| project_root := project_root o; obsidian_vault_path := obsidian_vault_path o;
     last_copy_time := t; last_rebuild_time := last_rebuild_time o;
     debounce_seconds := debounce_seconds o;
     rebuild_debounce_seconds := rebuild_debounce_seconds o;
     dev_process := dev_process o; plugin_info := plugin_info o |}.

Definition set_last_rebuild_time (t : Q) (o : PluginDevWatcher) : PluginDevWatcher :=
  {| project_root := project_root o; obsidian_vault_path := obsidian_vault_path o;
     last_copy_time := last_copy_time o; last_rebuild_time := t;
     debounce_seconds := debounce_seconds o;
     rebuild_debounce_seconds := rebuild_debounce_seconds o;
     dev_process := dev_process o; plugin_info := plugin_info o |}.

Definition set_dev_process (p : option Process) (o : PluginDevWatcher) : PluginDevWatcher :=
  {| project_root := project_root o; obsidian_vault_path := obsidian_vault_path o;
     last_copy_time := last_copy_time o; last_rebuild_time := last_rebuild_time o;
     debounce_seconds := debounce_seconds o;
     rebuild_debounce_seconds := rebuild_debounce_seconds o;
     dev_process := p; plugin_info := plugin_info o |}.

(** A method runs on the object and the world together. *)
Record Machine := { self : PluginDevWatcher; world : World }.

Definition lift {A} (c : M World A) : M Machine A := λ m,
  match c (world m) with
  | (r, w') => (r, {| self := self m; world := w' |})
  end.

Definition get_self {A} (f : PluginDevWatcher → A) : M Machine A :=
  gets (λ m, f (self m)).

Definition update_self (f : PluginDevWatcher → PluginDevWatcher) : M Machine unit :=
  modify (λ m, {| self := f (self m); world := world m |}).

Definition print (msg : Message) : M Machine unit := lift (Sys.print msg).

(** [x > y] on instants. *)
Definition Qgtb (x y : Q) : bool := negb (Qle_bool x y).
(** [x < y] on instants. *)
Definition Qltb (x y : Q) : bool := negb (Qle_bool y x).

(** An exception clause that catches every [Exception]. *)
Definition except_Exception {St A} (h : Exception → M St A)
  : Exception → option (M St A) := λ e, Some (h e).

(** ** Loading the manifest and building the object *)

(** [manifest[key]] *)
Definition subscript {St} (manifest : JSON) (key : string) : M St JSON :=
  match manifest with
  | JDict d =>
      match d !! key with
      | Some v => mret v
      | None => raise (KeyError key)
      end
  | _ => raise TypeError
  end.

(** [manifest.get(key, default)] *)
Definition dict_get {St} (manifest : JSON) (key : string) (fallback : JSON) : M St JSON :=
  match manifest with
  | JDict d => mret (default fallback (d !! key))
  | _ => raise AttributeError
  end.

(** [p / v] for a value out of the manifest: only a string is a segment. *)
Definition path_div {St} (p : Path) (v : JSON) : M St Path :=
  match v with
  | JStr s => mret (p // s)
  | _ => raise TypeError
  end.

Section Loader.

(** [json.load] on the bytes of a file; [None] is [json.JSONDecodeError]. *)
Variable json_load : string → option JSON.

Definition _load_plugin_info (project_root obsidian_vault_path : Path)
  : M World (option PluginInfo) :=
  present ← Sys.project_file_exists "manifest.json";
  if negb present then
    Sys.print ManifestNotFound ;; mret None
  else
    try_except
      (f ← Sys.project_file_stat "manifest.json";
       manifest ← match json_load (content f) with
                  | Some v => mret v
                  | None => raise JSONDecodeError
                  end;
       ident ← subscript manifest "id";
       dir ← path_div (obsidian_vault_path // ".obsidian" // "plugins") ident;
       ident' ← subscript manifest "id";
       fallback ← subscript manifest "id";
       name ← dict_get manifest "name" fallback;
       mret (Some {| plugin_id := ident'; plugin_name := name; plugin_dir := dir |}))
      (λ e, match e with
            | JSONDecodeError | KeyError _ =>
                Some (Sys.print (ManifestReadError e) ;; mret None)
            | _ => None
            end).

Definition __init__ (project_root obsidian_vault_path : Path)
  : M World PluginDevWatcher :=
  info ← _load_plugin_info project_root obsidian_vault_path;
  match info with
  | None => raise ValueError
  | Some i =>
      Sys.print (PluginBanner (plugin_name i) (plugin_id i)) ;;
      mret {| project_root := project_root;
              obsidian_vault_path := obsidian_vault_path;
              last_copy_time := 0;
              last_rebuild_time := 0;
              debounce_seconds := 2;
              rebuild_debounce_seconds := 1;
              dev_process := None;
              plugin_info := i |}
  end.

End Loader.

(** ** The methods *)

Definition pnpm_run_dev : list string := ["pnpm"; "run"; "dev"].
Definition pnpm_run_build : list string := ["pnpm"; "run"; "build"].
Definition files_to_copy : list string := ["main.js"; "styles.css"; "manifest.json"].

Definition _create_plugin_directory : M Machine bool :=
  dir ← get_self (λ o, plugin_dir (plugin_info o));
  present ← lift (gets plugin_dir_exists);
  if negb present then
    print (CreatingPluginDir dir) ;;
    try_except
      (lift (Sys.mkdir dir) ;; print (CreatedPluginDir dir) ;; mret true)
      (except_Exception (λ e, print (CreatePluginDirFailed dir e) ;; mret false))
  else
    print (PluginDirExists dir) ;; mret true.

Definition _check_build_success (is_initial_copy : bool) : M Machine bool :=
  present ← lift (Sys.project_file_exists "main.js");
  if present : bool then
    if is_initial_copy then
      st ← lift (Sys.project_file_stat "main.js");
      mret (0 <? st_size st)
    else
      current_time ← lift Sys.time_time;
      st ← lift (Sys.project_file_stat "main.js");
      mret (Qltb (current_time - st_mtime st) 30)
  else mret false.

(** The loop over [files_to_copy], threading [copied_files]. *)
Fixpoint copy_each (files copied_files : list string) : M Machine (list string) :=
  match files with
  | [] => mret copied_files
  | filename :: rest =>
      present ← lift (Sys.project_file_exists filename);
      copied_files' ←
        (if present : bool then
           try_except
             (lift (Sys.copy2 filename) ;; mret (copied_files ++ [filename]))
             (except_Exception (λ e, print (FailedToCopy filename e) ;; mret copied_files))
         else mret copied_files);
      copy_each rest copied_files'
  end.

Definition _copy_plugin_files (is_initial_copy : bool) : M Machine bool :=
  ok ← _check_build_success is_initial_copy;
  if negb ok then
    print SkippingFileCopy ;; mret false
  else
    dir ← get_self (λ o, plugin_dir (plugin_info o));
    name ← get_self (λ o, plugin_name (plugin_info o));
    lift (Sys.mkdir dir) ;;
    print (UpdatingPlugin name) ;;
    copied_files ← copy_each files_to_copy [];
    match copied_files with
    | _ :: _ => print (Updated copied_files) ;; mret true
    | [] => print NoFilesToCopy ;; mret false
    end.

Definition _should_copy : M Machine bool :=
  current_time ← lift Sys.time_time;
  last ← get_self last_copy_time;
  cooldown ← get_self debounce_seconds;
  if Qgtb (current_time - last) cooldown then
    update_self (set_last_copy_time current_time) ;; mret true
  else mret false.

Definition _should_rebuild : M Machine bool :=
  current_time ← lift Sys.time_time;
  last ← get_self last_rebuild_time;
  cooldown ← get_self rebuild_debounce_seconds;
  if Qgtb (current_time - last) cooldown then
    update_self (set_last_rebuild_time current_time) ;; mret true
  else mret false.

(** The report both build paths print for a non-zero return code. *)
Definition print_build_failure (result : CompletedProcess) : M Machine unit :=
  print BuildFailed ;;
  print (ReturnCode (cp_returncode result)) ;;
  (if Str.nonempty (cp_stdout result) then
     print StdoutHeader ;;
     for_each (Str.lines (cp_stdout result)) (λ line, print (OutputLine line))
   else mret tt) ;;
  (if Str.nonempty (cp_stderr result) then
     print StderrHeader ;;
     for_each (Str.lines (cp_stderr result)) (λ line, print (OutputLine line))
   else mret tt) ;;
  if (negb (Str.nonempty (cp_stdout result)) && negb (Str.nonempty (cp_stderr result)))%bool
  then print NoOutputCaptured
  else mret tt.

Definition start_dev_mode (d : DevRun) : M Machine bool :=
  created ← _create_plugin_directory;
  if negb created then mret false
  else
    print StartingDevMode ;;
    launched ←
      try_except
        (p ← lift (Sys.subprocess_popen d pnpm_run_dev);
         update_self (set_dev_process (Some p)) ;;
         print DevModeStarted ;; mret true)
        (except_Exception (λ e, print (DevModeStartFailed e) ;; mret false));
    if negb launched then mret false
    else
      print WaitingForInitialBuild ;;
      lift (Sys.time_sleep 3) ;;
      print InitialCopy ;;
      copied ← _copy_plugin_files true;
      (if negb copied then print MayHaveBuildIssues else mret tt) ;;
      mret true.

Definition build_and_copy_once (b : BuildRun) : M Machine bool :=
  created ← _create_plugin_directory;
  if negb created then mret false
  else
    print BuildingPlugin ;;
    try_except
      (result ← lift (Sys.subprocess_run b pnpm_run_build 60);
       if (cp_returncode result =? 0)%Z then
         print BuiltPlugin ;;
         print CopyingFiles ;;
         copied ← _copy_plugin_files true;
         if copied : bool then print CopiedFiles ;; mret true
         else print MayHaveBuildIssues ;; mret false
       else
         print_build_failure result ;; mret false)
      (λ e, match e with
            | TimeoutExpired => Some (print BuildTimeoutOneMinute ;; mret false)
            | _ => Some (print (ErrorBuilding e) ;; mret false)
            end).

Definition _rebuild_plugin (b : BuildRun) : M Machine unit :=
  print RebuildingPlugin ;;
  try_except
    (result ← lift (Sys.subprocess_run b pnpm_run_build 30);
     if (cp_returncode result =? 0)%Z then
       print RebuiltPlugin ;;
       _copy_plugin_files false ;; mret tt
     else
       print_build_failure result)
    (λ e, match e with
          | TimeoutExpired => Some (print BuildTimeout)
          | _ => Some (print (ErrorRebuilding e))
          end).

(** A notification of the watcher service. *)
Record Event := { is_directory : bool; src_path : string }.

Definition source_suffixes : list string :=
  [".ts"; ".tsx"; ".js"; ".jsx"; ".json"; ".css"].
Definition config_files : list string :=
  ["package.json"; "tsconfig.json"; "esbuild.config.mjs"].

Definition on_modified (event : Event) (b : BuildRun) : M Machine unit :=
  if is_directory event then mret tt
  else
    let file_path := PathOps.of_string (src_path event) in
    if (String.eqb (PathOps.name file_path) "main.js"
        || Str.startswith "." (PathOps.name file_path)
        || Str.mem "node_modules" (PathOps.parts file_path)
        || negb (Str.mem (PathOps.suffix file_path) source_suffixes))%bool
    then mret tt
    else
      root ← get_self project_root;
      if negb (PathOps.is_relative_to file_path (root // "src")
               || Str.mem (PathOps.name file_path) config_files)%bool
      then mret tt
      else
        go ← _should_rebuild;
        if negb go then
          cooldown ← get_self rebuild_debounce_seconds;
          print (SkippingRebuild cooldown)
        else
          print (ChangeDetected (PathOps.name file_path)) ;;
          lift (Sys.time_sleep 1) ;;
          _rebuild_plugin b.

(** ** Running the watcher over a stream of notifications *)

(** One call of the handler: the instant the clock shows when it starts, the
    notification, and what the build would do if this call runs it.
    [deliver] makes the call at that instant, whatever the clock showed
    before; the calls the observer really makes, one after the other, are
    those of [dispatch] below. *)
Record Delivery := { at_time : Q; notified : Event; build : BuildRun }.

Definition deliver (d : Delivery) : M Machine unit :=
  lift (modify (set_clock (at_time d))) ;;
  on_modified (notified d) (build d).

Definition watch (ds : list Delivery) : M Machine unit := for_each ds deliver.

(** ** The observer thread

    The observer calls the handler for one notification at a time, in the
    order of arrival, and the handler sleeps and builds before it returns: a
    notification that arrives meanwhile waits. In [dispatch] the field
    [at_time] is the instant of arrival; the handler is called at the later
    of that instant and the clock the call before it left. *)
Definition at_handling (d : Delivery) (m : Machine) : Delivery :=
  {| at_time := Qmax (clock (world m)) (at_time d);
     notified := notified d; build := build d |}.

Definition dispatch (d : Delivery) : M Machine unit := λ m,
  deliver (at_handling d m) m.



(** The filter of [on_modified] as one predicate of the notification. *)
Definition relevant (root : Path) (event : Event) : bool :=
  let file_path := PathOps.of_string (src_path event) in
  (negb (is_directory event)
   && negb (String.eqb (PathOps.name file_path) "main.js"
            || Str.startswith "." (PathOps.name file_path)
            || Str.mem "node_modules" (PathOps.parts file_path)
            || negb (Str.mem (PathOps.suffix file_path) source_suffixes))
   && (PathOps.is_relative_to file_path (root // "src")
       || Str.mem (PathOps.name file_path) config_files))%bool.

(** What a trace says happened. *)
Definition is_run (e : Effect) : bool :=
  match e with Run _ _ => true | _ => false end.
Definition is_copy (e : Effect) : bool :=
  match e with Copy2 _ => true | _ => false end.

(** The number of builds a trace ran, and the files it copied, in order. *)
Definition builds_run (tr : list Effect) : nat := length (List.filter is_run tr).
Definition files_copied (tr : list Effect) : list string :=
  omap (λ e, match e with Copy2 f => Some f | _ => None end) tr.

(** What [_check_build_success] decides, read off the world. *)
Definition verified (is_initial_copy : bool) (w : World) : bool :=
  match project_files w !! "main.js" with
  | Some st =>
      if is_initial_copy then (0 <? st_size st)%Z
      else Qltb (clock w - st_mtime st) 30
  | None => false
  end.

(** Whether the copy of one name goes through once [plugin_dir] is there:
    the file is in the project directory and [copy2] does not raise. *)
Definition copyable (w : World) (filename : string) : bool :=
  (bool_decide (is_Some (project_files w !! filename))
   && negb (copy_fails w filename))%bool.

(** The plugin directory after the named project files went into it. *)
Definition copied_into (w : World) (names : list string) : gmap string File :=
  foldl (λ dir filename,
           match project_files w !! filename with
           | Some f => <[filename := f]> dir
           | None => dir
           end)
        (plugin_files w) names.

(** ** Sample inputs *)

(** The watcher [__init__] builds for the plugin [my-plugin] in [/vault]. *)
Definition sample_watcher : PluginDevWatcher :=
  {| project_root := PathOps.of_string "/home/dev/my-plugin";
     obsidian_vault_path := PathOps.of_string "/vault";
     last_copy_time := 0;
     last_rebuild_time := 0;
     debounce_seconds := 2;
     rebuild_debounce_seconds := 1;
     dev_process := None;
     plugin_info :=
       {| plugin_id := JStr "my-plugin";
          plugin_name := JStr "my-plugin";
          plugin_dir := PathOps.of_string "/vault/.obsidian/plugins/my-plugin" |} |}.

(** A [main.js] with the given bytes, written at instant 1000. *)
Definition artifact_of (bytes : string) : File :=
  {| content := bytes; st_mtime := 1000 |}.

(** The text of a manifest that holds the id [my-plugin] and no name. *)
Definition sample_manifest_text : string :=
  let q := String "034"%char "" in
  "{" +:+ q +:+ "id" +:+ q +:+ ": " +:+ q +:+ "my-plugin" +:+ q +:+ "}".

(** What [json.load] makes of that text; any other text is malformed here. *)
Definition sample_json_load (text : string) : option JSON :=
  if String.eqb text sample_manifest_text
  then Some (JDict {[ "id" := JStr "my-plugin" ]})
  else None.

(** A project directory with the three files, at instant 1000, next to an
    existing and empty plugin directory; nothing fails. *)
Definition sample_world (main_js : File) : World :=
  {| clock := 1000;
     project_files :=
       {[ "main.js" := main_js;
          "styles.css" := {| content := "body{}"; st_mtime := 900 |};
          "manifest.json" := {| content := sample_manifest_text; st_mtime := 800 |} ]};
     plugin_dir_exists := true;
     plugin_files := ∅;
     mkdir_fails := false;
     copy_fails := λ _, false;
     trace := [] |}.

Definition sample_machine (main_js : File) : Machine :=
  {| self := sample_watcher; world := sample_world main_js |}.

(** A save of a source file of the project. *)
Definition sample_event : Event :=
  {| is_directory := false; src_path := "/home/dev/my-plugin/src/main.ts" |}.

(** A build that takes a quarter of a second and exits with the given code;
    it leaves the project directory as it is. *)
Definition build_exiting (code : Z) (err : string) : BuildRun :=
  {| launch_fails := false; duration := 0.25; writes := λ files, files;
     returncode := code; stdout := ""; stderr := err |}.


(** The save delivered at the instant [t]. *)
Definition save_at (t : Q) (b : BuildRun) : Delivery :=
  {| at_time := t; notified := sample_event; build := b |}.

(** Following the specification's words: a handler that sends a relevant
    notification through the change-acceptance gate and then through the
    rebuild-acceptance gate, and rebuilds when both accept. *)
Definition on_modified_two_gates (event : Event) (b : BuildRun) : M Machine unit :=
  root ← get_self project_root;
  if negb (relevant root event) then mret tt
  else
    change ← _should_copy;
    if negb change then mret tt
    else
      go ← _should_rebuild;
      if negb go then mret tt
      else
        lift (Sys.time_sleep 1) ;;
        _rebuild_plugin b.

Definition watch_two_gates (ds : list Delivery) : M Machine unit :=
  for_each ds (λ d, lift (modify (set_clock (at_time d))) ;;
                    on_modified_two_gates (notified d) (build d)).

(** An identifier that is one plain path component: no slash, not empty,
    not a dot. *)
Definition plain_component (s : string) : Prop :=
  Str.rfind "/"%char s = None ∧ s ≠ "" ∧ s ≠ ".".

(** ** Relations between the machine before and after a method *)

(** Every run of [c] relates the machine it starts from to the one it
    leaves, whether it returns or raises. *)
Definition preserves (R : relation Machine) {A} (c : M Machine A) : Prop :=
  ∀ m, R m (c m).2.

(** The method always returns. *)
Definition never_raises {St A} (c : M St A) : Prop := ∀ s, ∃ a, (c s).1 = Returned a.

(** The object is kept and no build is run. *)
Definition quiet (m m' : Machine) : Prop :=
  self m' = self m
  ∧ builds_run (trace (world m')) = builds_run (trace (world m)).

(** The object is kept and exactly one build is run. *)
Definition one_build (m m' : Machine) : Prop :=
  self m' = self m
  ∧ builds_run (trace (world m')) = S (builds_run (trace (world m))).

(** The plugin directory keeps its files and no [copy2] is called. *)
Definition no_copy (m m' : Machine) : Prop :=
  plugin_files (world m') = plugin_files (world m)
  ∧ files_copied (trace (world m')) = files_copied (trace (world m)).

(** What the copy loop never touches. *)
Record same_surroundings (m m' : Machine) : Prop := {
  same_self : self m' = self m;
  same_clock : clock (world m') = clock (world m);
  same_project_files : project_files (world m') = project_files (world m);
  same_plugin_dir_exists : plugin_dir_exists (world m') = plugin_dir_exists (world m);
  same_mkdir_fails : mkdir_fails (world m') = mkdir_fails (world m);
  same_copy_fails : copy_fails (world m') = copy_fails (world m);
  same_builds_run : builds_run (trace (world m')) = builds_run (trace (world m))
}.

(** The world is as it was, but for messages printed. *)
Definition only_logs (m m' : Machine) : Prop :=
  self m' = self m
  ∧ ∃ msgs, world m' = set_trace (trace (world m) ++ map Print msgs) (world m).

(** The failures the outside world has in store stay the same. *)
Definition keeps_oracles (m m' : Machine) : Prop :=
  mkdir_fails (world m') = mkdir_fails (world m)
  ∧ copy_fails (world m') = copy_fails (world m).

(** What a one-shot run does, read off the build and the world it starts
    from: whether the build got launched, what the project directory holds
    afterwards, whether the build counts as done and its artifact as
    verified, and the names that go to the plugin directory. *)
Definition one_shot_launched (b : BuildRun) (w : World) : bool :=
  ((plugin_dir_exists w || negb (mkdir_fails w)) && negb (launch_fails b))%bool.

Definition one_shot_project (b : BuildRun) (w : World) : gmap string File :=
  if one_shot_launched b w then writes b (project_files w) else project_files w.

Definition one_shot_verified (b : BuildRun) (w : World) : bool :=
  (one_shot_launched b w && Qle_bool (duration b) 60 && (returncode b =? 0)%Z
   && match one_shot_project b w !! "main.js" with
      | Some f => (0 <? st_size f)%Z
      | None => false
      end)%bool.

Definition one_shot_copied (b : BuildRun) (w : World) : list string :=
  if one_shot_verified b w
  then List.filter (copyable (set_project_files (one_shot_project b w) w)) files_to_copy
  else [].

(** Asking a gate at each of a list of instants, in order. *)
Fixpoint poll (gate : M Machine bool) (instants : list Q) : M Machine (list bool) :=
  match instants with
  | [] => mret []
  | t :: rest =>
      lift (modify (set_clock t)) ;;
      accepted ← gate;
      answers ← poll gate rest;
      mret (accepted :: answers)
  end.

(** How many times a gate said yes. *)
Definition accepted_count (answers : list bool) : nat :=
  length (List.filter (λ accepted, accepted) answers).

(** ** Shutting down *)

(** What the background process does when told to stop: whether
    [terminate()] raises, how many seconds it takes to exit after the
    signal ([None]: it does not exit), and whether [kill()] raises. *)
Record Shutdown := {
  terminate_fails : bool;
  exits_after : option Q;
  kill_fails : bool
}.

(** One constructor per [print] of [cleanup]. *)
Inductive StopMessage :=
| CleaningUp
| StoppedDevMode
| ForceKilledDevMode
| ErrorStopping (e : Exception).

Inductive StopStep :=
| Said (msg : StopMessage)
| Terminate
| Wait (timeout : Q)
| Kill.

(** The clock and what [cleanup] has done so far, oldest first. *)
Record Stopping := { stop_clock : Q; stop_steps : list StopStep }.

Module Proc.

Definition step (s : StopStep) : M Stopping unit :=
  modify (λ st, {| stop_clock := stop_clock st;
                   stop_steps := stop_steps st ++ [s] |}).

Definition say (msg : StopMessage) : M Stopping unit := step (Said msg).

(** [dev_process.terminate()] *)
Definition terminate (s : Shutdown) : M Stopping unit :=
  if terminate_fails s then raise OSError else step Terminate.

(** [dev_process.wait(timeout=timeout)] *)
Definition wait (s : Shutdown) (timeout : Q) : M Stopping unit :=
  step (Wait timeout) ;;
  match exits_after s with
  | Some seconds =>
      if Qle_bool seconds timeout then
        modify (λ st, {| stop_clock := (stop_clock st + seconds)%Q;
                         stop_steps := stop_steps st |})
      else
        modify (λ st, {| stop_clock := (stop_clock st + timeout)%Q;
                         stop_steps := stop_steps st |}) ;;
        raise TimeoutExpired
  | None =>
      modify (λ st, {| stop_clock := (stop_clock st + timeout)%Q;
                       stop_steps := stop_steps st |}) ;;
      raise TimeoutExpired
  end.

(** [dev_process.kill()] *)
Definition kill (s : Shutdown) : M Stopping unit :=
  if kill_fails s then raise OSError else step Kill.

End Proc.

Definition cleanup (o : PluginDevWatcher) (s : Shutdown) : M Stopping unit :=
  Proc.say CleaningUp ;;
  match dev_process o with
  | Some _ =>
      try_except
        (Proc.terminate s ;;
         Proc.wait s 5 ;;
         Proc.say StoppedDevMode)
        (λ e, match e with
              | TimeoutExpired => Some (Proc.kill s ;; Proc.say ForceKilledDevMode)
              | _ => Some (Proc.say (ErrorStopping e))
              end)
  | None => mret tt
  end.

(** The process exits within the five seconds [cleanup] waits. *)
Definition exits_in_time (s : Shutdown) : bool :=
  match exits_after s with
  | Some seconds => Qle_bool seconds 5
  | None => false
  end.

Definition is_kill (step : StopStep) : bool :=
  match step with Kill => true | _ => false end.

(** ** The command line *)

Inductive Mode := WatchMode | BuildMode.

(** What [parser.parse_args()] returns. *)
Record Args := { mode : Mode; vault_path : option string }.

(** One constructor per [print] of [main]. *)
Inductive Notice :=
| VaultPathNotSet
| StartingOneTimeBuild
| StartingDevelopmentMode
| ProjectRootIs (p : Path)
| ObsidianVaultIs (p : Path)
| BuildAndCopyCompleted
| BuildAndCopyFailed
| ErrorIs (e : Exception)
| FailedToStartDevelopmentMode
| WatchingForChanges.

(** How [main] ends: with [sys.exit(code)], or in its endless loop, the
    observer started and the watcher handling the notifications. *)
Inductive MainResult :=
| Exit (code : Z)
| Watches (watcher : PluginDevWatcher).

(** The calls [main] makes to set up and to stop the file watching: on
    the observer of the watchdog library and on the signal module. *)
Inductive Signal := SIGINT | SIGTERM.

Inductive WatchCall :=
| NewObserver
| Schedule
| SetHandler (sig : Signal)
| Start
| Stop
| Join.

(** Which of these calls raise, and what. *)
Definition Watchdog : Type := WatchCall → option Exception.

(** What [main] acts on: its own output, the local variable [watcher] once
    it is bound, the world of the watcher, the background process, the
    local variable [observer] once it is bound, with the calls made on it,
    and the signals that have the handler of [main] installed. *)
Record Shell := {
  console : list Notice;
  watcher : option PluginDevWatcher;
  inside : World;
  stopping : Stopping;
  observer : option (list WatchCall);
  handlers : list Signal
}.

Module Main.

Definition say (n : Notice) : M Shell unit :=
  modify (λ sh, {| console := console sh ++ [n]; watcher := watcher sh;
                   inside := inside sh; stopping := stopping sh;
                   observer := observer sh; handlers := handlers sh |}).

(** A computation on the world alone. *)
Definition in_world {A} (c : M World A) : M Shell A := λ sh,
  match c (inside sh) with
  | (r, w') => (r, {| console := console sh; watcher := watcher sh;
                      inside := w'; stopping := stopping sh;
                   observer := observer sh; handlers := handlers sh |})
  end.

(** [watcher = ...] *)
Definition bind_watcher (o : PluginDevWatcher) : M Shell unit :=
  modify (λ sh, {| console := console sh; watcher := Some o;
                   inside := inside sh; stopping := stopping sh;
                   observer := observer sh; handlers := handlers sh |}).

(** A method call on [watcher]; the object keeps what the method did to it,
    also when the method raises. *)
Definition on_watcher {A} (o : PluginDevWatcher) (c : M Machine A) : M Shell A := λ sh,
  match c {| self := o; world := inside sh |} with
  | (r, m') => (r, {| console := console sh; watcher := Some (self m');
                      inside := world m'; stopping := stopping sh;
                   observer := observer sh; handlers := handlers sh |})
  end.

(** [watcher.cleanup()] *)
Definition stop_watcher (o : PluginDevWatcher) (s : Shutdown) : M Shell unit := λ sh,
  match cleanup o s (stopping sh) with
  | (r, st') => (r, {| console := console sh; watcher := watcher sh;
                       inside := inside sh; stopping := st';
                       observer := observer sh; handlers := handlers sh |})
  end.

(** [observer = Observer()] *)
Definition new_observer (wd : Watchdog) : M Shell unit := λ sh,
  match wd NewObserver with
  | Some e => (Raised e, sh)
  | None => (Returned tt, {| console := console sh; watcher := watcher sh;
                             inside := inside sh; stopping := stopping sh;
                             observer := Some []; handlers := handlers sh |})
  end.

(** A method call on [observer]: [schedule], [start], [stop] or [join]. *)
Definition observer_call (wd : Watchdog) (call : WatchCall) : M Shell unit := λ sh,
  match wd call with
  | Some e => (Raised e, sh)
  | None => (Returned tt,
             {| console := console sh; watcher := watcher sh;
                inside := inside sh; stopping := stopping sh;
                observer := (λ calls, calls ++ [call]) <$> observer sh;
                handlers := handlers sh |})
  end.

(** [signal.signal(sig, signal_handler)] *)
Definition signal_signal (wd : Watchdog) (sig : Signal) : M Shell unit := λ sh,
  match wd (SetHandler sig) with
  | Some e => (Raised e, sh)
  | None => (Returned tt,
             {| console := console sh; watcher := watcher sh;
                inside := inside sh; stopping := stopping sh;
                observer := observer sh; handlers := handlers sh ++ [sig] |})
  end.

(** Watch mode from [observer = Observer()] to the loop. *)
Definition set_up_watching (wd : Watchdog) (o : PluginDevWatcher)
  : M Shell MainResult :=
  new_observer wd ;;
  observer_call wd Schedule ;;
  signal_signal wd SIGINT ;;
  signal_signal wd SIGTERM ;;
  observer_call wd Start ;;
  say WatchingForChanges ;;
  bound ← gets watcher;
  mret (Watches (default o bound)).

(** The clause [except Exception as e] of watch mode. *)
Definition undo_watching (s : Shutdown) (wd : Watchdog) (e : Exception)
  : M Shell MainResult :=
  say (ErrorIs e) ;;
  bound ← gets watcher;
  match bound with
  | Some o => stop_watcher o s
  | None => mret tt
  end ;;
  bound ← gets observer;
  match bound with
  | Some _ => observer_call wd Stop ;; observer_call wd Join
  | None => mret tt
  end ;;
  mret (Exit 1).

(** [args.vault_path or os.getenv("OBSIDIAN_VAULT_PATH")], when it is not
    empty. *)
Definition resolve_vault_path (args : Args) (getenv : option string) : option string :=
  let chosen :=
    match vault_path args with
    | Some v => if Str.nonempty v then Some v else getenv
    | None => getenv
    end in
  match chosen with
  | Some v => if Str.nonempty v then Some v else None
  | None => None
  end.

End Main.

Section MainProgram.

(** [json.load], the working directory and the environment variable. *)
Variable json_load : string → option JSON.
Variable cwd : Path.
Variable getenv : option string.

(** The run of [main] ends where the source enters its loop
    [while True: time.sleep(1)]. What ends that loop from outside, a signal
    or an interrupt from the keyboard, is not part of the run. *)
Definition main (args : Args) (b : BuildRun) (d : DevRun) (s : Shutdown)
    (wd : Watchdog) : M Shell MainResult :=
  match Main.resolve_vault_path args getenv with
  | None => Main.say VaultPathNotSet ;; mret (Exit 1)
  | Some v =>
      let project_root := cwd in
      let obsidian_vault_path := PathOps.of_string v in
      match mode args with
      | BuildMode =>
          Main.say StartingOneTimeBuild ;;
          Main.say (ProjectRootIs project_root) ;;
          Main.say (ObsidianVaultIs obsidian_vault_path) ;;
          try_except
            (o ← Main.in_world (__init__ json_load project_root obsidian_vault_path);
             Main.bind_watcher o ;;
             done ← Main.on_watcher o (build_and_copy_once b);
             if done : bool then
               Main.say BuildAndCopyCompleted ;; mret (Exit 0)
             else
               Main.say BuildAndCopyFailed ;; mret (Exit 1))
            (except_Exception (λ e, Main.say (ErrorIs e) ;; mret (Exit 1)))
      | WatchMode =>
          Main.say StartingDevelopmentMode ;;
          Main.say (ProjectRootIs project_root) ;;
          Main.say (ObsidianVaultIs obsidian_vault_path) ;;
          try_except
            (o ← Main.in_world (__init__ json_load project_root obsidian_vault_path);
             Main.bind_watcher o ;;
             started ← Main.on_watcher o (start_dev_mode d);
             if negb started then
               Main.say FailedToStartDevelopmentMode ;; mret (Exit 1)
             else Main.set_up_watching wd o)
            (except_Exception (Main.undo_watching s wd))
      end
  end.

End MainProgram.

(** A shell in which nothing has happened yet. *)
Definition fresh_shell (w : World) (t : Q) : Shell :=
  {| console := []; watcher := None; inside := w;
     stopping := {| stop_clock := t; stop_steps := [] |};
     observer := None; handlers := [] |}.

(** * Bumping the version ([scripts/bump-version.py]) *)

(** The strings here hold code points below 256, where [\d] is [0-9]. *)
Module Digits.

Definition is_digit (c : ascii) : bool :=
  let n := Ascii.nat_of_ascii c in (Nat.leb 48 n && Nat.leb n 57)%bool.

Definition value (c : ascii) : N := N.of_nat (Ascii.nat_of_ascii c - 48).

Fixpoint all_digits (s : string) : bool :=
  match s with
  | EmptyString => true
  | String c s' => (is_digit c && all_digits s')%bool
  end.

(** The number a run of digits writes, most significant digit first. *)
Fixpoint to_int (acc : N) (s : string) : N :=
  match s with
  | EmptyString => acc
  | String c s' => to_int (acc * 10 + value c) s'
  end.

End Digits.

(** Without the one newline that may end the string: where [$] matches. *)
Fixpoint chomp (s : string) : string :=
  match s with
  | EmptyString => EmptyString
  | String c EmptyString => if Ascii.eqb c "010"%char then EmptyString else s
  | String c s' => String c (chomp s')
  end.

(** What [(\d+)] matches in full: a run of digits that is not empty. *)
Definition version_field (s : string) : bool :=
  (Str.nonempty s && Digits.all_digits s)%bool.

Definition and_then {A B} (o : Outcome A) (k : A → Outcome B) : Outcome B :=
  match o with
  | Returned a => k a
  | Raised e => Raised e
  end.

Section Interpreter.

(** [sys.get_int_max_str_digits()]: the most decimal digits [int] reads from
    a string and [str] prints of an integer (4300 unless configured); 0
    stands for no limit, as in the interpreters that have none. *)
Variable max_str_digits : nat.

Definition within_limit (digits : nat) : bool :=
  (Nat.eqb max_str_digits 0 || Nat.leb digits max_str_digits)%bool.

(** [int(s)] on a run of digits. *)
Definition int (s : string) : Outcome N :=
  if within_limit (String.length s) then Returned (Digits.to_int 0 s)
  else Raised ValueError.

Definition printable (n : N) : bool :=
  within_limit (String.length (pretty n)).

(** [str(n)], which is how an f-string prints an integer. *)
Definition str (n : N) : Outcome string :=
  if printable n then Returned (pretty n) else Raised ValueError.

(** [re.match(r'^(\d+)\.(\d+)\.(\d+)$', version)], then [int] of each
    group. *)
Definition parse_version (version : string) : Outcome (N * N * N) :=
  match Str.split "."%char (chomp version) with
  | [major; minor; patch] =>
      if (version_field major && version_field minor && version_field patch)%bool
      then and_then (int major) (λ major,
           and_then (int minor) (λ minor,
           and_then (int patch) (λ patch,
           Returned (major, minor, patch))))
      else Raised ValueError
  | _ => Raised ValueError
  end.

(** [f"{major}.{minor}.{patch}"] *)
Definition format_version (major minor patch : N) : Outcome string :=
  and_then (str major) (λ major,
  and_then (str minor) (λ minor,
  and_then (str patch) (λ patch,
  Returned (major +:+ "." +:+ minor +:+ "." +:+ patch)))).

Definition bump_version (version bump_type : string) : Outcome string :=
  and_then (parse_version version) (λ '(major, minor, patch),
    if String.eqb bump_type "major" then format_version (major + 1) 0 0
    else if String.eqb bump_type "minor" then format_version major (minor + 1) 0
    else if String.eqb bump_type "patch" then format_version major minor (patch + 1)
    else Raised ValueError).

End Interpreter.

Definition bumps_to (limit : nat) (version bump_type : string)
    (bumped : N) (major minor patch : N) : Prop :=
  if printable limit bumped
  then ∃ new_version,
         bump_version limit version bump_type = Returned new_version
         ∧ parse_version limit new_version = Returned (major, minor, patch)
  else bump_version limit version bump_type = Raised ValueError.

(** ** The three files of a release *)

(** The truth value Python gives to what [json.load] returns. *)
Definition truthy (j : JSON) : bool :=
  match j with
  | JNull => false
  | JBool b => b
  | JInt n => negb (Z.eqb n 0)
  | JFloat q => negb (Qeq_bool q 0)
  | JStr s => Str.nonempty s
  | JList l => match l with [] => false | _ => true end
  | JDict d => negb (bool_decide (d = ∅))
  end.

Module Bump.

(** One constructor per [print] of the script. *)
Inductive Notice :=
| InvalidBumpType (bump_type : string)
| Usage
| NotFound (name : string)
| NoVersionFound
| NoMinAppVersionFound
| Bumping (current_version : JSON) (new_version bump_type : string)
| UpdatedManifest (new_version : string)
| UpdatedPackage (new_version : string)
| UpdatedVersions (new_version : string) (min_app_version : JSON)
| NewVersion (new_version : string)
| ErrorParsingJSON
| ErrorIs (e : Exception).

(** The working directory: the text of each file in it, which of them
    cannot be opened for reading or for writing, and what was printed. *)
Record Repo := {
  files : gmap string string;
  unreadable : string → bool;
  unwritable : string → bool;
  printed : list Notice
}.

Definition say (n : Notice) : M Repo unit :=
  modify (λ r, {| files := files r; unreadable := unreadable r;
                  unwritable := unwritable r; printed := printed r ++ [n] |}).

(** [path.exists()] *)
Definition exists_ (name : string) : M Repo bool :=
  gets (λ r, bool_decide (is_Some (files r !! name))).

(** [d.get(key)] *)
Definition get {St} (d : JSON) (key : string) : M St JSON :=
  match d with
  | JDict d => mret (default JNull (d !! key))
  | _ => raise AttributeError
  end.

(** [d[key] = value] *)
Definition set_item {St} (d : JSON) (key : string) (value : JSON) : M St JSON :=
  match d with
  | JDict d => mret (JDict (<[key := value]> d))
  | _ => raise TypeError
  end.

Definition of_outcome {St A} (o : Outcome A) : M St A :=
  match o with
  | Returned a => mret a
  | Raised e => raise e
  end.

Section Program.

Variable json_load : string → option JSON.
Variable json_dump : JSON → string.
Variable max_str_digits : nat.

(** [with open(path) as f: json.load(f)] *)
Definition load (name : string) : M Repo JSON := λ r,
  if unreadable r name then (Raised OSError, r)
  else match files r !! name with
       | None => (Raised OSError, r)
       | Some text =>
           match json_load text with
           | Some j => (Returned j, r)
           | None => (Raised JSONDecodeError, r)
           end
       end.

(** [with open(path, "w") as f: json.dump(j, f, indent="\t"); f.write("\n")] *)
Definition dump (name : string) (j : JSON) : M Repo unit := λ r,
  if unwritable r name then (Raised OSError, r)
  else (Returned tt,
        {| files := <[name := json_dump j +:+ String "010"%char ""]> (files r);
           unreadable := unreadable r; unwritable := unwritable r;
           printed := printed r |}).

(** [bump_version(current_version, bump_type)] on what the manifest holds:
    [re.match] takes a string only. *)
Definition bump (current_version : JSON) (bump_type : string) : M Repo string :=
  match current_version with
  | JStr version => of_outcome (bump_version max_str_digits version bump_type)
  | _ => raise TypeError
  end.

(** The result is the exit code of the script. *)
Definition main (argv : list string) : M Repo Z :=
  let manifest_path := "manifest.json" in
  let package_path := "package.json" in
  let versions_path := "versions.json" in
  let bump_type := match argv with _ :: t :: _ => t | _ => "minor" end in
  if negb (Str.mem bump_type ["major"; "minor"; "patch"]) then
    say (InvalidBumpType bump_type) ;; say Usage ;; mret 1
  else
  found ← exists_ manifest_path;
  if negb found then say (NotFound manifest_path) ;; mret 1 else
  found ← exists_ package_path;
  if negb found then say (NotFound package_path) ;; mret 1 else
  found ← exists_ versions_path;
  if negb found then say (NotFound versions_path) ;; mret 1 else
  try_except
    (manifest ← load manifest_path;
     package ← load package_path;
     versions ← load versions_path;
     current_version ← get manifest "version";
     if negb (truthy current_version) then say NoVersionFound ;; mret 1 else
     min_app_version ← get manifest "minAppVersion";
     if negb (truthy min_app_version) then say NoMinAppVersionFound ;; mret 1 else
     new_version ← bump current_version bump_type;
     say (Bumping current_version new_version bump_type) ;;
     manifest ← set_item manifest "version" (JStr new_version);
     package ← set_item package "version" (JStr new_version);
     versions ← set_item versions new_version min_app_version;
     dump manifest_path manifest ;;
     dump package_path package ;;
     dump versions_path versions ;;
     say (UpdatedManifest new_version) ;;
     say (UpdatedPackage new_version) ;;
     say (UpdatedVersions new_version min_app_version) ;;
     say (NewVersion new_version) ;;
     mret 0)
    (λ e, match e with
          | JSONDecodeError => Some (say ErrorParsingJSON ;; mret 1)
          | _ => Some (say (ErrorIs e) ;; mret 1)
          end).

(** What [json.dump] and the final newline write. *)
Definition text (j : JSON) : string := json_dump j +:+ String "010"%char "".

(** What the checks of [main] ask of the files and of the argument. *)
Definition accepts (argv : list string) (r : Repo) (bump_type : string)
    (manifest package versions : gmap string JSON)
    (new_version : string) (min_app_version : JSON) : Prop :=
  bump_type = match argv with _ :: t :: _ => t | _ => "minor" end
  ∧ (∃ t, files r !! "manifest.json" = Some t
          ∧ json_load t = Some (JDict manifest))
  ∧ (∃ t, files r !! "package.json" = Some t
          ∧ json_load t = Some (JDict package))
  ∧ (∃ t, files r !! "versions.json" = Some t
          ∧ json_load t = Some (JDict versions))
  ∧ unreadable r "manifest.json" = false
  ∧ unreadable r "package.json" = false
  ∧ unreadable r "versions.json" = false
  ∧ (∃ version, manifest !! "version" = Some (JStr version)
                ∧ bump_version max_str_digits version bump_type
                  = Returned new_version)
  ∧ manifest !! "minAppVersion" = Some min_app_version
  ∧ truthy min_app_version = true.

Definition bumped_manifest (manifest : gmap string JSON) (new_version : string)
  : string :=
  text (JDict (<["version" := JStr new_version]> manifest)).

Definition bumped_package (package : gmap string JSON) (new_version : string)
  : string :=
  text (JDict (<["version" := JStr new_version]> package)).

Definition bumped_versions (versions : gmap string JSON) (new_version : string)
    (min_app_version : JSON) : string :=
  text (JDict (<[new_version := min_app_version]> versions)).

End Program.

End Bump.

(** A release to bump: the manifest at 1.2.3 for the application 1.0.0. The
    texts of the files are named here, not spelled out. *)
Definition release_json_load (text : string) : option JSON :=
  if String.eqb text "manifest at 1.2.3" then
    Some (JDict (<["version" := JStr "1.2.3"]>
                   (<["minAppVersion" := JStr "1.0.0"]> ∅)))
  else if String.eqb text "package at 1.2.3" then
    Some (JDict (<["version" := JStr "1.2.3"]> ∅))
  else if String.eqb text "versions up to 1.2.3" then
    Some (JDict (<["1.2.3" := JStr "1.0.0"]> ∅))
  else None.

Definition release_json_dump (j : JSON) : string :=
  match j with
  | JDict d =>
      match d !! "version" with
      | Some (JStr v) => "at " +:+ v
      | _ => "versions"
      end
  | _ => "other"
  end.

Definition release_repo (unwritable : string → bool) : Bump.Repo :=
  {| Bump.files := <["manifest.json" := "manifest at 1.2.3"]>
                     (<["package.json" := "package at 1.2.3"]>
                        (<["versions.json" := "versions up to 1.2.3"]> ∅));
     Bump.unreadable := λ _, false;
     Bump.unwritable := unwritable;
     Bump.printed := [] |}.


(** The clock stands still. *)
Definition keeps_clock (m m' : Machine) : Prop :=
  clock (world m') = clock (world m).

(** * Properties *)

(** ** Running the monad *)

Lemma run_ret {St A} (a : A) (s : St) : mret (M := M St) a s = (Returned a, s).
Proof. reflexivity. Qed.

Lemma run_bind {St A B} (c : M St A) (f : A → M St B) (s : St) :
  (c ≫= f) s = match c s with
               | (Returned a, s') => f a s'
               | (Raised e, s') => (Raised e, s')
               end.
Proof. reflexivity. Qed.

Lemma run_bind_returned {St A B} (c : M St A) (f : A → M St B) s a s' :
  c s = (Returned a, s') → (c ≫= f) s = f a s'.
Proof. intros H. rewrite run_bind, H. reflexivity. Qed.

Lemma run_bind_raised {St A B} (c : M St A) (f : A → M St B) s e s' :
  c s = (Raised e, s') → (c ≫= f) s = (Raised e, s').
Proof. intros H. rewrite run_bind, H. reflexivity. Qed.

Lemma run_lift {A} (c : M World A) (m : Machine) :
  lift c m = ((c (world m)).1, {| self := self m; world := (c (world m)).2 |}).
Proof. unfold lift. destruct (c (world m)); reflexivity. Qed.

Lemma run_print (msg : Message) (m : Machine) :
  print msg m
  = (Returned tt,
     {| self := self m;
        world := set_trace (trace (world m) ++ [Print msg]) (world m) |}).
Proof. reflexivity. Qed.

Lemma machine_eta (m : Machine) : {| self := self m; world := world m |} = m.
Proof. destruct m; reflexivity. Qed.

(** Unfolding the monad down to functions on states. *)
Ltac mrun :=
  unfold mbind, M_bind, mret, M_ret, lift, gets, modify, raise, try_except,
    get_self, update_self in *;
  cbn.

(** ** Comparisons of instants *)

Lemma Qltb_lt (x y : Q) : Qltb x y = true ↔ (x < y)%Q.
Proof.
  unfold Qltb. rewrite negb_true_iff, <- not_true_iff_false, Qle_bool_iff.
  split; [apply Qnot_le_lt | apply Qlt_not_le].
Qed.

Lemma Qgtb_gt (x y : Q) : Qgtb x y = true ↔ (y < x)%Q.
Proof.
  unfold Qgtb. rewrite negb_true_iff, <- not_true_iff_false, Qle_bool_iff.
  split; [apply Qnot_le_lt | apply Qlt_not_le].
Qed.

Lemma Qgtb_le (x y : Q) : Qgtb x y = false ↔ (x <= y)%Q.
Proof. unfold Qgtb. rewrite negb_false_iff. apply Qle_bool_iff. Qed.

(** ** What a computation leaves alone

    A relation between the machine before and after, closed under the
    control structures of the monad whenever it is a preorder: exceptions
    keep the state reached, so the relation holds on every path. *)

Section Preserves.

Context (R : relation Machine) `{!PreOrder R}.

Lemma preserves_ret {A} (a : A) : preserves R (mret a).
Proof. intros m. reflexivity. Qed.

Lemma preserves_raise {A} (e : Exception) : preserves R (raise (A := A) e).
Proof. intros m. reflexivity. Qed.

Lemma preserves_bind {A B} (c : M Machine A) (f : A → M Machine B) :
  preserves R c → (∀ a, preserves R (f a)) → preserves R (c ≫= f).
Proof.
  intros Hc Hf m. rewrite run_bind. specialize (Hc m).
  destruct (c m) as [[a|e] m1]; cbn in *; [|exact Hc].
  etransitivity; [exact Hc | apply Hf].
Qed.

Lemma preserves_try {A} (body : M Machine A) handler :
  preserves R body → (∀ e h, handler e = Some h → preserves R h) →
  preserves R (try_except body handler).
Proof.
  intros Hb Hh m. unfold try_except. specialize (Hb m).
  destruct (body m) as [[a|e] m1]; cbn in *; [exact Hb|].
  destruct (handler e) as [h|] eqn:E; [|exact Hb].
  etransitivity; [exact Hb | apply (Hh e h E)].
Qed.

Lemma preserves_for_each {A} (l : list A) (body : A → M Machine unit) :
  (∀ x, preserves R (body x)) → preserves R (for_each l body).
Proof.
  intros Hb. induction l as [|x l IH]; cbn [for_each].
  - apply preserves_ret.
  - apply preserves_bind; [apply Hb | intros _; exact IH].
Qed.

Lemma preserves_gets {A} (f : Machine → A) : preserves R (gets f).
Proof. intros m. reflexivity. Qed.

End Preserves.

(** A handler that catches everything, like [except Exception]. *)
Lemma except_Exception_some {St A} (h : Exception → M St A) e k :
  except_Exception h e = Some k → k = h e.
Proof. unfold except_Exception. congruence. Qed.

(** Decomposing a method into its statements, case by case; [leaf] settles
    the library calls. *)
Ltac frame_step leaf :=
  match goal with
  | |- PreOrder _ => apply _
  | |- preserves _ (mret _) => apply preserves_ret
  | |- preserves _ (raise _) => apply preserves_raise
  | |- preserves _ (gets _) => apply preserves_gets
  | |- preserves _ (try_except _ _) => apply preserves_try
  | |- preserves _ (for_each _ _) => apply preserves_for_each
  | |- preserves _ (if ?b then _ else _) => destruct b
  | |- preserves _ (match ?x with _ => _ end) => destruct x
  | |- preserves _ (_ ≫= _) => apply preserves_bind
  | |- preserves _ _ => solve [leaf]
  | H : except_Exception _ _ = Some _ |- _ =>
      apply except_Exception_some in H; subst
  | H : Some _ = Some _ |- _ => injection H as <-
  | H : None = Some _ |- _ => discriminate H
  | H : match ?x with _ => _ end = Some _ |- _ => destruct x
  | |- ∀ _, _ => intro
  end.

Ltac frame leaf := repeat frame_step leaf.

(** ** The build verifier *)

Lemma check_build_success_run (is_initial_copy : bool) (m : Machine) :
  _check_build_success is_initial_copy m
  = (Returned (verified is_initial_copy (world m)), m).
Proof.
  destruct m as [o w].
  unfold _check_build_success, verified, Sys.project_file_exists,
    Sys.project_file_stat, Sys.time_time.
  mrun. destruct (project_files w !! "main.js") as [f|] eqn:E; cbn.
  - destruct is_initial_copy; cbn; rewrite ?E; reflexivity.
  - reflexivity.
Qed.

Lemma verified_initial (w : World) :
  verified true w = true
  ↔ ∃ f, project_files w !! "main.js" = Some f ∧ (0 < st_size f)%Z.
Proof.
  unfold verified. destruct (project_files w !! "main.js") as [f|].
  - rewrite Z.ltb_lt. split; [eauto|]. intros (f' & [= <-] & H). exact H.
  - split; [discriminate|]. intros (f' & [=] & _).
Qed.

Lemma verified_incremental (w : World) :
  verified false w = true
  ↔ ∃ f, project_files w !! "main.js" = Some f ∧ (clock w - st_mtime f < 30)%Q.
Proof.
  unfold verified. destruct (project_files w !! "main.js") as [f|].
  - rewrite Qltb_lt. split; [eauto|]. intros (f' & [= <-] & H). exact H.
  - split; [discriminate|]. intros (f' & [=] & _).
Qed.

(** C3. Build verification never raises and leaves the machine as it was.
    In initial-copy mode it returns true exactly when [main.js] exists and is
    larger than zero bytes, whatever its age; in incremental-rebuild mode it
    returns true exactly when [main.js] exists and its age at the check (the
    clock minus its modification time) is below 30 seconds, so an artifact
    older than 30 seconds is refused whatever its size; an absent artifact
    gives false in both modes. *)
Theorem check_build_success_policies (m : Machine) :
  (∃ b, _check_build_success true m = (Returned b, m)
        ∧ (b = true ↔ ∃ f, project_files (world m) !! "main.js" = Some f
                           ∧ (0 < st_size f)%Z))
  ∧ (∃ b, _check_build_success false m = (Returned b, m)
          ∧ (b = true ↔ ∃ f, project_files (world m) !! "main.js" = Some f
                             ∧ (clock (world m) - st_mtime f < 30)%Q)
          ∧ (∀ f, project_files (world m) !! "main.js" = Some f →
                  (30 < clock (world m) - st_mtime f)%Q → b = false))
  ∧ (project_files (world m) !! "main.js" = None →
     ∀ is_initial_copy,
       _check_build_success is_initial_copy m = (Returned false, m)).
Proof.
  split; [|split].
  - eexists. split; [apply check_build_success_run | apply verified_initial].
  - eexists. split; [apply check_build_success_run|].
    split; [apply verified_incremental|].
    intros f Hf Hold. apply not_true_is_false. intros Hv.
    apply verified_incremental in Hv as (f' & Hf' & Hage).
    rewrite Hf in Hf'. injection Hf' as <-. lra.
  - intros Habsent is_initial_copy. rewrite check_build_success_run.
    unfold verified. rewrite Habsent. reflexivity.
Qed.

Example stale_artifact_refused :
  let m := sample_machine {| content := "bundle"; st_mtime := 955 |} in
  _check_build_success false m = (Returned false, m)
  ∧ _check_build_success true m = (Returned true, m).
Proof. split; vm_compute; reflexivity. Qed.

Example verifier_at_the_edges :
  let at_thirty := sample_machine {| content := "bundle"; st_mtime := 970 |} in
  let ahead := sample_machine {| content := "bundle"; st_mtime := 1100 |} in
  _check_build_success false at_thirty = (Returned false, at_thirty)
  ∧ _check_build_success false ahead = (Returned true, ahead).
Proof. split; vm_compute; reflexivity. Qed.

(** C9. In incremental-rebuild mode a [main.js] of size zero whose age is
    below 30 seconds is accepted: the size is looked at in initial-copy mode
    only, where the same file is refused. *)
Theorem incremental_accepts_empty_artifact (m : Machine) (f : File) :
  project_files (world m) !! "main.js" = Some f →
  st_size f = 0%Z →
  (clock (world m) - st_mtime f < 30)%Q →
  _check_build_success false m = (Returned true, m)
  ∧ _check_build_success true m = (Returned false, m).
Proof.
  intros Hf Hsize Hage. rewrite !check_build_success_run.
  unfold verified. rewrite Hf, Hsize. split; f_equal; f_equal.
  - apply Qltb_lt. exact Hage.
Qed.

(** Projections of updated records. *)
Ltac fields :=
  cbn [self world clock project_files plugin_dir_exists plugin_files
       mkdir_fails copy_fails trace set_clock set_project_files
       set_plugin_dir_exists set_plugin_files set_trace
       last_copy_time last_rebuild_time debounce_seconds
       rebuild_debounce_seconds dev_process plugin_info project_root
       obsidian_vault_path set_last_copy_time set_last_rebuild_time
       set_dev_process fst snd] in *.

(** ** Reading traces *)

Lemma files_copied_app (tr1 tr2 : list Effect) :
  files_copied (tr1 ++ tr2) = files_copied tr1 ++ files_copied tr2.
Proof. apply omap_app. Qed.

Lemma builds_run_app (tr1 tr2 : list Effect) :
  builds_run (tr1 ++ tr2) = (builds_run tr1 + builds_run tr2)%nat.
Proof. unfold builds_run. rewrite List.filter_app, length_app. reflexivity. Qed.

(** ** The artifact copier *)

Lemma copy_each_run (files : list string) :
  ∀ (copied_files : list string) (m : Machine),
    plugin_dir_exists (world m) = true →
    let new := List.filter (copyable (world m)) files in
    ∃ m', copy_each files copied_files m = (Returned (copied_files ++ new), m')
          ∧ same_surroundings m m'
          ∧ files_copied (trace (world m'))
            = files_copied (trace (world m)) ++ new
          ∧ plugin_files (world m') = copied_into (world m) new.
Proof.
  induction files as [|filename rest IH]; intros copied_files m Hdir new.
  - exists m. subst new. cbn. rewrite !app_nil_r.
    repeat split; reflexivity.
  - destruct m as [o w]. cbn [world] in *.
    subst new. cbn [copy_each List.filter].
    unfold Sys.project_file_exists, Sys.copy2, Sys.project_file_stat, Sys.emit,
      print, Sys.print, Sys.emit, except_Exception.
    mrun.
    destruct (project_files w !! filename) as [f|] eqn:Hf; cbn.
    + rewrite Hf, Hdir. cbn. destruct (copy_fails w filename) eqn:Hfail; cbn.
      * assert (copyable w filename = false) as ->
          by (unfold copyable; rewrite Hfail, andb_false_r; reflexivity).
        destruct (IH copied_files
                    {| self := o;
                       world := set_trace
                                  (trace w ++ [Print (FailedToCopy filename OSError)]) w |}
                    Hdir) as (m' & Hrun & Hsame & Hcopied & Hdirfiles).
        exists m'. cbn [world] in *.
        split; [exact Hrun|]. split; [|split].
        -- destruct Hsame; split; fields; try assumption.
           rewrite same_builds_run0, builds_run_app, Nat.add_0_r. reflexivity.
        -- rewrite Hcopied. cbn. rewrite files_copied_app, app_nil_r. reflexivity.
        -- exact Hdirfiles.
      * assert (copyable w filename = true) as ->
          by (unfold copyable; rewrite Hf, Hfail; reflexivity).
        destruct (IH (copied_files ++ [filename])
                    {| self := o;
                       world := set_trace (trace w ++ [Copy2 filename])
                                  (set_plugin_files (<[filename:=f]> (plugin_files w)) w) |}
                    Hdir) as (m' & Hrun & Hsame & Hcopied & Hdirfiles).
        exists m'. cbn [world] in *.
        split; [rewrite Hrun, <- app_assoc; reflexivity|]. split; [|split].
        -- destruct Hsame; split; fields; try assumption.
           rewrite same_builds_run0, builds_run_app, Nat.add_0_r. reflexivity.
        -- rewrite Hcopied. cbn. rewrite files_copied_app, <- app_assoc. reflexivity.
        -- rewrite Hdirfiles. unfold copied_into. cbn. rewrite Hf. reflexivity.
    + assert (copyable w filename = false) as ->
        by (unfold copyable; rewrite Hf; reflexivity).
      apply (IH copied_files {| self := o; world := w |} Hdir).
Qed.

Lemma copy_plugin_files_unverified (is_initial_copy : bool) (m : Machine) :
  verified is_initial_copy (world m) = false →
  _copy_plugin_files is_initial_copy m
  = (Returned false, (print SkippingFileCopy m).2).
Proof.
  intros Hv. unfold _copy_plugin_files.
  rewrite (run_bind_returned _ _ _ _ _ (check_build_success_run _ m)), Hv.
  reflexivity.
Qed.

Lemma copy_plugin_files_mkdir_error (is_initial_copy : bool) (m : Machine) :
  verified is_initial_copy (world m) = true →
  plugin_dir_exists (world m) = false →
  mkdir_fails (world m) = true →
  _copy_plugin_files is_initial_copy m = (Raised OSError, m).
Proof.
  intros Hv Hdir Hfail. unfold _copy_plugin_files.
  rewrite (run_bind_returned _ _ _ _ _ (check_build_success_run _ m)), Hv.
  destruct m as [o w]. fields. unfold Sys.mkdir. mrun.
  rewrite Hdir, Hfail. reflexivity.
Qed.

Lemma copy_plugin_files_copies (is_initial_copy : bool) (m : Machine) :
  verified is_initial_copy (world m) = true →
  plugin_dir_exists (world m) || negb (mkdir_fails (world m)) = true →
  let new := List.filter (copyable (world m)) files_to_copy in
  ∃ m', _copy_plugin_files is_initial_copy m
        = (Returned (bool_decide (new ≠ [])), m')
        ∧ self m' = self m
        ∧ clock (world m') = clock (world m)
        ∧ project_files (world m') = project_files (world m)
        ∧ plugin_dir_exists (world m') = true
        ∧ builds_run (trace (world m')) = builds_run (trace (world m))
        ∧ files_copied (trace (world m')) = files_copied (trace (world m)) ++ new
        ∧ plugin_files (world m') = copied_into (world m) new.
Proof.
  intros Hv Hdir. remember files_to_copy as files eqn:Hfiles_eq. intros new.
  unfold _copy_plugin_files. rewrite <- Hfiles_eq.
  rewrite (run_bind_returned _ _ _ _ _ (check_build_success_run _ m)), Hv.
  destruct m as [o w]. fields. cbn [negb].
  set (dir := plugin_dir (plugin_info o)).
  set (w1 := if plugin_dir_exists w then w
             else set_trace (trace w ++ [Mkdir dir]) (set_plugin_dir_exists true w)).
  set (w2 := set_trace (trace w1 ++ [Print (UpdatingPlugin (plugin_name (plugin_info o)))]) w1).
  assert (Hw2 : plugin_dir_exists w2 = true ∧ clock w2 = clock w
                ∧ project_files w2 = project_files w
                ∧ copy_fails w2 = copy_fails w
                ∧ plugin_files w2 = plugin_files w
                ∧ builds_run (trace w2) = builds_run (trace w)
                ∧ files_copied (trace w2) = files_copied (trace w)).
  { subst w2 w1. destruct (plugin_dir_exists w) eqn:E; fields;
      rewrite ?builds_run_app, ?files_copied_app; cbn;
      rewrite ?Nat.add_0_r, ?app_nil_r; auto 10. }
  destruct Hw2 as (Hd2 & Hc2 & Hp2 & Hf2 & Hpf2 & Hb2 & Hfc2).
  assert (Hnew : List.filter (copyable w2) files = new).
  { subst new. unfold copyable. rewrite Hp2, Hf2. reflexivity. }
  destruct (copy_each_run files [] {| self := o; world := w2 |} Hd2)
    as (m3 & Hrun & Hsame & Hcopied & Hfiles).
  fields. rewrite Hnew in *. cbn [app] in Hrun.
  exists (match new with
          | [] => (print NoFilesToCopy m3).2
          | _ :: _ => (print (Updated new) m3).2
          end).
  split.
  - unfold Sys.mkdir, print, Sys.print, Sys.emit. mrun.
    subst w2 w1 dir.
    destruct (plugin_dir_exists w) eqn:E; cbn.
    + cbn in Hrun. rewrite Hrun. destruct new; reflexivity.
    + cbn in Hdir. apply negb_true_iff in Hdir. rewrite Hdir. cbn.
      cbn in Hrun. rewrite Hrun. destruct new; reflexivity.
  - destruct Hsame. fields.
    assert (Hinto : copied_into w2 new = copied_into w new)
      by (unfold copied_into; rewrite Hp2, Hpf2; reflexivity).
    destruct new as [|n new']; rewrite run_print; fields;
      rewrite ?builds_run_app, ?files_copied_app;
      cbn [builds_run files_copied omap List.filter is_run length];
      rewrite ?Nat.add_0_r, ?app_nil_r in *;
      repeat split; congruence.
Qed.

Lemma copyable_spec (w : World) (filename : string) :
  copyable w filename = true
  ↔ is_Some (project_files w !! filename) ∧ copy_fails w filename = false.
Proof.
  unfold copyable. rewrite andb_true_iff, bool_decide_eq_true, negb_true_iff.
  reflexivity.
Qed.

Lemma foldl_copy_lookup (src : gmap string File) (names : list string) :
  ∀ (dir : gmap string File) (n : string),
    (∀ x, x ∈ names → is_Some (src !! x)) →
    foldl (λ dir filename,
             match src !! filename with
             | Some f => <[filename := f]> dir
             | None => dir
             end) dir names !! n
    = if bool_decide (n ∈ names) then src !! n else dir !! n.
Proof.
  induction names as [|x names IH]; intros dir n Hsrc; cbn [foldl].
  - rewrite bool_decide_eq_false_2 by apply not_elem_of_nil. reflexivity.
  - rewrite IH by (intros y Hy; apply Hsrc; right; exact Hy).
    destruct (Hsrc x (list_elem_of_here x names)) as [f Hf]. rewrite Hf.
    destruct (bool_decide (n ∈ names)) eqn:Hn.
    + apply bool_decide_eq_true in Hn.
      rewrite bool_decide_eq_true_2 by (right; exact Hn). reflexivity.
    + apply bool_decide_eq_false in Hn.
      destruct (decide (x = n)) as [->|Hne].
      * rewrite bool_decide_eq_true_2 by left.
        rewrite lookup_insert_eq. symmetry. exact Hf.
      * rewrite bool_decide_eq_false_2
          by (intros [?|?]%elem_of_cons; [congruence | tauto]).
        apply lookup_insert_ne. exact Hne.
Qed.

Lemma copied_into_lookup (w : World) (names : list string) (n : string) :
  (∀ x, x ∈ names → is_Some (project_files w !! x)) →
  copied_into w names !! n
  = if bool_decide (n ∈ names) then project_files w !! n
    else plugin_files w !! n.
Proof. apply foldl_copy_lookup. Qed.

(** C6. The copy step goes through the whole list whatever happens to one
    file: once the artifact is verified and the plugin directory is there,
    each of the three names is copied exactly when it exists in the project
    directory and its own copy does not fail, and it then sits in the plugin
    directory with the bytes and the modification time of its source. The
    step returns true exactly when the files it copied are not none; with
    none copied it returns false, or lets the error of creating the plugin
    directory through, and the plugin directory keeps its files. *)
Theorem copy_plugin_files_partial_failure (is_initial_copy : bool) (m : Machine) :
  let r := (_copy_plugin_files is_initial_copy m).1 in
  let m' := (_copy_plugin_files is_initial_copy m).2 in
  ∃ copied : list string,
    files_copied (trace (world m')) = files_copied (trace (world m)) ++ copied
    ∧ (r = Returned true ↔ copied ≠ [])
    ∧ (copied = [] →
       (r = Returned false ∨ r = Raised OSError)
       ∧ plugin_files (world m') = plugin_files (world m))
    ∧ ((_check_build_success is_initial_copy m).1 = Returned true →
       plugin_dir_exists (world m) = true ∨ mkdir_fails (world m) = false →
       (∀ filename, filename ∈ files_to_copy →
          (filename ∈ copied
           ↔ is_Some (project_files (world m) !! filename)
             ∧ copy_fails (world m) filename = false))
       ∧ (∀ filename, filename ∈ copied →
            plugin_files (world m') !! filename
            = project_files (world m) !! filename)
       ∧ (∀ filename, filename ∉ copied →
            plugin_files (world m') !! filename
            = plugin_files (world m) !! filename)).
Proof.
  cbn zeta. rewrite check_build_success_run. cbn [fst].
  destruct (verified is_initial_copy (world m)) eqn:Hv.
  - destruct (plugin_dir_exists (world m) || negb (mkdir_fails (world m)))%bool
      eqn:Hdir.
    + destruct (copy_plugin_files_copies _ _ Hv Hdir)
        as (m' & Hrun & _ & _ & _ & _ & _ & Hcopied & Hfiles).
      rewrite Hrun. cbn [fst snd].
      set (new := List.filter (copyable (world m)) files_to_copy) in *.
      assert (Hsrc : ∀ x, x ∈ new → is_Some (project_files (world m) !! x)).
      { intros x Hx. apply list_elem_of_In, filter_In in Hx as [_ Hx].
        apply copyable_spec in Hx. tauto. }
      exists new. split; [exact Hcopied|]. split; [|split].
      * split.
        -- intros [= H]. apply bool_decide_eq_true in H. exact H.
        -- intros H. f_equal. apply bool_decide_eq_true. exact H.
      * intros Hnone. split.
        -- left. f_equal. apply bool_decide_eq_false. rewrite Hnone. tauto.
        -- rewrite Hfiles, Hnone. reflexivity.
      * intros _ _. split; [|split].
        -- intros filename Hin. subst new.
           rewrite !list_elem_of_In, filter_In, copyable_spec, <- list_elem_of_In. tauto.
        -- intros filename Hin. rewrite Hfiles, copied_into_lookup by exact Hsrc.
           rewrite bool_decide_eq_true_2 by exact Hin. reflexivity.
        -- intros filename Hin. rewrite Hfiles, copied_into_lookup by exact Hsrc.
           rewrite bool_decide_eq_false_2 by exact Hin. reflexivity.
    + apply orb_false_iff in Hdir as [Hdir Hfail].
      apply negb_false_iff in Hfail.
      rewrite (copy_plugin_files_mkdir_error _ _ Hv Hdir Hfail). cbn [fst snd].
      exists []. rewrite app_nil_r. split; [reflexivity|]. split; [|split].
      * split; [discriminate | tauto].
      * intros _. split; [right|]; reflexivity.
      * intros _ [H|H]; congruence.
  - rewrite (copy_plugin_files_unverified _ _ Hv). rewrite run_print. cbn [fst snd].
    fields. exists []. rewrite files_copied_app. split; [reflexivity|].
    split; [|split].
    + split; [discriminate | tauto].
    + intros _. split; [left|]; reflexivity.
    + discriminate.
Qed.

Lemma sample_world_names (f g : File) (filename : string) :
  is_Some (project_files (sample_world f) !! filename)
  ↔ is_Some (project_files (sample_world g) !! filename).
Proof.
  unfold sample_world; cbn [project_files].
  destruct (decide (filename = "main.js")) as [->|Hne].
  - rewrite !lookup_insert_eq. split; eauto.
  - rewrite (lookup_insert_ne _ "main.js" filename f) by congruence.
    rewrite (lookup_insert_ne _ "main.js" filename g) by congruence.
    reflexivity.
Qed.

(** C5, as stated, fails, also for an artifact that the caller has
    verified: the copy step verifies again, under its own policy and at its
    own instant, and what it does depends on the modification time of
    [main.js]. The project directories below hold the same names.
    (a) The caller verifies under the initial policy, which a [main.js] of
    six bytes passes at any age, and calls the step with its default
    argument: the step refuses the artifact written 45 seconds ago and
    copies the one written at the instant of the call.
    (b) The caller verifies under the incremental policy an artifact written
    25 seconds ago and calls the step ten seconds later: the step refuses
    it, and copies the one written at the instant of the check. *)
Lemma copy_step_verifies_counterexample :
  let old := sample_machine {| content := "bundle"; st_mtime := 955 |} in
  let aged := sample_machine {| content := "bundle"; st_mtime := 975 |} in
  let fresh := sample_machine (artifact_of "bundle") in
  let later := lift (Sys.time_sleep 10) ;; _copy_plugin_files false in
  (∀ filename, is_Some (project_files (world old) !! filename)
               ↔ is_Some (project_files (world fresh) !! filename))
  ∧ (∀ filename, is_Some (project_files (world aged) !! filename)
                 ↔ is_Some (project_files (world fresh) !! filename))
  ∧ _check_build_success true old = (Returned true, old)
  ∧ _check_build_success true fresh = (Returned true, fresh)
  ∧ (_copy_plugin_files false old).1 = Returned false
  ∧ files_copied (trace (world (_copy_plugin_files false old).2)) = []
  ∧ (_copy_plugin_files false fresh).1 = Returned true
  ∧ files_copied (trace (world (_copy_plugin_files false fresh).2))
    = ["main.js"; "styles.css"; "manifest.json"]
  ∧ _check_build_success false aged = (Returned true, aged)
  ∧ _check_build_success false fresh = (Returned true, fresh)
  ∧ (later aged).1 = Returned false
  ∧ files_copied (trace (world (later aged).2)) = []
  ∧ (later fresh).1 = Returned true
  ∧ files_copied (trace (world (later fresh).2))
    = ["main.js"; "styles.css"; "manifest.json"].
Proof.
  cbn zeta.
  split; [intros filename; apply sample_world_names|].
  split; [intros filename; apply sample_world_names|].
  repeat split; vm_compute; reflexivity.
Qed.

Example copy_step_on_empty_artifact :
  (_copy_plugin_files true (sample_machine (artifact_of ""))).1 = Returned false
  ∧ files_copied (trace (world (_copy_plugin_files true
                                  (sample_machine (artifact_of ""))).2)) = [].
Proof. split; vm_compute; reflexivity. Qed.

Example copy_step_on_bundle :
  (_copy_plugin_files true (sample_machine (artifact_of "bundle"))).1 = Returned true
  ∧ files_copied (trace (world (_copy_plugin_files true
                                  (sample_machine (artifact_of "bundle"))).2))
    = ["main.js"; "styles.css"; "manifest.json"].
Proof. split; vm_compute; reflexivity. Qed.

Example clean_build_with_stale_artifact_copies_nothing :
  let stale := sample_machine {| content := "bundle"; st_mtime := 955 |} in
  let fresh := sample_machine (artifact_of "bundle") in
  let b := build_exiting 0 "" in
  files_copied (trace (world (_rebuild_plugin b stale).2)) = []
  ∧ files_copied (trace (world (_rebuild_plugin b fresh).2))
    = ["main.js"; "styles.css"; "manifest.json"].
Proof. split; vm_compute; reflexivity. Qed.

(** C5, amended. The copy step verifies the artifact itself: when
    [_check_build_success] refuses it, the step returns false and copies
    nothing. When verification succeeds on two machines whose project
    directories hold the same names of the list, with the same plugin
    directory state and the same failing copies, the step returns the same
    value and copies the same names on both, whatever the size and the
    modification time of [main.js]. *)
Theorem copy_step_verifies_then_ignores_artifact
    (is_initial_copy : bool) (m1 m2 : Machine) :
  ((_check_build_success is_initial_copy m1).1 = Returned false →
   (_copy_plugin_files is_initial_copy m1).1 = Returned false
   ∧ files_copied (trace (world (_copy_plugin_files is_initial_copy m1).2))
     = files_copied (trace (world m1))
   ∧ plugin_files (world (_copy_plugin_files is_initial_copy m1).2)
     = plugin_files (world m1))
  ∧ ((_check_build_success is_initial_copy m1).1 = Returned true →
     (_check_build_success is_initial_copy m2).1 = Returned true →
     (∀ filename, filename ∈ files_to_copy →
        (is_Some (project_files (world m1) !! filename)
         ↔ is_Some (project_files (world m2) !! filename))
        ∧ copy_fails (world m1) filename = copy_fails (world m2) filename) →
     plugin_dir_exists (world m1) = plugin_dir_exists (world m2) →
     mkdir_fails (world m1) = mkdir_fails (world m2) →
     (_copy_plugin_files is_initial_copy m1).1
     = (_copy_plugin_files is_initial_copy m2).1
     ∧ ∃ copied,
         files_copied (trace (world (_copy_plugin_files is_initial_copy m1).2))
         = files_copied (trace (world m1)) ++ copied
         ∧ files_copied (trace (world (_copy_plugin_files is_initial_copy m2).2))
           = files_copied (trace (world m2)) ++ copied).
Proof.
  rewrite !check_build_success_run. cbn [fst]. split.
  - intros [= Hv]. rewrite (copy_plugin_files_unverified _ _ Hv), run_print.
    fields. rewrite files_copied_app, app_nil_r. auto.
  - intros [= Hv1] [= Hv2] Hnames Hdir Hmk.
    assert (Hnew : List.filter (copyable (world m1)) files_to_copy
                   = List.filter (copyable (world m2)) files_to_copy).
    { apply filter_ext_in. intros filename Hin%list_elem_of_In.
      destruct (Hnames filename Hin) as [Hex Hfail].
      unfold copyable. rewrite Hfail. f_equal.
      apply bool_decide_ext. exact Hex. }
    destruct (plugin_dir_exists (world m1) || negb (mkdir_fails (world m1)))%bool
      eqn:Hok.
    + destruct (copy_plugin_files_copies _ _ Hv1 Hok)
        as (m1' & Hrun1 & _ & _ & _ & _ & _ & Hc1 & _).
      rewrite Hdir, Hmk in Hok.
      destruct (copy_plugin_files_copies _ _ Hv2 Hok)
        as (m2' & Hrun2 & _ & _ & _ & _ & _ & Hc2 & _).
      rewrite Hrun1, Hrun2. cbn [fst snd]. rewrite Hnew. split; [reflexivity|].
      eexists. split; [rewrite Hc1, Hnew; reflexivity | exact Hc2].
    + apply orb_false_iff in Hok as [Hd Hf]. apply negb_false_iff in Hf.
      rewrite (copy_plugin_files_mkdir_error _ _ Hv1 Hd Hf).
      rewrite Hdir in Hd. rewrite Hmk in Hf.
      rewrite (copy_plugin_files_mkdir_error _ _ Hv2 Hd Hf).
      cbn [fst snd]. split; [reflexivity|].
      exists []. rewrite !app_nil_r. auto.
Qed.

(** ** Methods that run no build and keep the object *)

Global Instance quiet_preorder : PreOrder quiet.
Proof.
  split.
  - intros m. split; reflexivity.
  - intros m1 m2 m3 [Hs1 Hb1] [Hs2 Hb2]. split; congruence.
Qed.

(** Unfolding a library call down to a function on worlds. *)
Ltac wrun :=
  unfold Sys.time_sleep, Sys.mkdir, Sys.copy2, Sys.project_file_stat,
    Sys.project_file_exists, Sys.print, Sys.emit, Sys.time_time,
    Sys.subprocess_run, Sys.subprocess_popen,
    mbind, M_bind, mret, M_ret, gets, modify, raise;
  cbn -[builds_run files_copied].

Lemma quiet_lift {A} (c : M World A) :
  (∀ w, builds_run (trace (c w).2) = builds_run (trace w)) →
  preserves quiet (lift c).
Proof.
  intros Hc m. rewrite run_lift. split; [reflexivity|]. apply Hc.
Qed.

Lemma quiet_print (msg : Message) : preserves quiet (print msg).
Proof.
  apply quiet_lift. intros w. wrun. rewrite builds_run_app. cbn. lia.
Qed.

Lemma quiet_exists (filename : string) :
  preserves quiet (lift (Sys.project_file_exists filename)).
Proof. apply quiet_lift. reflexivity. Qed.

Lemma quiet_stat (filename : string) :
  preserves quiet (lift (Sys.project_file_stat filename)).
Proof.
  apply quiet_lift. intros w. wrun.
  destruct (project_files w !! filename); reflexivity.
Qed.

Lemma quiet_time : preserves quiet (lift Sys.time_time).
Proof. apply quiet_lift. reflexivity. Qed.

Lemma quiet_sleep (seconds : Q) : preserves quiet (lift (Sys.time_sleep seconds)).
Proof.
  apply quiet_lift. intros w. wrun. rewrite builds_run_app. cbn. lia.
Qed.

Lemma quiet_mkdir (dir : Path) : preserves quiet (lift (Sys.mkdir dir)).
Proof.
  apply quiet_lift. intros w. wrun.
  destruct (plugin_dir_exists w); [reflexivity|].
  destruct (mkdir_fails w); [reflexivity|].
  cbn -[builds_run]. rewrite builds_run_app. cbn. lia.
Qed.

Lemma quiet_copy2 (filename : string) : preserves quiet (lift (Sys.copy2 filename)).
Proof.
  apply quiet_lift. intros w. wrun.
  destruct (project_files w !! filename); [|reflexivity].
  destruct (negb (plugin_dir_exists w) || copy_fails w filename)%bool;
    [reflexivity|].
  cbn -[builds_run]. rewrite builds_run_app. cbn. lia.
Qed.

Lemma quiet_get_self {A} (f : PluginDevWatcher → A) : preserves quiet (get_self f).
Proof. intros m. reflexivity. Qed.

Create HintDb frame discriminated.
#[export] Hint Resolve quiet_print quiet_exists quiet_stat quiet_time quiet_sleep
  quiet_mkdir quiet_copy2 quiet_get_self : frame.

Ltac quiet_tac := frame ltac:(eauto with frame).

Lemma quiet_check_build_success (is_initial_copy : bool) :
  preserves quiet (_check_build_success is_initial_copy).
Proof. unfold _check_build_success. quiet_tac. Qed.

Lemma quiet_copy_each (files : list string) :
  ∀ copied_files, preserves quiet (copy_each files copied_files).
Proof.
  induction files as [|filename rest IH]; intros copied_files; cbn [copy_each].
  - quiet_tac.
  - quiet_tac.
Qed.

Lemma quiet_copy_plugin_files (is_initial_copy : bool) :
  preserves quiet (_copy_plugin_files is_initial_copy).
Proof.
  unfold _copy_plugin_files.
  pose proof quiet_check_build_success. pose proof quiet_copy_each.
  quiet_tac.
Qed.

Lemma quiet_print_build_failure (result : CompletedProcess) :
  preserves quiet (print_build_failure result).
Proof. unfold print_build_failure. quiet_tac. Qed.

(** ** Methods that always return *)

Lemma never_raises_ret {St A} (a : A) : never_raises (mret (M := M St) a).
Proof. intros s. exists a. reflexivity. Qed.

Lemma never_raises_bind {St A B} (c : M St A) (f : A → M St B) :
  never_raises c → (∀ a, never_raises (f a)) → never_raises (c ≫= f).
Proof.
  intros Hc Hf s. rewrite run_bind. destruct (Hc s) as [a Ha].
  destruct (c s) as [r s1]. cbn in Ha. subst r. apply Hf.
Qed.

Lemma never_raises_try {St A} (body : M St A) handler :
  (∀ e, ∃ h, handler e = Some h ∧ never_raises h) →
  never_raises (try_except body handler).
Proof.
  intros Hh s. unfold try_except.
  destruct (body s) as [[a|e] s1]; [exists a; reflexivity|].
  destruct (Hh e) as (h & -> & Hret). apply Hret.
Qed.

Lemma never_raises_for_each {St A} (l : list A) (body : A → M St unit) :
  (∀ x, never_raises (body x)) → never_raises (for_each l body).
Proof.
  intros Hb. induction l as [|x l IH]; cbn [for_each].
  - apply never_raises_ret.
  - apply never_raises_bind; [apply Hb | intros _; exact IH].
Qed.

Lemma never_raises_print (msg : Message) : never_raises (print msg).
Proof. intros m. exists tt. reflexivity. Qed.

Lemma never_raises_print_build_failure (result : CompletedProcess) :
  never_raises (print_build_failure result).
Proof.
  unfold print_build_failure.
  repeat first
    [ apply never_raises_print | apply never_raises_ret
    | apply never_raises_for_each | apply never_raises_bind
    | match goal with |- never_raises (if ?b then _ else _) => destruct b end
    | intro ].
Qed.

Lemma unit_returned {St} (c : M St unit) (s : St) :
  never_raises c → c s = (Returned tt, (c s).2).
Proof.
  intros H. destruct (H s) as [[] Ha]. destruct (c s) as [r s']. cbn in *.
  congruence.
Qed.

(** ** The two debounce gates *)

Lemma should_rebuild_run (m : Machine) :
  _should_rebuild m
  = if Qgtb (clock (world m) - last_rebuild_time (self m))
            (rebuild_debounce_seconds (self m))
    then (Returned true,
          {| self := set_last_rebuild_time (clock (world m)) (self m);
             world := world m |})
    else (Returned false, m).
Proof.
  destruct m as [o w]. unfold _should_rebuild, Sys.time_time. mrun.
  destruct (Qgtb _ _); reflexivity.
Qed.

Lemma should_copy_run (m : Machine) :
  _should_copy m
  = if Qgtb (clock (world m) - last_copy_time (self m)) (debounce_seconds (self m))
    then (Returned true,
          {| self := set_last_copy_time (clock (world m)) (self m);
             world := world m |})
    else (Returned false, m).
Proof.
  destruct m as [o w]. unfold _should_copy, Sys.time_time. mrun.
  destruct (Qgtb _ _); reflexivity.
Qed.

(** ** One rebuild *)

Lemma subprocess_run_counts (b : BuildRun) (cmd : list string) (timeout : Q)
    (m : Machine) :
  self (lift (Sys.subprocess_run b cmd timeout) m).2 = self m
  ∧ builds_run (trace (world (lift (Sys.subprocess_run b cmd timeout) m).2))
    = S (builds_run (trace (world m))).
Proof.
  rewrite run_lift. split; [reflexivity|]. cbn [snd world]. wrun.
  destruct (launch_fails b); [|destruct (Qle_bool (duration b) timeout)];
    cbn -[builds_run]; rewrite builds_run_app; cbn; lia.
Qed.

Lemma rebuild_plugin_returns (b : BuildRun) : never_raises (_rebuild_plugin b).
Proof.
  unfold _rebuild_plugin.
  apply never_raises_bind; [apply never_raises_print|]. intros _.
  apply never_raises_try. intros e.
  destruct e; eexists; (split; [reflexivity | apply never_raises_print]).
Qed.

(** A step related by [Q] followed by steps related by [R] is related by
    [Q] when [Q] absorbs [R] on the right. *)
Section Then.

Context (Q R : relation Machine).
Hypothesis absorbs : ∀ m1 m2 m3, Q m1 m2 → R m2 m3 → Q m1 m3.

Lemma then_bind {A B} (c : M Machine A) (f : A → M Machine B) :
  preserves Q c → (∀ a, preserves R (f a)) → preserves Q (c ≫= f).
Proof.
  intros Hc Hf m. rewrite run_bind. specialize (Hc m).
  destruct (c m) as [[a|e] m1]; cbn [snd] in *; [|exact Hc].
  eapply absorbs; [exact Hc | apply Hf].
Qed.

Lemma then_try {A} (body : M Machine A) handler :
  preserves Q body → (∀ e h, handler e = Some h → preserves R h) →
  preserves Q (try_except body handler).
Proof.
  intros Hb Hh m. unfold try_except. specialize (Hb m).
  destruct (body m) as [[a|e] m1]; cbn [snd] in *; [exact Hb|].
  destruct (handler e) as [h|] eqn:E; [|exact Hb].
  eapply absorbs; [exact Hb | apply (Hh e h E)].
Qed.

End Then.

Lemma one_build_then_quiet m1 m2 m3 : one_build m1 m2 → quiet m2 m3 → one_build m1 m3.
Proof. intros [] []. split; congruence. Qed.

Lemma quiet_then_one_build m1 m2 m3 : quiet m1 m2 → one_build m2 m3 → one_build m1 m3.
Proof. intros [] []. split; congruence. Qed.

Lemma rebuild_plugin_counts (b : BuildRun) : preserves one_build (_rebuild_plugin b).
Proof.
  intros m. unfold _rebuild_plugin. rewrite run_bind, run_print.
  eapply quiet_then_one_build; [apply (quiet_print RebuildingPlugin m)|].
  rewrite run_print.
  apply (then_try one_build quiet one_build_then_quiet).
  - apply (then_bind one_build quiet one_build_then_quiet).
    + intros m1. apply subprocess_run_counts.
    + pose proof quiet_copy_plugin_files. pose proof quiet_print_build_failure.
      quiet_tac.
  - quiet_tac.
Qed.

(** ** The handler *)

Lemma run_get_self {A} (f : PluginDevWatcher → A) (m : Machine) :
  get_self f m = (Returned (f (self m)), m).
Proof. reflexivity. Qed.

Lemma on_modified_filtered (event : Event) (b : BuildRun) (m : Machine) :
  relevant (project_root (self m)) event = false →
  on_modified event b m = (Returned tt, m).
Proof.
  unfold relevant, on_modified. intros H.
  destruct (is_directory event); [reflexivity|]. cbn [negb andb] in H.
  destruct (_ || _ || _ || _)%bool; [reflexivity|]. cbn [negb andb] in H.
  rewrite run_bind, run_get_self. cbv beta iota. rewrite H. reflexivity.
Qed.

Lemma on_modified_gated (event : Event) (b : BuildRun) (m : Machine) :
  relevant (project_root (self m)) event = true →
  on_modified event b m
  = (go ← _should_rebuild;
     if negb go then
       cooldown ← get_self rebuild_debounce_seconds;
       print (SkippingRebuild cooldown)
     else
       print (ChangeDetected (PathOps.name (PathOps.of_string (src_path event)))) ;;
       lift (Sys.time_sleep 1) ;;
       _rebuild_plugin b) m.
Proof.
  unfold relevant, on_modified. intros H.
  destruct (is_directory event); [discriminate H|]. cbn [negb andb] in H.
  destruct (_ || _ || _ || _)%bool; [discriminate H|]. cbn [negb andb] in H.
  rewrite run_bind, run_get_self. cbv beta iota. rewrite H. reflexivity.
Qed.

Lemma never_raises_sleep (seconds : Q) : never_raises (lift (Sys.time_sleep seconds)).
Proof. intros m. exists tt. reflexivity. Qed.

(** Steps related by [R] that always return, followed by a step related by
    [Q], are related by [Q] when [Q] absorbs [R] on the left. *)
Section After.

Context (R Q : relation Machine).
Hypothesis absorbs : ∀ m1 m2 m3, R m1 m2 → Q m2 m3 → Q m1 m3.

Lemma after_returning {A B} (c : M Machine A) (k : M Machine B) :
  never_raises c → preserves R c → preserves Q k → preserves Q (c ;; k).
Proof.
  intros Hret Hc Hk m. rewrite run_bind.
  destruct (Hret m) as [a Ha]. specialize (Hc m).
  destruct (c m) as [r m1]. cbn [fst snd] in *. subst r.
  eapply absorbs; [exact Hc | apply Hk].
Qed.

End After.

(** The machine as the handler finds it at the instant [t]. *)
Lemma deliver_run (d : Delivery) (m : Machine) :
  deliver d m
  = on_modified (notified d) (build d)
      {| self := self m; world := set_clock (at_time d) (world m) |}.
Proof. reflexivity. Qed.

(** Whether the rebuild gate lets a delivery through. *)
Lemma deliver_rejected (d : Delivery) (m : Machine) :
  relevant (project_root (self m)) (notified d) = true →
  Qgtb (at_time d - last_rebuild_time (self m)) (rebuild_debounce_seconds (self m))
  = false →
  deliver d m
  = (Returned tt,
     {| self := self m;
        world := set_trace
                   (trace (world m)
                    ++ [Print (SkippingRebuild (rebuild_debounce_seconds (self m)))])
                   (set_clock (at_time d) (world m)) |}).
Proof.
  intros Hrel Hgate. rewrite deliver_run, on_modified_gated by exact Hrel.
  rewrite run_bind, should_rebuild_run. fields. rewrite Hgate. reflexivity.
Qed.

Lemma deliver_accepted (d : Delivery) (m : Machine) :
  relevant (project_root (self m)) (notified d) = true →
  Qgtb (at_time d - last_rebuild_time (self m)) (rebuild_debounce_seconds (self m))
  = true →
  deliver d m
  = (print (ChangeDetected (PathOps.name (PathOps.of_string (src_path (notified d))))) ;;
     lift (Sys.time_sleep 1) ;;
     _rebuild_plugin (build d))
      {| self := set_last_rebuild_time (at_time d) (self m);
         world := set_clock (at_time d) (world m) |}.
Proof.
  intros Hrel Hgate. rewrite deliver_run, on_modified_gated by exact Hrel.
  rewrite run_bind, should_rebuild_run. fields. rewrite Hgate. reflexivity.
Qed.

(** Whether a delivery gets a rebuild: it passes the filter and the gate. *)
Lemma deliver_spec (d : Delivery) (m : Machine) :
  let accepted :=
    (relevant (project_root (self m)) (notified d)
     && Qgtb (at_time d - last_rebuild_time (self m))
             (rebuild_debounce_seconds (self m)))%bool in
  (deliver d m).1 = Returned tt
  ∧ self (deliver d m).2
    = (if accepted then set_last_rebuild_time (at_time d) (self m) else self m)
  ∧ builds_run (trace (world (deliver d m).2))
    = (builds_run (trace (world m)) + (if accepted then 1 else 0))%nat.
Proof.
  cbn zeta.
  destruct (relevant (project_root (self m)) (notified d)) eqn:Hrel; cbn [andb].
  - destruct (Qgtb _ _) eqn:Hgate.
    + rewrite (deliver_accepted d m Hrel Hgate).
      set (m0 := {| self := _; world := _ |}).
      set (c := print _ ;; _).
      assert (Hret : never_raises c).
      { subst c. apply never_raises_bind; [apply never_raises_print|]. intros _.
        apply never_raises_bind; [|intros _; apply rebuild_plugin_returns].
        apply never_raises_sleep. }
      assert (Hone : preserves one_build c).
      { subst c.
        apply (after_returning quiet one_build quiet_then_one_build);
          [apply never_raises_print | apply quiet_print |].
        apply (after_returning quiet one_build quiet_then_one_build);
          [apply never_raises_sleep | apply quiet_sleep |].
        apply rebuild_plugin_counts. }
      rewrite (unit_returned c m0 Hret). cbn [fst snd].
      destruct (Hone m0) as [Hs Hb]. subst m0. fields.
      split; [reflexivity|]. split; [exact Hs|]. rewrite Hb. lia.
    + rewrite (deliver_rejected d m Hrel Hgate). cbn [fst snd]. fields.
      rewrite builds_run_app. cbn. split; [reflexivity|]. split; [reflexivity|lia].
  - rewrite deliver_run, on_modified_filtered by exact Hrel. cbn [fst snd]. fields.
    split; [reflexivity|]. split; [reflexivity|lia].
Qed.

(** ** The watch loop *)

Lemma watch_cons (d : Delivery) (ds : list Delivery) (m : Machine) :
  watch (d :: ds) m = watch ds (deliver d m).2.
Proof.
  unfold watch. cbn [for_each]. rewrite run_bind.
  destruct (deliver_spec d m) as [Hret _].
  destruct (deliver d m) as [r m1]. cbn [fst snd] in *. subst r. reflexivity.
Qed.





(** ** The observer thread *)

Lemma dispatch_run (d : Delivery) (m : Machine) :
  dispatch d m = deliver (at_handling d m) m.
Proof. reflexivity. Qed.







(** C4, as stated, fails: of two saves a second and a half apart, the
    handler rebuilds for both; a handler that also sent them through the
    change-acceptance gate, with its cooldown of two seconds, would rebuild
    for the first only. The handler leaves that gate's timestamp at zero. *)
Lemma change_gate_not_consulted_counterexample :
  let ds := [save_at 1000 (build_exiting 0 ""); save_at 1001.5 (build_exiting 0 "")] in
  let m := sample_machine (artifact_of "bundle") in
  builds_run (trace (world (watch ds m).2)) = 2%nat
  ∧ builds_run (trace (world (watch_two_gates ds m).2)) = 1%nat
  ∧ last_copy_time (self (watch ds m).2) = 0%Q.
Proof. vm_compute. repeat split; reflexivity. Qed.

(** The cooldowns and timestamps a fresh watcher starts with. *)
Lemma init_defaults (json_load : string → option JSON)
    (project_root obsidian_vault_path : Path) (w : World) :
  match (__init__ json_load project_root obsidian_vault_path w).1 with
  | Returned o =>
      debounce_seconds o = 2%Q ∧ rebuild_debounce_seconds o = 1%Q
      ∧ last_copy_time o = 0%Q ∧ last_rebuild_time o = 0%Q
  | Raised _ => True
  end.
Proof.
  unfold __init__. rewrite run_bind.
  destruct (_load_plugin_info _ _ _ w) as [[[i|]|e] w1];
    cbv beta iota; rewrite ?run_bind; cbn; auto.
Qed.

(** C4, amended. A notification causes a rebuild exactly when it passes the
    filter and the rebuild-acceptance gate, whose cooldown is one second in
    a fresh watcher: the call runs one build when the instant exceeds
    [last_rebuild_time] by more than [rebuild_debounce_seconds], and none
    otherwise. The change-acceptance gate, whose cooldown is two seconds in
    a fresh watcher, is a separate setting that the handler neither reads
    nor writes: [last_copy_time] and [debounce_seconds] come out as they
    went in, and the decision does not mention them. *)
Theorem rebuild_gate_alone_guards (d : Delivery) (m : Machine)
    (json_load : string → option JSON) (root vault : Path) (w : World) :
  (builds_run (trace (world (deliver d m).2))
   = builds_run (trace (world m))
     + (if (relevant (project_root (self m)) (notified d)
            && Qgtb (at_time d - last_rebuild_time (self m))
                    (rebuild_debounce_seconds (self m)))%bool
        then 1 else 0))%nat
  ∧ last_copy_time (self (deliver d m).2) = last_copy_time (self m)
  ∧ debounce_seconds (self (deliver d m).2) = debounce_seconds (self m)
  ∧ rebuild_debounce_seconds (self (deliver d m).2)
    = rebuild_debounce_seconds (self m)
  ∧ match (__init__ json_load root vault w).1 with
    | Returned o => debounce_seconds o = 2%Q ∧ rebuild_debounce_seconds o = 1%Q
    | Raised _ => True
    end.
Proof.
  destruct (deliver_spec d m) as (_ & Hself & Hbuilds).
  split; [exact Hbuilds|].
  rewrite Hself.
  repeat split; try (destruct (_ && _)%bool; reflexivity).
  pose proof (init_defaults json_load root vault w) as H.
  destruct (__init__ json_load root vault w).1; tauto.
Qed.

(** ** A failed build *)

Global Instance no_copy_preorder : PreOrder no_copy.
Proof.
  split.
  - intros m. split; reflexivity.
  - intros m1 m2 m3 [] []. split; congruence.
Qed.

Lemma no_copy_lift {A} (c : M World A) :
  (∀ w, plugin_files (c w).2 = plugin_files w
        ∧ files_copied (trace (c w).2) = files_copied (trace w)) →
  preserves no_copy (lift c).
Proof. intros Hc m. rewrite run_lift. apply Hc. Qed.

Lemma no_copy_print (msg : Message) : preserves no_copy (print msg).
Proof.
  apply no_copy_lift. intros w. wrun. rewrite files_copied_app, app_nil_r. auto.
Qed.

Lemma no_copy_mkdir (dir : Path) : preserves no_copy (lift (Sys.mkdir dir)).
Proof.
  apply no_copy_lift. intros w. wrun.
  destruct (plugin_dir_exists w); [auto|]. destruct (mkdir_fails w); [auto|].
  cbn -[files_copied]. rewrite files_copied_app, app_nil_r. auto.
Qed.

Lemma no_copy_subprocess_run (b : BuildRun) cmd timeout :
  preserves no_copy (lift (Sys.subprocess_run b cmd timeout)).
Proof.
  apply no_copy_lift. intros w. wrun.
  destruct (launch_fails b); [|destruct (Qle_bool (duration b) timeout)];
    cbn -[files_copied]; rewrite files_copied_app, app_nil_r; auto.
Qed.

Lemma no_copy_get_self {A} (f : PluginDevWatcher → A) : preserves no_copy (get_self f).
Proof. intros m. split; reflexivity. Qed.

Lemma no_copy_dir_exists : preserves no_copy (lift (gets plugin_dir_exists)).
Proof. apply no_copy_lift. intros w. split; reflexivity. Qed.

Create HintDb nocopy discriminated.
#[export] Hint Resolve no_copy_print no_copy_mkdir no_copy_subprocess_run
  no_copy_get_self no_copy_dir_exists : nocopy.

Ltac no_copy_tac := frame ltac:(eauto with nocopy).

Lemma no_copy_print_build_failure (result : CompletedProcess) :
  preserves no_copy (print_build_failure result).
Proof. unfold print_build_failure. no_copy_tac. Qed.

Lemma no_copy_create_plugin_directory : preserves no_copy _create_plugin_directory.
Proof. unfold _create_plugin_directory. no_copy_tac. Qed.

Lemma subprocess_run_returncode (b : BuildRun) cmd timeout (m : Machine) result :
  (lift (Sys.subprocess_run b cmd timeout) m).1 = Returned result →
  cp_returncode result = returncode b.
Proof.
  rewrite run_lift. cbn [fst]. wrun.
  destruct (launch_fails b); [discriminate|].
  destruct (Qle_bool (duration b) timeout); [|discriminate].
  intros [= <-]. reflexivity.
Qed.

Lemma preserves_bind_post (R : relation Machine) `{!PreOrder R} {A B}
    (P : A → Prop) (c : M Machine A) (f : A → M Machine B) :
  (∀ m a, (c m).1 = Returned a → P a) →
  preserves R c → (∀ a, P a → preserves R (f a)) → preserves R (c ≫= f).
Proof.
  intros HP Hc Hf m. rewrite run_bind. specialize (Hc m). specialize (HP m).
  destruct (c m) as [[a|e] m1]; cbn [fst snd] in *; [|exact Hc].
  etransitivity; [exact Hc | apply Hf, HP; reflexivity].
Qed.

Lemma never_raises_get_self {A} (f : PluginDevWatcher → A) : never_raises (get_self f).
Proof. intros m. eexists. reflexivity. Qed.

Lemma never_raises_create_plugin_directory : never_raises _create_plugin_directory.
Proof.
  unfold _create_plugin_directory.
  apply never_raises_bind; [apply never_raises_get_self|]. intros dir.
  apply never_raises_bind; [intros m; eexists; reflexivity|]. intros present.
  destruct present; cbn [negb].
  - apply never_raises_bind; [apply never_raises_print|]. intros _.
    apply never_raises_ret.
  - apply never_raises_bind; [apply never_raises_print|]. intros _.
    apply never_raises_try. intros e. eexists. split; [reflexivity|].
    apply never_raises_bind; [apply never_raises_print|]. intros _.
    apply never_raises_ret.
Qed.

Lemma rebuild_failed_no_copy (b : BuildRun) :
  returncode b ≠ 0%Z → preserves no_copy (_rebuild_plugin b).
Proof.
  intros Hcode. unfold _rebuild_plugin.
  apply preserves_bind; [apply _ | apply no_copy_print |]. intros _.
  apply preserves_try; [apply _ | | no_copy_tac].
  apply (preserves_bind_post no_copy (λ r, cp_returncode r = returncode b)).
  - intros m result. apply subprocess_run_returncode.
  - apply no_copy_subprocess_run.
  - intros result ->. destruct (Z.eqb_spec (returncode b) 0); [contradiction|].
    apply no_copy_print_build_failure.
Qed.

Lemma build_and_copy_once_failed_no_copy (b : BuildRun) :
  returncode b ≠ 0%Z → preserves no_copy (build_and_copy_once b).
Proof.
  intros Hcode. unfold build_and_copy_once.
  apply preserves_bind; [apply _ | apply no_copy_create_plugin_directory |].
  intros created. destruct created; cbn [negb]; [|no_copy_tac].
  apply preserves_bind; [apply _ | apply no_copy_print |]. intros _.
  apply preserves_try; [apply _ | | no_copy_tac].
  apply (preserves_bind_post no_copy (λ r, cp_returncode r = returncode b)).
  - intros m result. apply subprocess_run_returncode.
  - apply no_copy_subprocess_run.
  - intros result ->. destruct (Z.eqb_spec (returncode b) 0); [contradiction|].
    pose proof no_copy_print_build_failure. no_copy_tac.
Qed.

Lemma build_and_copy_once_failed_result (b : BuildRun) (m : Machine) :
  returncode b ≠ 0%Z → (build_and_copy_once b m).1 = Returned false.
Proof.
  intros Hcode. unfold build_and_copy_once. rewrite run_bind.
  destruct (never_raises_create_plugin_directory m) as [created Hc].
  destruct (_create_plugin_directory m) as [r m1]. cbn [fst] in Hc. subst r.
  destruct created; cbn [negb]; [|reflexivity].
  rewrite run_bind, run_print. unfold try_except. rewrite run_bind.
  set (m2 := {| self := self m1; world := _ |}).
  pose proof (subprocess_run_returncode b pnpm_run_build 60 m2) as Hrc.
  destruct (lift (Sys.subprocess_run b pnpm_run_build 60) m2) as [[result|e] m3];
    cbn [fst] in Hrc.
  - rewrite (Hrc result eq_refl).
    destruct (Z.eqb_spec (returncode b) 0); [contradiction|].
    rewrite run_bind.
    destruct (never_raises_print_build_failure result m3) as [[] Hp].
    destruct (print_build_failure result m3) as [r m4]. cbn [fst] in Hp. subst r.
    reflexivity.
  - destruct e; reflexivity.
Qed.

(** C2. When the build exits with a non-zero code, the rebuild of watch
    mode and the one-shot build leave every file of the plugin directory as
    it was and call [copy2] for no file; the one-shot build returns false. *)
Theorem failed_build_copies_nothing (b : BuildRun) (m : Machine) :
  returncode b ≠ 0%Z →
  (plugin_files (world (_rebuild_plugin b m).2) = plugin_files (world m)
   ∧ files_copied (trace (world (_rebuild_plugin b m).2))
     = files_copied (trace (world m)))
  ∧ (plugin_files (world (build_and_copy_once b m).2) = plugin_files (world m)
     ∧ files_copied (trace (world (build_and_copy_once b m).2))
       = files_copied (trace (world m))
     ∧ (build_and_copy_once b m).1 = Returned false).
Proof.
  intros Hcode. split.
  - apply (rebuild_failed_no_copy b Hcode m).
  - destruct (build_and_copy_once_failed_no_copy b Hcode m) as [Hf Hc].
    auto using build_and_copy_once_failed_result.
Qed.

Example parse_error_build_copies_nothing :
  let m := sample_machine (artifact_of "bundle") in
  let b := build_exiting 1 "Parse error" in
  (_rebuild_plugin b m).1 = Returned tt
  ∧ plugin_files (world (_rebuild_plugin b m).2) = ∅
  ∧ last (trace (world (_rebuild_plugin b m).2)) = Some (Print (OutputLine "Parse error")).
Proof. vm_compute. repeat split; reflexivity. Qed.

Example clean_build_copies_three_files :
  let m := sample_machine (artifact_of "bundle") in
  let b := build_exiting 0 "" in
  (build_and_copy_once b m).1 = Returned true
  ∧ files_copied (trace (world (build_and_copy_once b m).2))
    = ["main.js"; "styles.css"; "manifest.json"].
Proof. vm_compute. repeat split; reflexivity. Qed.

(** ** Starting watch mode *)





(** ** Paths *)

Lemma append_assoc (a b c : string) : (a +:+ b) +:+ c = a +:+ (b +:+ c).
Proof.
  induction a as [|x a IH]; [reflexivity|].
  change (String x ((a +:+ b) +:+ c) = String x (a +:+ (b +:+ c))).
  f_equal. exact IH.
Qed.

(** A string without the separator is its own single field. *)
Lemma split_no_sep (sep : ascii) (s : string) :
  Str.rfind sep s = None → Str.split sep s = [s].
Proof.
  induction s as [|c s IH]; cbn [Str.split Str.rfind]; [reflexivity|].
  destruct (Str.rfind sep s); [discriminate|].
  destruct (Ascii.eqb c sep); [discriminate|].
  intros _. rewrite IH by reflexivity. reflexivity.
Qed.

Lemma no_sep_not_absolute (s : string) :
  Str.rfind "/"%char s = None → Str.startswith "/" s = false.
Proof.
  destruct s as [|c s]; cbn [Str.startswith Str.rfind]; [reflexivity|].
  destruct (Str.rfind "/"%char s); [discriminate|].
  rewrite (Ascii.eqb_sym "/"%char c).
  destruct (Ascii.eqb c "/"%char); [discriminate | reflexivity].
Qed.

Lemma components_plain (s : string) :
  plain_component s → PathOps.components s = [s].
Proof.
  intros (Hsep & Hne & Hdot). unfold PathOps.components.
  rewrite split_no_sep by exact Hsep. cbn.
  rewrite decide_True by tauto. reflexivity.
Qed.

Lemma joinpath_plain (p : Path) (s : string) :
  plain_component s →
  p // s = {| path_root := path_root p; path_tail := path_tail p ++ [s] |}.
Proof.
  intros Hs. unfold PathOps.joinpath.
  rewrite no_sep_not_absolute by apply Hs.
  rewrite components_plain by exact Hs. reflexivity.
Qed.

Lemma join_snoc (sep : string) (l : list string) (s : string) :
  l ≠ [] → Str.join sep (l ++ [s]) = Str.join sep l +:+ sep +:+ s.
Proof.
  induction l as [|a l IH]; [congruence|]. intros _.
  destruct l as [|b l]; [reflexivity|].
  change (Str.join sep ((a :: b :: l) ++ [s]))
    with (a +:+ sep +:+ Str.join sep ((b :: l) ++ [s])).
  rewrite IH by discriminate.
  change (Str.join sep (a :: b :: l)) with (a +:+ sep +:+ Str.join sep (b :: l)).
  rewrite !append_assoc. reflexivity.
Qed.

Lemma to_string_snoc (r : string) (t : list string) (s : string) :
  t ≠ [] →
  PathOps.to_string {| path_root := r; path_tail := t ++ [s] |}
  = PathOps.to_string {| path_root := r; path_tail := t |} +:+ "/" +:+ s.
Proof.
  intros Htail. unfold PathOps.to_string. cbn [path_root path_tail].
  destruct t as [|a l]; [congruence|].
  pose proof (join_snoc "/" (a :: l) s Htail) as Hjoin.
  destruct r; cbn [app] in *; rewrite Hjoin, ?append_assoc; reflexivity.
Qed.

(** The plugin directory of a plain identifier, component by component and
    as a string. *)
Lemma plugin_dir_of_plain_id (vault : Path) (s : string) :
  plain_component s →
  path_root (vault // ".obsidian" // "plugins" // s) = path_root vault
  ∧ path_tail (vault // ".obsidian" // "plugins" // s)
    = path_tail vault ++ [".obsidian"; "plugins"; s]
  ∧ (path_tail vault ≠ [] →
     PathOps.to_string (vault // ".obsidian" // "plugins" // s)
     = PathOps.to_string vault +:+ "/.obsidian/plugins/" +:+ s).
Proof.
  intros Hs.
  assert (H1 : plain_component ".obsidian") by (repeat split; discriminate).
  assert (H2 : plain_component "plugins") by (repeat split; discriminate).
  rewrite (joinpath_plain vault _ H1), (joinpath_plain _ _ H2), (joinpath_plain _ _ Hs).
  cbn [path_root path_tail]. rewrite <- !app_assoc. cbn [app].
  split; [reflexivity|]. split; [reflexivity|]. intros Htail.
  replace (path_tail vault ++ [".obsidian"; "plugins"; s])
    with (((path_tail vault ++ [".obsidian"]) ++ ["plugins"]) ++ [s])
    by (rewrite <- !app_assoc; reflexivity).
  rewrite !to_string_snoc;
    try (destruct (path_tail vault); [congruence | discriminate]).
  destruct vault as [r t]. cbn [path_root path_tail].
  rewrite !append_assoc. reflexivity.
Qed.

Example path_join_example :
  PathOps.to_string (PathOps.of_string "/vault" // ".obsidian" // "plugins" // "my-plugin")
  = "/vault/.obsidian/plugins/my-plugin".
Proof. reflexivity. Qed.

Example path_suffix_example :
  PathOps.suffix (PathOps.of_string "/p/src/a.test.ts") = ".ts"
  ∧ PathOps.suffix (PathOps.of_string "/p/.env") = ""
  ∧ PathOps.suffix (PathOps.of_string "/p/file.") = "".
Proof. repeat split; reflexivity. Qed.

Example relevant_examples :
  let root := PathOps.of_string "/home/dev/my-plugin" in
  relevant root sample_event = true
  ∧ relevant root {| is_directory := false;
                     src_path := "/home/dev/my-plugin/main.js" |} = false
  ∧ relevant root {| is_directory := false;
                     src_path := "/home/dev/my-plugin/node_modules/x/src/a.ts" |} = false
  ∧ relevant root {| is_directory := false;
                     src_path := "/home/dev/my-plugin/package.json" |} = true
  ∧ relevant root {| is_directory := false;
                     src_path := "/home/dev/my-plugin/docs/readme.md" |} = false
  ∧ relevant root {| is_directory := true;
                     src_path := "/home/dev/my-plugin/src" |} = false.
Proof. vm_compute. repeat split; reflexivity. Qed.

(** ** Loading the descriptor *)

Section LoaderFacts.

Variable json_load : string → option JSON.
Variables project_root obsidian_vault_path : Path.

Lemma load_plugin_info_parsed (w : World) (f : File) (manifest : JSON) :
  project_files w !! "manifest.json" = Some f →
  json_load (content f) = Some manifest →
  _load_plugin_info json_load project_root obsidian_vault_path w
  = match manifest with
    | JDict d =>
        match d !! "id" with
        | Some (JStr s) =>
            (Returned
               (Some {| plugin_id := JStr s;
                        plugin_name := default (JStr s) (d !! "name");
                        plugin_dir :=
                          obsidian_vault_path // ".obsidian" // "plugins" // s |}),
             w)
        | Some _ => (Raised TypeError, w)
        | None =>
            (Returned None,
             set_trace (trace w ++ [Print (ManifestReadError (KeyError "id"))]) w)
        end
    | _ => (Raised TypeError, w)
    end.
Proof.
  intros Hf Hparse. unfold _load_plugin_info.
  unfold try_except, subscript, dict_get, path_div. wrun.
  rewrite Hf. cbn. rewrite Hf, Hparse.
  destruct manifest as [| | | | |l|d]; try reflexivity.
  destruct (d !! "id") as [[| | | |s| |]|] eqn:Hid; cbn; rewrite ?Hid; reflexivity.
Qed.

Lemma load_plugin_info_missing (w : World) :
  project_files w !! "manifest.json" = None →
  _load_plugin_info json_load project_root obsidian_vault_path w
  = (Returned None, set_trace (trace w ++ [Print ManifestNotFound]) w).
Proof.
  intros Hf. unfold _load_plugin_info. wrun. rewrite Hf. reflexivity.
Qed.

Lemma load_plugin_info_malformed (w : World) (f : File) :
  project_files w !! "manifest.json" = Some f →
  json_load (content f) = None →
  _load_plugin_info json_load project_root obsidian_vault_path w
  = (Returned None,
     set_trace (trace w ++ [Print (ManifestReadError JSONDecodeError)]) w).
Proof.
  intros Hf Hparse. unfold _load_plugin_info, try_except. wrun.
  rewrite Hf. cbn. rewrite Hf, Hparse. reflexivity.
Qed.

End LoaderFacts.

(** C7. For a manifest that parses: when it has no [id] field, the loader
    gives no descriptor (it returns [None], or raises when the manifest is
    not an object) and building the watcher raises. When the [id] is the
    string [s], the loader returns the descriptor with that id, with the
    name of the manifest or, failing that, the id itself, and with the
    plugin directory [vault / ".obsidian" / "plugins" / s]; for an id that is
    one plain path component that is the vault's components followed by
    [.obsidian], [plugins] and the id, and for the vault [/vault] and the id
    [my-plugin] it prints as [/vault/.obsidian/plugins/my-plugin]. *)
Theorem load_plugin_info_contract (json_load : string → option JSON)
    (project_root vault : Path) (w : World) (f : File) (manifest : JSON) :
  project_files w !! "manifest.json" = Some f →
  json_load (content f) = Some manifest →
  ((∀ d, manifest = JDict d → d !! "id" = None) →
   ((_load_plugin_info json_load project_root vault w).1 = Returned None
    ∨ (_load_plugin_info json_load project_root vault w).1 = Raised TypeError)
   ∧ ∃ e, (__init__ json_load project_root vault w).1 = Raised e)
  ∧ (∀ d s, manifest = JDict d → d !! "id" = Some (JStr s) →
       ∃ info,
         _load_plugin_info json_load project_root vault w = (Returned (Some info), w)
         ∧ plugin_id info = JStr s
         ∧ plugin_name info
           = match d !! "name" with Some name => name | None => JStr s end
         ∧ plugin_dir info = vault // ".obsidian" // "plugins" // s
         ∧ (plain_component s →
            path_root (plugin_dir info) = path_root vault
            ∧ path_tail (plugin_dir info)
              = path_tail vault ++ [".obsidian"; "plugins"; s])
         ∧ (vault = PathOps.of_string "/vault" → s = "my-plugin" →
            PathOps.to_string (plugin_dir info)
            = "/vault/.obsidian/plugins/my-plugin")).
Proof.
  intros Hf Hparse.
  pose proof (load_plugin_info_parsed json_load project_root vault w f manifest
                Hf Hparse) as Hload.
  split.
  - intros Hnoid. unfold __init__. rewrite run_bind, Hload.
    destruct manifest as [| | | | |l|d];
      try (split; [right; reflexivity | eexists; reflexivity]).
    rewrite (Hnoid d eq_refl). split; [left; reflexivity | eexists; reflexivity].
  - intros d s -> Hid. rewrite Hid in Hload. eexists. split; [exact Hload|].
    cbn [plugin_id plugin_name plugin_dir].
    split; [reflexivity|]. split; [destruct (d !! "name"); reflexivity|].
    split; [reflexivity|]. split.
    + intros Hplain. destruct (plugin_dir_of_plain_id vault s Hplain) as (? & ? & _).
      auto.
    + intros -> ->. reflexivity.
Qed.

(** ** The theorems at the sample inputs *)



Lemma incremental_accepts_empty_artifact_witness :
  let m := sample_machine (artifact_of "") in
  project_files (world m) !! "main.js" = Some (artifact_of "")
  ∧ st_size (artifact_of "") = 0%Z
  ∧ (clock (world m) - st_mtime (artifact_of "") < 30)%Q
  ∧ _check_build_success false m = (Returned true, m)
  ∧ _check_build_success true m = (Returned false, m).
Proof.
  cbn zeta.
  assert (H1 : project_files (world (sample_machine (artifact_of ""))) !! "main.js"
               = Some (artifact_of "")) by reflexivity.
  assert (H2 : st_size (artifact_of "") = 0%Z) by reflexivity.
  assert (H3 : (clock (world (sample_machine (artifact_of "")))
                - st_mtime (artifact_of "") < 30)%Q) by reflexivity.
  repeat (split; [assumption|]).
  exact (incremental_accepts_empty_artifact _ _ H1 H2 H3).
Defined.

Lemma failed_build_copies_nothing_witness :
  let b := build_exiting 1 "Parse error" in
  let m := sample_machine (artifact_of "bundle") in
  returncode b ≠ 0%Z
  ∧ plugin_files (world (_rebuild_plugin b m).2) = plugin_files (world m)
  ∧ (build_and_copy_once b m).1 = Returned false.
Proof.
  cbn zeta.
  assert (H : returncode (build_exiting 1 "Parse error") ≠ 0%Z) by discriminate.
  destruct (failed_build_copies_nothing (build_exiting 1 "Parse error")
              (sample_machine (artifact_of "bundle")) H)
    as [[Hfiles _] (_ & _ & Hret)].
  auto.
Defined.

Lemma load_plugin_info_contract_witness :
  let w := sample_world (artifact_of "bundle") in
  let f := {| content := sample_manifest_text; st_mtime := 800 |} in
  let root := PathOps.of_string "/home/dev/my-plugin" in
  let vault := PathOps.of_string "/vault" in
  project_files w !! "manifest.json" = Some f
  ∧ sample_json_load (content f) = Some (JDict {[ "id" := JStr "my-plugin" ]})
  ∧ ∃ info,
      _load_plugin_info sample_json_load root vault w = (Returned (Some info), w)
      ∧ plugin_name info = JStr "my-plugin"
      ∧ PathOps.to_string (plugin_dir info) = "/vault/.obsidian/plugins/my-plugin".
Proof.
  cbn zeta.
  assert (H1 : project_files (sample_world (artifact_of "bundle")) !! "manifest.json"
               = Some {| content := sample_manifest_text; st_mtime := 800 |})
    by reflexivity.
  assert (H2 : sample_json_load
                 (content {| content := sample_manifest_text; st_mtime := 800 |})
               = Some (JDict {[ "id" := JStr "my-plugin" ]})) by reflexivity.
  destruct (load_plugin_info_contract sample_json_load
              (PathOps.of_string "/home/dev/my-plugin") (PathOps.of_string "/vault")
              _ _ _ H1 H2) as [_ Hid].
  destruct (Hid {[ "id" := JStr "my-plugin" ]} "my-plugin" eq_refl eq_refl)
    as (info & Hload & _ & Hname & _ & _ & Hstr).
  split; [exact H1|]. split; [exact H2|].
  exists info. split; [exact Hload|]. split; [exact Hname|].
  apply Hstr; reflexivity.
Defined.

Lemma copy_step_verifies_then_ignores_artifact_witness :
  let m1 := sample_machine (artifact_of "bundle") in
  let m2 := sample_machine {| content := "a larger bundle"; st_mtime := 990 |} in
  (_check_build_success false m1).1 = Returned true
  ∧ (_check_build_success false m2).1 = Returned true
  ∧ (_copy_plugin_files false m1).1 = (_copy_plugin_files false m2).1.
Proof.
  cbn zeta.
  assert (H1 : (_check_build_success false (sample_machine (artifact_of "bundle"))).1
               = Returned true) by (vm_compute; reflexivity).
  assert (H2 : (_check_build_success false
                  (sample_machine {| content := "a larger bundle"; st_mtime := 990 |})).1
               = Returned true) by (vm_compute; reflexivity).
  destruct (copy_step_verifies_then_ignores_artifact false
              (sample_machine (artifact_of "bundle"))
              (sample_machine {| content := "a larger bundle"; st_mtime := 990 |}))
    as [_ Hsame].
  destruct (Hsame H1 H2) as [Hret _].
  - intros filename _. split; [apply sample_world_names | reflexivity].
  - reflexivity.
  - reflexivity.
  - auto.
Defined.

(** * Further properties of the script *)

(** ** Paths of files in a directory *)

Lemma split_nonempty (sep : ascii) (s : string) : Str.split sep s ≠ [].
Proof.
  destruct s as [|c s]; cbn [Str.split]; [discriminate|].
  destruct (Ascii.eqb c sep); [discriminate|].
  destruct (Str.split sep s); discriminate.
Qed.

Lemma split_app_sep (sep : ascii) (a b : string) :
  Str.split sep (a +:+ String sep b) = Str.split sep a ++ Str.split sep b.
Proof.
  induction a as [|c a IH].
  - change ("" +:+ String sep b) with (String sep b).
    cbn [Str.split app]. rewrite Ascii.eqb_refl. reflexivity.
  - change (String c a +:+ String sep b) with (String c (a +:+ String sep b)).
    cbn [Str.split]. rewrite IH.
    destruct (Ascii.eqb c sep); [reflexivity|].
    pose proof (split_nonempty sep a) as Hne.
    destruct (Str.split sep a) as [|w ws]; [congruence|]. reflexivity.
Qed.

Lemma components_in_directory (dir name : string) :
  plain_component name →
  PathOps.components (dir +:+ "/" +:+ name) = PathOps.components dir ++ [name].
Proof.
  intros Hname. unfold PathOps.components.
  change (dir +:+ "/" +:+ name) with (dir +:+ String "/"%char name).
  rewrite split_app_sep, filter_app.
  fold (PathOps.components name). rewrite components_plain by exact Hname.
  reflexivity.
Qed.

Lemma name_in_directory (dir name : string) :
  plain_component name →
  PathOps.name (PathOps.of_string (dir +:+ "/" +:+ name)) = name.
Proof.
  intros Hname. unfold PathOps.name, PathOps.of_string. cbn [path_tail].
  rewrite components_in_directory by exact Hname. apply last_last.
Qed.

Lemma suffix_in_directory (dir name : string) :
  plain_component name →
  PathOps.suffix (PathOps.of_string (dir +:+ "/" +:+ name))
  = PathOps.suffix {| path_root := ""; path_tail := [name] |}.
Proof.
  intros Hname. unfold PathOps.suffix. rewrite name_in_directory by exact Hname.
  reflexivity.
Qed.

(** ** The change filter *)

Lemma plain_esbuild_config : plain_component "esbuild.config.mjs".
Proof. repeat split; discriminate. Qed.

Lemma plain_main_js : plain_component "main.js".
Proof. repeat split; discriminate. Qed.

(** X1. A change to a file named [esbuild.config.mjs] never reaches the
    rebuild gate, in whatever directory it lies: the name is in the list of
    configuration files, but its suffix [.mjs] is not among the accepted
    suffixes, and the suffix is checked first. The handler returns and
    leaves the machine as it was. *)
Theorem esbuild_config_never_triggers
    (dir : string) (is_dir : bool) (b : BuildRun) (m : Machine) :
  on_modified {| is_directory := is_dir;
                 src_path := dir +:+ "/esbuild.config.mjs" |} b m
  = (Returned tt, m).
Proof.
  apply on_modified_filtered. unfold relevant. cbn [is_directory src_path].
  change (dir +:+ "/esbuild.config.mjs") with (dir +:+ "/" +:+ "esbuild.config.mjs").
  rewrite (suffix_in_directory dir _ plain_esbuild_config).
  rewrite (name_in_directory dir _ plain_esbuild_config).
  destruct is_dir; [reflexivity|]. cbn [negb andb].
  replace (Str.mem (PathOps.suffix {| path_root := ""; path_tail := ["esbuild.config.mjs"] |})
             source_suffixes) with false by (vm_compute; reflexivity).
  cbn [negb]. rewrite !orb_true_r. reflexivity.
Qed.

(** X2. The build artifact never triggers a rebuild: a notification for a
    file named [main.js], in whatever directory, is dropped before the gate,
    so neither the build nor the copy step can set the handler off again. *)
Theorem artifact_never_triggers
    (dir : string) (is_dir : bool) (b : BuildRun) (m : Machine) :
  on_modified {| is_directory := is_dir; src_path := dir +:+ "/main.js" |} b m
  = (Returned tt, m).
Proof.
  apply on_modified_filtered. unfold relevant. cbn [is_directory src_path].
  change (dir +:+ "/main.js") with (dir +:+ "/" +:+ "main.js").
  rewrite (name_in_directory dir _ plain_main_js).
  destruct is_dir; [reflexivity|]. cbn [negb andb].
  rewrite String.eqb_refl. reflexivity.
Qed.

(** X3. A file named [package.json] or [tsconfig.json] triggers a rebuild
    from any directory of the watched tree, not only from the project root:
    when no component of its path is [node_modules] and the gate is open,
    the handler runs one build. *)
Theorem config_file_triggers_anywhere
    (dir name : string) (d : Delivery) (m : Machine) :
  name = "package.json" ∨ name = "tsconfig.json" →
  notified d = {| is_directory := false; src_path := dir +:+ "/" +:+ name |} →
  Str.mem "node_modules" (PathOps.parts (PathOps.of_string (dir +:+ "/" +:+ name)))
  = false →
  (rebuild_debounce_seconds (self m)
   < at_time d - last_rebuild_time (self m))%Q →
  builds_run (trace (world (deliver d m).2)) = S (builds_run (trace (world m))).
Proof.
  intros Hname Hd Hmods Hopen.
  assert (Hplain : plain_component name)
    by (destruct Hname as [-> | ->]; repeat split; discriminate).
  destruct (deliver_spec d m) as (_ & _ & Hbuilds).
  apply Qgtb_gt in Hopen.
  assert (Hrel : relevant (project_root (self m)) (notified d) = true).
  { rewrite Hd. unfold relevant. cbn [is_directory src_path negb andb].
    rewrite Hmods, (suffix_in_directory dir _ Hplain),
      (name_in_directory dir _ Hplain).
    set (under_src := PathOps.is_relative_to _ _). clearbody under_src.
    destruct Hname as [-> | ->]; destruct under_src; vm_compute; reflexivity. }
  rewrite Hrel, Hopen in Hbuilds. cbn [andb] in Hbuilds. lia.
Qed.

(** ** What the watch loop keeps *)

Lemma deliver_self (d : Delivery) (m : Machine) :
  self (deliver d m).2 = self m
  ∨ (self (deliver d m).2 = set_last_rebuild_time (at_time d) (self m)
     ∧ (rebuild_debounce_seconds (self m)
        < at_time d - last_rebuild_time (self m))%Q).
Proof.
  destruct (deliver_spec d m) as (_ & Hself & _).
  destruct (relevant _ _); cbn [andb] in Hself; [|left; exact Hself].
  destruct (Qgtb _ _) eqn:Hgate; [|left; exact Hself].
  right. split; [exact Hself | apply Qgtb_gt; exact Hgate].
Qed.

(** X4. Over any run of the watch loop the watcher keeps its roots, its
    descriptor, both cooldowns, the change-gate timestamp and the handle of
    the background process: only [last_rebuild_time] moves, and it ends at
    its first value or at the instant of one of the deliveries. With a
    cooldown that is not negative it never moves backwards. *)
Theorem watch_keeps_configuration (ds : list Delivery) (m : Machine) :
  let o := self m in
  let o' := self (watch ds m).2 in
  o' = set_last_rebuild_time (last_rebuild_time o') o
  ∧ (last_rebuild_time o' = last_rebuild_time o
     ∨ ∃ d, d ∈ ds ∧ last_rebuild_time o' = at_time d)
  ∧ ((0 <= rebuild_debounce_seconds o)%Q →
     (last_rebuild_time o <= last_rebuild_time o')%Q).
Proof.
  cbn zeta. revert m. induction ds as [|d ds IH]; intros m.
  - cbn. split; [destruct (self m); reflexivity|].
    split; [left; reflexivity|]. intros _. lra.
  - rewrite watch_cons. destruct (IH (deliver d m).2) as (Hkeep & Hlast & Hmono).
    destruct (deliver_self d m) as [Hself | [Hself Hopen]].
    + rewrite Hself in *. split; [exact Hkeep|]. split; [|exact Hmono].
      destruct Hlast as [Hlast | (d' & Hd' & Hlast)]; [left; exact Hlast|].
      right. exists d'. split; [right; exact Hd' | exact Hlast].
    + rewrite Hself in *. cbn [rebuild_debounce_seconds last_rebuild_time
                               set_last_rebuild_time] in *.
      split; [rewrite Hkeep at 1; reflexivity|]. split.
      * right. destruct Hlast as [Hlast | (d' & Hd' & Hlast)].
        -- exists d. split; [left | exact Hlast].
        -- exists d'. split; [right; exact Hd' | exact Hlast].
      * intros Hpos. specialize (Hmono Hpos). lra.
Qed.

(** X5. No failure of the build or of the copy step gets out of the
    handler: whatever the notification, the state of the two directories and
    the outcome of the build (launch error, timeout, non-zero exit, failing
    [mkdir] or [copy2] in the copy step), the call returns once its messages
    are printed, and it runs at most one build. *)
Theorem on_modified_always_returns (event : Event) (b : BuildRun) (m : Machine) :
  (on_modified event b m).1 = Returned tt
  ∧ (builds_run (trace (world (on_modified event b m).2))
     ≤ S (builds_run (trace (world m))))%nat.
Proof.
  pose proof (deliver_spec {| at_time := clock (world m); notified := event;
                              build := b |} m) as (Hret & _ & Hbuilds).
  rewrite deliver_run in Hret, Hbuilds. cbn [at_time notified build] in *.
  replace {| self := self m; world := set_clock (clock (world m)) (world m) |}
    with m in * by (destruct m as [o []]; reflexivity).
  split; [exact Hret|]. rewrite Hbuilds. destruct (_ && _)%bool; lia.
Qed.

(** ** One build, step by step *)

Lemma run_build (b : BuildRun) (cmd : list string) (timeout : Q) (m : Machine) :
  lift (Sys.subprocess_run b cmd timeout) m
  = let started :=
      {| self := self m;
         world := set_trace (trace (world m) ++ [Run cmd timeout]) (world m) |} in
    if launch_fails b then (Raised OSError, started)
    else
      let built :=
        set_project_files (writes b (project_files (world m)))
          (set_trace (trace (world m) ++ [Run cmd timeout]) (world m)) in
      if Qle_bool (duration b) timeout then
        (Returned {| cp_returncode := returncode b;
                     cp_stdout := stdout b; cp_stderr := stderr b |},
         {| self := self m;
            world := set_clock (clock (world m) + duration b)%Q built |})
      else
        (Raised TimeoutExpired,
         {| self := self m;
            world := set_clock (clock (world m) + timeout)%Q built |}).
Proof.
  rewrite run_lift. destruct m as [o w]. wrun.
  destruct (launch_fails b); [reflexivity|].
  destruct (Qle_bool (duration b) timeout); reflexivity.
Qed.

(** X6. A rebuild of watch mode that is still running after 30 seconds is
    cut: the clock has moved by 30 seconds, not by the time the build would
    have taken, what the build had written stays in the project directory,
    nothing is copied, and the timeout message is the last thing printed. *)
Theorem slow_rebuild_is_cut (b : BuildRun) (m : Machine) :
  launch_fails b = false →
  (30 < duration b)%Q →
  let m' := (_rebuild_plugin b m).2 in
  (_rebuild_plugin b m).1 = Returned tt
  ∧ clock (world m') = (clock (world m) + 30)%Q
  ∧ project_files (world m') = writes b (project_files (world m))
  ∧ plugin_files (world m') = plugin_files (world m)
  ∧ files_copied (trace (world m')) = files_copied (trace (world m))
  ∧ last (trace (world m')) = Some (Print BuildTimeout).
Proof.
  intros Hlaunch Hslow. cbn zeta. unfold _rebuild_plugin.
  rewrite run_bind, run_print. unfold try_except. rewrite run_bind, run_build.
  rewrite Hlaunch. cbn zeta.
  assert (Qle_bool (duration b) 30 = false) as ->.
  { apply not_true_is_false. rewrite Qle_bool_iff. lra. }
  rewrite run_print. cbn [fst snd]. fields.
  rewrite !files_copied_app. cbn. rewrite !app_nil_r.
  repeat split; try reflexivity. apply last_snoc.
Qed.

(** ** Methods that only print, and methods that keep the failures in store *)

Lemma world_set_trace_id (w : World) : set_trace (trace w) w = w.
Proof. destruct w; reflexivity. Qed.

Global Instance only_logs_preorder : PreOrder only_logs.
Proof.
  split.
  - intros m. split; [reflexivity|]. exists []. cbn. rewrite app_nil_r.
    symmetry. apply world_set_trace_id.
  - intros m1 m2 m3 [Hs1 [msgs1 H1]] [Hs2 [msgs2 H2]]. split; [congruence|].
    exists (msgs1 ++ msgs2). rewrite H2, H1. cbn. rewrite map_app, app_assoc.
    reflexivity.
Qed.

Lemma only_logs_print (msg : Message) : preserves only_logs (print msg).
Proof. intros m. rewrite run_print. split; [reflexivity|]. exists [msg]. reflexivity. Qed.

Lemma only_logs_print_build_failure (result : CompletedProcess) :
  preserves only_logs (print_build_failure result).
Proof.
  unfold print_build_failure. frame ltac:(eauto using only_logs_print).
Qed.

Lemma files_copied_prints (msgs : list Message) : files_copied (map Print msgs) = [].
Proof. induction msgs as [|msg msgs IH]; [reflexivity | exact IH]. Qed.

Lemma builds_run_prints (msgs : list Message) : builds_run (map Print msgs) = 0%nat.
Proof. induction msgs as [|msg msgs IH]; [reflexivity | exact IH]. Qed.

Global Instance keeps_oracles_preorder : PreOrder keeps_oracles.
Proof.
  split.
  - intros m. split; reflexivity.
  - intros m1 m2 m3 [] []. split; congruence.
Qed.

Lemma keeps_oracles_lift {A} (c : M World A) :
  (∀ w, mkdir_fails (c w).2 = mkdir_fails w ∧ copy_fails (c w).2 = copy_fails w) →
  preserves keeps_oracles (lift c).
Proof. intros Hc m. rewrite run_lift. apply Hc. Qed.

Lemma keeps_oracles_print (msg : Message) : preserves keeps_oracles (print msg).
Proof. apply keeps_oracles_lift. intros w. split; reflexivity. Qed.

Lemma keeps_oracles_exists (filename : string) :
  preserves keeps_oracles (lift (Sys.project_file_exists filename)).
Proof. apply keeps_oracles_lift. intros w. split; reflexivity. Qed.

Lemma keeps_oracles_stat (filename : string) :
  preserves keeps_oracles (lift (Sys.project_file_stat filename)).
Proof.
  apply keeps_oracles_lift. intros w. wrun.
  destruct (project_files w !! filename); split; reflexivity.
Qed.

Lemma keeps_oracles_time : preserves keeps_oracles (lift Sys.time_time).
Proof. apply keeps_oracles_lift. intros w. split; reflexivity. Qed.

Lemma keeps_oracles_mkdir (dir : Path) : preserves keeps_oracles (lift (Sys.mkdir dir)).
Proof.
  apply keeps_oracles_lift. intros w. wrun.
  destruct (plugin_dir_exists w); [split; reflexivity|].
  destruct (mkdir_fails w) eqn:E; cbn; rewrite ?E; split; reflexivity.
Qed.

Lemma keeps_oracles_copy2 (filename : string) :
  preserves keeps_oracles (lift (Sys.copy2 filename)).
Proof.
  apply keeps_oracles_lift. intros w. wrun.
  destruct (project_files w !! filename); [|split; reflexivity].
  destruct (negb (plugin_dir_exists w) || copy_fails w filename)%bool;
    split; reflexivity.
Qed.

Lemma keeps_oracles_get_self {A} (f : PluginDevWatcher → A) :
  preserves keeps_oracles (get_self f).
Proof. intros m. split; reflexivity. Qed.

Create HintDb oracles discriminated.
#[export] Hint Resolve keeps_oracles_print keeps_oracles_exists keeps_oracles_stat
  keeps_oracles_time keeps_oracles_mkdir keeps_oracles_copy2
  keeps_oracles_get_self : oracles.

Ltac oracles_tac := frame ltac:(eauto with oracles).

Lemma keeps_oracles_copy_each (files : list string) :
  ∀ copied_files, preserves keeps_oracles (copy_each files copied_files).
Proof.
  induction files as [|filename rest IH]; intros copied_files; cbn [copy_each];
    oracles_tac.
Qed.

Lemma keeps_oracles_copy_plugin_files (is_initial_copy : bool) :
  preserves keeps_oracles (_copy_plugin_files is_initial_copy).
Proof.
  unfold _copy_plugin_files, _check_build_success.
  pose proof keeps_oracles_copy_each. oracles_tac.
Qed.

(** ** Creating the plugin directory *)

Lemma create_plugin_directory_full (m : Machine) :
  let can_create :=
    (plugin_dir_exists (world m) || negb (mkdir_fails (world m)))%bool in
  ∃ tr, _create_plugin_directory m
        = (Returned can_create,
           {| self := self m;
              world := set_trace (trace (world m) ++ tr)
                         (set_plugin_dir_exists can_create (world m)) |})
        ∧ files_copied tr = []
        ∧ builds_run tr = 0%nat
        ∧ (plugin_dir_exists (world m) = true →
           tr = [Print (PluginDirExists (plugin_dir (plugin_info (self m))))]).
Proof.
  destruct m as [o w]. unfold _create_plugin_directory, print, except_Exception.
  unfold get_self, lift, try_except. wrun.
  destruct (plugin_dir_exists w) eqn:Hdir; cbn -[files_copied builds_run].
  - eexists. split; [|split; [|split]]; [| | |reflexivity]; [|reflexivity..].
    destruct w; cbn in *. subst. reflexivity.
  - rewrite ?Hdir. cbn -[files_copied builds_run].
    destruct (mkdir_fails w) eqn:Hfail; cbn -[files_copied builds_run];
      rewrite ?Hfail.
    + exists [Print (CreatingPluginDir (plugin_dir (plugin_info o)));
              Print (CreatePluginDirFailed (plugin_dir (plugin_info o)) OSError)].
      split; [|split; [|split]]; [|reflexivity|reflexivity|discriminate].
      destruct w; cbn in *. subst. rewrite <- app_assoc. reflexivity.
    + exists [Print (CreatingPluginDir (plugin_dir (plugin_info o)));
              Mkdir (plugin_dir (plugin_info o));
              Print (CreatedPluginDir (plugin_dir (plugin_info o)))].
      split; [|split; [|split]]; [|reflexivity|reflexivity|discriminate].
      cbn. rewrite <- !app_assoc. reflexivity.
Qed.

(** X7. Once [exists] has answered, [_create_plugin_directory] touches no
    file and returns true exactly when the directory is there afterwards: it
    was there already, or [mkdir] created it; a failing [mkdir] is caught
    and gives false. Calling it again gives the same answer, and when the
    directory is there the second call only prints. *)
Theorem create_plugin_directory_idempotent (m : Machine) :
  let can_create :=
    (plugin_dir_exists (world m) || negb (mkdir_fails (world m)))%bool in
  let m1 := (_create_plugin_directory m).2 in
  (_create_plugin_directory m).1 = Returned can_create
  ∧ plugin_dir_exists (world m1) = can_create
  ∧ plugin_files (world m1) = plugin_files (world m)
  ∧ project_files (world m1) = project_files (world m)
  ∧ (_create_plugin_directory m1).1 = Returned can_create
  ∧ (can_create = true →
     (_create_plugin_directory m1).2
     = (print (PluginDirExists (plugin_dir (plugin_info (self m)))) m1).2).
Proof.
  cbn zeta. destruct (create_plugin_directory_full m) as (tr & Hrun & _).
  rewrite Hrun. cbn [fst snd]. fields.
  set (m1 := {| self := self m; world := _ |}).
  destruct (create_plugin_directory_full m1) as (tr1 & Hrun1 & _ & _ & Hexists).
  rewrite Hrun1. cbn [fst snd]. subst m1. fields.
  repeat split; try reflexivity.
  - destruct (plugin_dir_exists (world m)); [reflexivity|].
    destruct (mkdir_fails (world m)); reflexivity.
  - intros Hcan. rewrite Hcan in *. rewrite (Hexists eq_refl), run_print.
    cbn. reflexivity.
Qed.

(** ** The one-shot build *)

Lemma only_logs_fields (m m' : Machine) :
  only_logs m m' →
  self m' = self m
  ∧ clock (world m') = clock (world m)
  ∧ project_files (world m') = project_files (world m)
  ∧ plugin_dir_exists (world m') = plugin_dir_exists (world m)
  ∧ plugin_files (world m') = plugin_files (world m)
  ∧ mkdir_fails (world m') = mkdir_fails (world m)
  ∧ copy_fails (world m') = copy_fails (world m)
  ∧ files_copied (trace (world m')) = files_copied (trace (world m))
  ∧ builds_run (trace (world m')) = builds_run (trace (world m)).
Proof.
  intros [Hs [msgs ->]]. fields.
  rewrite files_copied_app, builds_run_app, files_copied_prints, builds_run_prints.
  rewrite app_nil_r, Nat.add_0_r. auto 10.
Qed.

Lemma build_and_copy_once_spec (b : BuildRun) (m : Machine) :
  let w := world m in
  let m' := (build_and_copy_once b m).2 in
  (build_and_copy_once b m).1 = Returned (bool_decide (one_shot_copied b w ≠ []))
  ∧ self m' = self m
  ∧ project_files (world m') = one_shot_project b w
  ∧ plugin_dir_exists (world m')
    = (plugin_dir_exists w || negb (mkdir_fails w))%bool
  ∧ mkdir_fails (world m') = mkdir_fails w
  ∧ copy_fails (world m') = copy_fails w
  ∧ plugin_files (world m')
    = copied_into (set_project_files (one_shot_project b w) w) (one_shot_copied b w)
  ∧ files_copied (trace (world m'))
    = files_copied (trace w) ++ one_shot_copied b w.
Proof.
  cbn zeta. unfold one_shot_copied, one_shot_verified, one_shot_project,
    one_shot_launched.
  unfold build_and_copy_once. rewrite run_bind.
  destruct (create_plugin_directory_full m) as (tr & -> & Htr & _).
  destruct (plugin_dir_exists (world m) || negb (mkdir_fails (world m)))%bool
    eqn:Hcan; cbn [negb andb].
  - rewrite run_bind, run_print. unfold try_except. rewrite run_bind, run_build.
    fields.
    destruct (launch_fails b) eqn:Hlaunch; cbn [negb andb].
    + rewrite run_bind, run_print, ?run_ret. cbn [fst snd]. fields.
      rewrite !files_copied_app, Htr. cbn. rewrite !app_nil_r. auto 10.
    + cbn zeta. destruct (Qle_bool (duration b) 60) eqn:Hfast; cbn [andb].
      * cbn [cp_returncode].
        destruct (returncode b =? 0)%Z eqn:Hcode; cbn [andb].
        -- do 2 (rewrite run_bind, run_print; cbv beta iota).
           rewrite run_bind. fields.
           set (m4 := {| self := self m; world := _ |}).
           assert (Hv : verified true (world m4)
                        = match writes b (project_files (world m)) !! "main.js" with
                          | Some f => (0 <? st_size f)%Z
                          | None => false
                          end) by reflexivity.
           destruct (match writes b (project_files (world m)) !! "main.js" with
                     | Some f => (0 <? st_size f)%Z
                     | None => false
                     end).
           ++ destruct (copy_plugin_files_copies true m4 Hv eq_refl)
                as (m5 & Hrun & Hs5 & _ & Hp5 & Hd5 & _ & Hc5 & Hf5).
              pose proof (keeps_oracles_copy_plugin_files true m4) as [Hmk Hcf].
              rewrite Hrun in Hmk, Hcf |- *. cbn [fst snd] in *.
              set (new := List.filter (copyable (world m4)) files_to_copy) in *.
              assert (Hnew : List.filter
                               (copyable (set_project_files
                                            (writes b (project_files (world m)))
                                            (world m))) files_to_copy = new)
                by reflexivity.
              rewrite Hnew.
              assert (Hinto : copied_into (world m4) new
                              = copied_into (set_project_files
                                               (writes b (project_files (world m)))
                                               (world m)) new) by reflexivity.
              destruct new as [|n new'] eqn:Enew.
              ** rewrite (bool_decide_eq_false_2 (@nil string ≠ []))
                   by (intros H; apply H; reflexivity).
                 rewrite run_bind, run_print, ?run_ret. cbn [fst snd]. fields.
                 rewrite files_copied_app, Hc5, Hf5, Hinto, Hs5, Hp5, Hd5, Hmk, Hcf.
                 subst m4. fields. rewrite !files_copied_app, Htr. cbn.
                 rewrite !app_nil_r. auto 10.
              ** rewrite (bool_decide_eq_true_2 (n :: new' ≠ [])) by discriminate.
                 rewrite run_bind, run_print, ?run_ret. cbn [fst snd]. fields.
                 rewrite files_copied_app, Hc5, Hf5, Hinto, Hs5, Hp5, Hd5, Hmk, Hcf.
                 subst m4. fields. rewrite !files_copied_app, Htr. cbn.
                 rewrite !app_nil_r. auto 10.
           ++ rewrite (copy_plugin_files_unverified true m4 Hv), run_print.
              cbv beta iota. cbn [negb]. rewrite run_bind, run_print, ?run_ret. cbn [fst snd].
              subst m4. fields. rewrite !files_copied_app, Htr. cbn.
              rewrite !app_nil_r. auto 10.
        -- rewrite run_bind.
           set (m3 := {| self := self m; world := _ |}).
           destruct (never_raises_print_build_failure
                       {| cp_returncode := returncode b; cp_stdout := stdout b;
                          cp_stderr := stderr b |} m3) as [[] Hret].
           pose proof (only_logs_print_build_failure
                         {| cp_returncode := returncode b; cp_stdout := stdout b;
                            cp_stderr := stderr b |} m3) as Hlogs.
           destruct (print_build_failure _ m3) as [r m4]. cbn [fst snd] in *.
           subst r. rewrite ?run_ret. cbn [fst snd].
           apply only_logs_fields in Hlogs
             as (Hs & _ & Hp & Hd & Hpf & Hmk & Hcf & Hfc & _).
           rewrite Hs, Hp, Hd, Hpf, Hmk, Hcf, Hfc. subst m3. fields.
           rewrite !files_copied_app, Htr. cbn. rewrite !app_nil_r. auto 10.
      * rewrite run_bind, run_print, ?run_ret. cbn [fst snd]. fields.
        rewrite !files_copied_app, Htr. cbn. rewrite !app_nil_r. auto 10.
  - rewrite ?run_ret. cbn [fst snd]. fields.
    rewrite files_copied_app, Htr, !app_nil_r. auto 10.
Qed.

Lemma filter_nonempty {A} (f : A → bool) (l : list A) :
  List.filter f l ≠ [] ↔ ∃ x, x ∈ l ∧ f x = true.
Proof.
  split.
  - intros Hne. destruct (List.filter f l) as [|x l'] eqn:E; [congruence|].
    assert (Hx : List.In x (List.filter f l)) by (rewrite E; left; reflexivity).
    apply filter_In in Hx as [Hin Hfx]. exists x.
    split; [apply list_elem_of_In; exact Hin | exact Hfx].
  - intros (x & Hin & Hfx) Hnil.
    assert (Hx : List.In x (List.filter f l))
      by (apply filter_In; split; [apply list_elem_of_In; exact Hin | exact Hfx]).
    rewrite Hnil in Hx. destruct Hx.
Qed.

Lemma build_and_copy_once_returns_bool (b : BuildRun) (m : Machine) :
  (build_and_copy_once b m).1 = Returned true
  ∨ (build_and_copy_once b m).1 = Returned false.
Proof.
  destruct (build_and_copy_once_spec b m) as (-> & _).
  destruct (bool_decide _); auto.
Qed.

(** When the one-shot build copies something. *)
Lemma one_shot_copied_iff (b : BuildRun) (m : Machine) :
  let w := world m in
  let built := writes b (project_files w) in
  one_shot_copied b w ≠ []
  ↔ (plugin_dir_exists w = true ∨ mkdir_fails w = false)
    ∧ launch_fails b = false
    ∧ (duration b <= 60)%Q
    ∧ returncode b = 0%Z
    ∧ (∃ f, built !! "main.js" = Some f ∧ (0 < st_size f)%Z)
    ∧ (∃ filename, filename ∈ files_to_copy
                   ∧ is_Some (built !! filename)
                   ∧ copy_fails w filename = false).
Proof.
  cbn zeta. split.
  - intros Hcopied.
    unfold one_shot_copied in Hcopied.
    destruct (one_shot_verified b (world m)) eqn:Hv; [|congruence].
    unfold one_shot_verified, one_shot_project in Hv.
    apply andb_true_iff in Hv as [Hv Hart]. apply andb_true_iff in Hv as [Hv Hcode].
    apply andb_true_iff in Hv as [Hlaunched Hfast].
    unfold one_shot_project in Hcopied. rewrite Hlaunched in Hart, Hcopied.
    unfold one_shot_launched in Hlaunched.
    apply andb_true_iff in Hlaunched as [Hcan Hlaunch].
    apply orb_true_iff in Hcan. rewrite !negb_true_iff in *.
    apply Qle_bool_iff in Hfast. apply Z.eqb_eq in Hcode.
    apply filter_nonempty in Hcopied as (filename & Hin & Hc).
    apply copyable_spec in Hc. cbn [project_files copy_fails set_project_files] in Hc.
    repeat split; auto; [|eauto].
    destruct (writes b (project_files (world m)) !! "main.js") as [f|];
      [|discriminate]. exists f. split; [reflexivity | apply Z.ltb_lt; exact Hart].
  - intros (Hcan & Hlaunch & Hfast & Hcode & (f & Hf & Hsize) & filename & Hin & Hex & Hcf).
    assert (Hlaunched : one_shot_launched b (world m) = true).
    { unfold one_shot_launched. rewrite Hlaunch.
      destruct Hcan as [-> | ->]; rewrite ?orb_true_r; reflexivity. }
    assert (Hv : one_shot_verified b (world m) = true).
    { unfold one_shot_verified, one_shot_project. rewrite Hlaunched, Hf, Hcode.
      cbn [andb]. rewrite Z.eqb_refl, andb_true_r.
      apply andb_true_iff. split; [apply Qle_bool_iff; exact Hfast|].
      apply Z.ltb_lt. exact Hsize. }
    unfold one_shot_copied. rewrite Hv. apply filter_nonempty.
    exists filename. split; [exact Hin|]. apply copyable_spec.
    unfold one_shot_project. rewrite Hlaunched.
    cbn [project_files copy_fails set_project_files]. auto.
Qed.

(** X8. The one-shot build returns true exactly when everything went
    through: the plugin directory is there or can be created, the build is
    launched, ends within 60 seconds and exits with zero, it leaves a
    [main.js] of more than zero bytes, and at least one of the three files
    exists and is copied without error. *)
Theorem build_and_copy_once_succeeds_iff (b : BuildRun) (m : Machine) :
  let w := world m in
  let built := writes b (project_files w) in
  (build_and_copy_once b m).1 = Returned true
  ↔ (plugin_dir_exists w = true ∨ mkdir_fails w = false)
    ∧ launch_fails b = false
    ∧ (duration b <= 60)%Q
    ∧ returncode b = 0%Z
    ∧ (∃ f, built !! "main.js" = Some f ∧ (0 < st_size f)%Z)
    ∧ (∃ filename, filename ∈ files_to_copy
                   ∧ is_Some (built !! filename)
                   ∧ copy_fails w filename = false).
Proof.
  cbn zeta. destruct (build_and_copy_once_spec b m) as (-> & _).
  rewrite <- (one_shot_copied_iff b m). split.
  - intros [= Hcopied]. apply bool_decide_eq_true in Hcopied. exact Hcopied.
  - intros Hcopied. f_equal. apply bool_decide_eq_true. exact Hcopied.
Qed.

Lemma foldl_copy_twice (src dir : gmap string File) (names : list string) :
  (∀ x, x ∈ names → is_Some (src !! x)) →
  let copy := foldl (λ dir filename,
                       match src !! filename with
                       | Some f => <[filename := f]> dir
                       | None => dir
                       end) in
  copy (copy dir names) names = copy dir names.
Proof.
  intros Hsrc copy. apply map_eq. intros n. subst copy.
  rewrite !foldl_copy_lookup by exact Hsrc.
  destruct (bool_decide (n ∈ names)); reflexivity.
Qed.

(** X9. Running the one-shot build a second time changes nothing, provided
    the build leaves a project directory it has already built as it is: the
    second run returns what the first returned, and the plugin directory
    and the project directory hold what they held after the first. *)
Theorem build_and_copy_once_idempotent (b : BuildRun) (m : Machine) :
  writes b (writes b (project_files (world m))) = writes b (project_files (world m)) →
  let m1 := (build_and_copy_once b m).2 in
  let m2 := (build_and_copy_once b m1).2 in
  (build_and_copy_once b m1).1 = (build_and_copy_once b m).1
  ∧ plugin_files (world m2) = plugin_files (world m1)
  ∧ project_files (world m2) = project_files (world m1)
  ∧ files_copied (trace (world m2))
    = files_copied (trace (world m1)) ++ one_shot_copied b (world m).
Proof.
  intros Hstable. cbn zeta.
  destruct (build_and_copy_once_spec b m)
    as (Hr1 & _ & Hp1 & Hd1 & Hmk1 & Hcf1 & Hpf1 & _).
  destruct (build_and_copy_once_spec b (build_and_copy_once b m).2)
    as (Hr2 & _ & Hp2 & _ & _ & _ & Hpf2 & Hfc2).
  set (m1 := (build_and_copy_once b m).2) in *.
  assert (Hlaunched : one_shot_launched b (world m1) = one_shot_launched b (world m)).
  { unfold one_shot_launched. rewrite Hd1, Hmk1.
    destruct (plugin_dir_exists (world m)), (mkdir_fails (world m)); reflexivity. }
  assert (Hproject : one_shot_project b (world m1) = one_shot_project b (world m)).
  { unfold one_shot_project at 1. rewrite Hlaunched, Hp1. unfold one_shot_project.
    destruct (one_shot_launched b (world m)); [exact Hstable | reflexivity]. }
  assert (Hverified : one_shot_verified b (world m1) = one_shot_verified b (world m)).
  { unfold one_shot_verified. rewrite Hlaunched, Hproject. reflexivity. }
  assert (Hcopied : one_shot_copied b (world m1) = one_shot_copied b (world m)).
  { unfold one_shot_copied. rewrite Hverified, Hproject.
    destruct (one_shot_verified b (world m)); [|reflexivity].
    apply filter_ext. intros n. unfold copyable.
    cbn [project_files copy_fails set_project_files]. rewrite Hcf1. reflexivity. }
  rewrite Hr2, Hr1, Hp2, Hfc2, Hpf2, Hcopied, Hproject, Hp1.
  repeat split; try reflexivity.
  unfold copied_into. cbn [project_files plugin_files set_project_files].
  rewrite Hpf1. unfold copied_into.
  cbn [project_files plugin_files set_project_files].
  apply foldl_copy_twice.
  intros x Hx. unfold one_shot_copied in Hx.
  destruct (one_shot_verified b (world m)); [|inversion Hx].
  apply list_elem_of_In, filter_In in Hx as [_ Hx]. apply copyable_spec in Hx.
  apply Hx.
Qed.

(** ** Starting watch mode with an artifact in place *)


(** ** The change-acceptance gate *)

Lemma poll_copy_cons (t : Q) (rest : list Q) (m : Machine) :
  poll _should_copy (t :: rest) m
  = let accepted :=
      Qgtb (t - last_copy_time (self m)) (debounce_seconds (self m)) in
    let m1 :=
      {| self := if accepted then set_last_copy_time t (self m) else self m;
         world := set_clock t (world m) |} in
    match poll _should_copy rest m1 with
    | (Returned answers, m') => (Returned (accepted :: answers), m')
    | (Raised e, m') => (Raised e, m')
    end.
Proof.
  cbn [poll]. rewrite run_bind, run_lift. cbn [modify fst snd].
  rewrite run_bind, should_copy_run. fields.
  destruct (Qgtb _ _); cbn zeta; rewrite run_bind;
    destruct (poll _should_copy rest _) as [[answers|e] m']; reflexivity.
Qed.

Lemma poll_copy_shut (instants : list Q) :
  ∀ (m : Machine) (lo : Q),
    (lo <= last_copy_time (self m))%Q →
    (∀ t, t ∈ instants → (t <= lo + debounce_seconds (self m))%Q) →
    ∃ answers,
      (poll _should_copy instants m).1 = Returned answers
      ∧ length answers = length instants
      ∧ accepted_count answers = 0%nat
      ∧ self (poll _should_copy instants m).2 = self m.
Proof.
  induction instants as [|t rest IH]; intros m lo Hlast Hwin.
  - exists []. repeat split; reflexivity.
  - rewrite poll_copy_cons.
    assert (Hgate : Qgtb (t - last_copy_time (self m)) (debounce_seconds (self m))
                    = false).
    { apply Qgtb_le. specialize (Hwin t (list_elem_of_here _ _)). lra. }
    rewrite Hgate. cbn zeta.
    destruct (IH {| self := self m; world := set_clock t (world m) |} lo Hlast)
      as (answers & Hrun & Hlen & Hcount & Hself).
    { intros t' Ht'. apply Hwin. right. exact Ht'. }
    destruct (poll _should_copy rest _) as [[answers'|e] m']; cbn [fst snd] in *;
      [|discriminate].
    injection Hrun as ->. exists (false :: answers).
    repeat split; cbn; auto.
Qed.

(** X11. The change-acceptance gate says yes at most once to instants that
    all lie in one window no longer than its cooldown, two seconds in a
    fresh watcher: [_should_copy] answers every call, never raises, and
    leaves the rebuild gate's timestamp alone. *)
Theorem change_gate_accepts_once_per_window
    (instants : list Q) (m : Machine) (lo : Q) :
  (∀ t, t ∈ instants →
     (lo <= t)%Q ∧ (t <= lo + debounce_seconds (self m))%Q) →
  ∃ answers,
    (poll _should_copy instants m).1 = Returned answers
    ∧ length answers = length instants
    ∧ (accepted_count answers ≤ 1)%nat
    ∧ last_rebuild_time (self (poll _should_copy instants m).2)
      = last_rebuild_time (self m).
Proof.
  revert m. induction instants as [|t rest IH]; intros m Hwin.
  - exists []. repeat split; cbn; auto.
  - rewrite poll_copy_cons. cbn zeta.
    destruct (Qgtb _ _) eqn:Hgate.
    + destruct (poll_copy_shut rest
                  {| self := set_last_copy_time t (self m);
                     world := set_clock t (world m) |} lo)
        as (answers & Hrun & Hlen & Hcount & Hself).
      * cbn. apply Hwin. left.
      * intros t' Ht'. cbn. apply Hwin. right. exact Ht'.
      * destruct (poll _should_copy rest _) as [[answers'|e] m'];
          cbn [fst snd] in *; [|discriminate].
        injection Hrun as ->. exists (true :: answers).
        rewrite Hself. unfold accepted_count in *. cbn. rewrite Hcount.
        repeat split; auto.
    + destruct (IH {| self := self m; world := set_clock t (world m) |})
        as (answers & Hrun & Hlen & Hcount & Hself).
      { intros t' Ht'. apply Hwin. right. exact Ht'. }
      destruct (poll _should_copy rest _) as [[answers'|e] m'];
        cbn [fst snd] in *; [|discriminate].
      injection Hrun as ->. exists (false :: answers).
      repeat split; cbn; auto.
Qed.

(** X12. The two gates do not see each other: asking the change gate and
    then the rebuild gate at one instant gives the same two answers and the
    same watcher as asking them the other way round. *)
Theorem gates_are_independent (m : Machine) :
  (change ← _should_copy; rebuild ← _should_rebuild; mret (change, rebuild)) m
  = (rebuild ← _should_rebuild; change ← _should_copy; mret (change, rebuild)) m.
Proof.
  rewrite !run_bind, should_copy_run, should_rebuild_run.
  destruct (Qgtb (clock (world m) - last_copy_time (self m)) _) eqn:Hc;
    destruct (Qgtb (clock (world m) - last_rebuild_time (self m)) _) eqn:Hr;
    rewrite !run_bind, ?should_copy_run, ?should_rebuild_run; fields;
    rewrite ?Hc, ?Hr; reflexivity.
Qed.

(** ** Building the watcher *)

Lemma init_run (json_load : string → option JSON) (root vault : Path) (w : World) :
  __init__ json_load root vault w
  = match _load_plugin_info json_load root vault w with
    | (Returned (Some i), w1) =>
        (Returned {| project_root := root; obsidian_vault_path := vault;
                     last_copy_time := 0; last_rebuild_time := 0;
                     debounce_seconds := 2; rebuild_debounce_seconds := 1;
                     dev_process := None; plugin_info := i |},
         set_trace (trace w1 ++ [Print (PluginBanner (plugin_name i) (plugin_id i))]) w1)
    | (Returned None, w1) => (Raised ValueError, w1)
    | (Raised e, w1) => (Raised e, w1)
    end.
Proof.
  unfold __init__. rewrite run_bind.
  destruct (_load_plugin_info json_load root vault w) as [[[i|]|e] w1]; reflexivity.
Qed.

Lemma init_only_prints (json_load : string → option JSON)
    (root vault : Path) (w : World) :
  ∃ msgs, (__init__ json_load root vault w).2
          = set_trace (trace w ++ map Print msgs) w.
Proof.
  rewrite init_run.
  assert (Hload : ∃ msgs, (_load_plugin_info json_load root vault w).2
                          = set_trace (trace w ++ map Print msgs) w).
  { destruct (project_files w !! "manifest.json") as [f|] eqn:Hf.
    - destruct (json_load (content f)) as [manifest|] eqn:Hparse.
      + rewrite (load_plugin_info_parsed json_load root vault w f manifest Hf Hparse).
        destruct manifest as [| | | | |l|d];
          try (exists []; cbn; rewrite app_nil_r, world_set_trace_id; reflexivity).
        destruct (d !! "id") as [[| | | |s| |]|];
          try (exists []; cbn; rewrite app_nil_r, world_set_trace_id; reflexivity).
        exists [ManifestReadError (KeyError "id")]. reflexivity.
      + rewrite (load_plugin_info_malformed json_load root vault w f Hf Hparse).
        exists [ManifestReadError JSONDecodeError]. reflexivity.
    - rewrite (load_plugin_info_missing json_load root vault w Hf).
      exists [ManifestNotFound]. reflexivity. }
  destruct Hload as [msgs Hload].
  destruct (_load_plugin_info json_load root vault w) as [[[i|]|e] w1];
    cbn [snd] in *; subst w1.
  - exists (msgs ++ [PluginBanner (plugin_name i) (plugin_id i)]).
    cbn. rewrite map_app, app_assoc. reflexivity.
  - exists msgs. reflexivity.
  - exists msgs. reflexivity.
Qed.

Lemma init_returns_iff (json_load : string → option JSON)
    (root vault : Path) (w : World) :
  (∃ o, (__init__ json_load root vault w).1 = Returned o)
  ↔ ∃ f d s, project_files w !! "manifest.json" = Some f
             ∧ json_load (content f) = Some (JDict d)
             ∧ d !! "id" = Some (JStr s).
Proof.
  rewrite init_run. split.
  - intros [o Ho].
    destruct (project_files w !! "manifest.json") as [f|] eqn:Hf.
    + destruct (json_load (content f)) as [manifest|] eqn:Hparse.
      * rewrite (load_plugin_info_parsed json_load root vault w f manifest Hf Hparse)
          in Ho.
        destruct manifest as [| | | | |l|d]; try discriminate Ho.
        destruct (d !! "id") as [[| | | |s| |]|] eqn:Hid; try discriminate Ho.
        eauto 10.
      * rewrite (load_plugin_info_malformed json_load root vault w f Hf Hparse) in Ho.
        discriminate Ho.
    + rewrite (load_plugin_info_missing json_load root vault w Hf) in Ho.
      discriminate Ho.
  - intros (f & d & s & Hf & Hparse & Hid).
    rewrite (load_plugin_info_parsed json_load root vault w f _ Hf Hparse), Hid.
    eexists. reflexivity.
Qed.

(** X13. Building the watcher, with a manifest that [json.load] takes or
    rejects as malformed and an identifier that can be printed, succeeds
    exactly when [manifest.json] exists, loads as an object and holds a
    string under [id]. Whether it succeeds or not, it changes nothing but
    the output: the clock, both directories and their files are as they
    were. *)
Theorem init_succeeds_iff (json_load : string → option JSON)
    (root vault : Path) (w : World) :
  ((∃ o, (__init__ json_load root vault w).1 = Returned o)
   ↔ ∃ f d s, project_files w !! "manifest.json" = Some f
              ∧ json_load (content f) = Some (JDict d)
              ∧ d !! "id" = Some (JStr s))
  ∧ ∃ msgs, (__init__ json_load root vault w).2
            = set_trace (trace w ++ map Print msgs) w.
Proof.
  split.
  - apply init_returns_iff.
  - apply init_only_prints.
Qed.

(** X14. When building the watcher fails, the error says why only in part:
    a missing manifest, a manifest that [json.load] rejects as malformed
    ([JSONDecodeError]) and an object without [id] all end in [ValueError];
    a manifest that loads as something else than an object, or whose [id] is
    not a string, gets past the loader's own handler and ends in
    [TypeError]. *)
Theorem init_error_kinds (json_load : string → option JSON)
    (root vault : Path) (w : World) :
  (project_files w !! "manifest.json" = None →
   (__init__ json_load root vault w).1 = Raised ValueError)
  ∧ (∀ f, project_files w !! "manifest.json" = Some f →
       match json_load (content f) with
       | None => (__init__ json_load root vault w).1 = Raised ValueError
       | Some (JDict d) =>
           match d !! "id" with
           | None => (__init__ json_load root vault w).1 = Raised ValueError
           | Some (JStr _) => ∃ o, (__init__ json_load root vault w).1 = Returned o
           | Some _ => (__init__ json_load root vault w).1 = Raised TypeError
           end
       | Some _ => (__init__ json_load root vault w).1 = Raised TypeError
       end).
Proof.
  rewrite init_run. split.
  - intros Hf. rewrite (load_plugin_info_missing json_load root vault w Hf).
    reflexivity.
  - intros f Hf. destruct (json_load (content f)) as [manifest|] eqn:Hparse.
    + rewrite (load_plugin_info_parsed json_load root vault w f manifest Hf Hparse).
      destruct manifest as [| | | | |l|d]; try reflexivity.
      destruct (d !! "id") as [[| | | |s| |]|]; try reflexivity.
      eexists. reflexivity.
    + rewrite (load_plugin_info_malformed json_load root vault w f Hf Hparse).
      reflexivity.
Qed.

(** X15. The identifier of the manifest is joined to the vault as it is: an
    [id] that begins with a slash makes the plugin directory that absolute
    path, whatever the vault. *)
Theorem absolute_id_leaves_the_vault (json_load : string → option JSON)
    (root vault : Path) (w : World) (f : File)
    (d : gmap string JSON) (s : string) :
  project_files w !! "manifest.json" = Some f →
  json_load (content f) = Some (JDict d) →
  d !! "id" = Some (JStr s) →
  Str.startswith "/" s = true →
  ∃ o, (__init__ json_load root vault w).1 = Returned o
       ∧ plugin_dir (plugin_info o) = PathOps.of_string s.
Proof.
  intros Hf Hparse Hid Habs. rewrite init_run.
  rewrite (load_plugin_info_parsed json_load root vault w f _ Hf Hparse), Hid.
  eexists. split; [reflexivity|]. cbn [plugin_info plugin_dir].
  unfold PathOps.joinpath at 1. rewrite Habs. reflexivity.
Qed.

(** ** Shutting down *)

Lemma cleanup_run (o : PluginDevWatcher) (s : Shutdown) (st : Stopping) :
  cleanup o s st
  = let said := {| stop_clock := stop_clock st;
                   stop_steps := stop_steps st ++ [Said CleaningUp] |} in
    match dev_process o with
    | None => (Returned tt, said)
    | Some _ =>
        if terminate_fails s then
          (Returned tt,
           {| stop_clock := stop_clock st;
              stop_steps := stop_steps st
                            ++ [Said CleaningUp; Said (ErrorStopping OSError)] |})
        else if exits_in_time s then
          (Returned tt,
           {| stop_clock := (stop_clock st + default 0 (exits_after s))%Q;
              stop_steps := stop_steps st
                            ++ [Said CleaningUp; Terminate; Wait 5;
                                Said StoppedDevMode] |})
        else if kill_fails s then
          (Raised OSError,
           {| stop_clock := (stop_clock st + 5)%Q;
              stop_steps := stop_steps st
                            ++ [Said CleaningUp; Terminate; Wait 5] |})
        else
          (Returned tt,
           {| stop_clock := (stop_clock st + 5)%Q;
              stop_steps := stop_steps st
                            ++ [Said CleaningUp; Terminate; Wait 5; Kill;
                                Said ForceKilledDevMode] |})
    end.
Proof.
  destruct st as [t steps]. unfold cleanup, exits_in_time.
  unfold Proc.say, Proc.terminate, Proc.wait, Proc.kill, Proc.step, try_except.
  unfold mbind, M_bind, mret, M_ret, modify, raise. cbn.
  destruct (dev_process o); [|reflexivity].
  destruct (terminate_fails s); cbn; [rewrite <- app_assoc; reflexivity|].
  destruct (exits_after s) as [seconds|]; cbn.
  - destruct (Qle_bool seconds 5); cbn.
    + rewrite <- !app_assoc. reflexivity.
    + destruct (kill_fails s); cbn; rewrite <- !app_assoc; reflexivity.
  - destruct (kill_fails s); cbn; rewrite <- !app_assoc; reflexivity.
Qed.

(** X16. [cleanup] kills the background process only as a last resort: a
    kill is sent exactly when there is a process, terminating it did not
    raise, the process did not exit within five seconds, and the kill itself
    does not raise. In particular a process that cannot be terminated is
    never killed, and without a process nothing is signalled. *)
Theorem cleanup_kills_only_after_timeout
    (o : PluginDevWatcher) (s : Shutdown) (st : Stopping) :
  let steps := drop (length (stop_steps st)) (stop_steps (cleanup o s st).2) in
  stop_steps (cleanup o s st).2 = stop_steps st ++ steps
  ∧ (existsb is_kill steps = true
     ↔ is_Some (dev_process o) ∧ terminate_fails s = false
       ∧ exits_in_time s = false ∧ kill_fails s = false)
  ∧ (dev_process o = None → steps = [Said CleaningUp]).
Proof.
  cbn zeta. rewrite cleanup_run. cbn zeta.
  destruct (dev_process o) as [p|]; cbn [snd stop_steps].
  - destruct (terminate_fails s), (exits_in_time s), (kill_fails s);
      cbn [snd stop_steps]; rewrite drop_app_length;
      (split; [reflexivity|]); (split; [|discriminate]);
      cbn [existsb is_kill orb];
      (split; [ intros H; try discriminate H; repeat split; eauto
              | intros (_ & H1 & H2 & H3); try discriminate; reflexivity ]).
  - rewrite drop_app_length. split; [reflexivity|].
    split; [|reflexivity]. cbn [existsb is_kill orb]. split; [discriminate|].
    intros (Hsome & _). destruct Hsome as [p Hp]. discriminate Hp.
Qed.

(** X17. [cleanup] lets an exception out in one case only: the process did
    not exit in time and the kill raised. In every other case it returns,
    and it never waits for more than five seconds when a process that exits
    does so after a non-negative time. *)
Theorem cleanup_raises_only_when_kill_fails
    (o : PluginDevWatcher) (s : Shutdown) (st : Stopping) :
  ((cleanup o s st).1 = Returned tt ∨ (cleanup o s st).1 = Raised OSError)
  ∧ ((cleanup o s st).1 = Raised OSError
     ↔ is_Some (dev_process o) ∧ terminate_fails s = false
       ∧ exits_in_time s = false ∧ kill_fails s = true)
  ∧ ((∀ seconds, exits_after s = Some seconds → (0 <= seconds)%Q) →
     (stop_clock st <= stop_clock (cleanup o s st).2 <= stop_clock st + 5)%Q).
Proof.
  rewrite cleanup_run. cbn zeta. unfold exits_in_time.
  destruct (dev_process o) as [p|]; cbn [fst snd stop_clock].
  - destruct (terminate_fails s); cbn [fst snd stop_clock].
    + split; [left; reflexivity|]. split; [|intros _; lra].
      split; [discriminate | intros (_ & [=] & _)].
    + destruct (exits_after s) as [seconds|] eqn:Hexit.
      * destruct (Qle_bool seconds 5) eqn:Hfast; cbn [fst snd stop_clock default].
        -- split; [left; reflexivity|]. split.
           ++ split; [discriminate | intros (_ & _ & [=] & _)].
           ++ intros Hpos. specialize (Hpos seconds eq_refl).
              apply Qle_bool_iff in Hfast. unfold default. cbn [from_option id]. lra.
        -- destruct (kill_fails s); cbn [fst snd stop_clock].
           ++ split; [right; reflexivity|]. split; [|intros _; lra].
              split; [intros _; repeat split; eauto | reflexivity].
           ++ split; [left; reflexivity|]. split; [|intros _; lra].
              split; [discriminate | intros (_ & _ & _ & [=])].
      * destruct (kill_fails s); cbn [fst snd stop_clock].
        -- split; [right; reflexivity|]. split; [|intros _; lra].
           split; [intros _; repeat split; eauto | reflexivity].
        -- split; [left; reflexivity|]. split; [|intros _; lra].
           split; [discriminate | intros (_ & _ & _ & [=])].
  - split; [left; reflexivity|]. split; [|intros _; lra].
    split; [discriminate|].
    intros (Hsome & _). destruct Hsome as [p Hp]. discriminate Hp.
Qed.

(** ** The command line *)

Lemma run_say (n : Notice) (sh : Shell) :
  Main.say n sh
  = (Returned tt, {| console := console sh ++ [n]; watcher := watcher sh;
                     inside := inside sh; stopping := stopping sh;
                   observer := observer sh; handlers := handlers sh |}).
Proof. reflexivity. Qed.

Lemma run_in_world {A} (c : M World A) (sh : Shell) :
  Main.in_world c sh
  = ((c (inside sh)).1,
     {| console := console sh; watcher := watcher sh;
        inside := (c (inside sh)).2; stopping := stopping sh;
                   observer := observer sh; handlers := handlers sh |}).
Proof. unfold Main.in_world. destruct (c (inside sh)); reflexivity. Qed.

Lemma run_on_watcher {A} (o : PluginDevWatcher) (c : M Machine A) (sh : Shell) :
  Main.on_watcher o c sh
  = ((c {| self := o; world := inside sh |}).1,
     {| console := console sh;
        watcher := Some (self (c {| self := o; world := inside sh |}).2);
        inside := world (c {| self := o; world := inside sh |}).2;
        stopping := stopping sh;
                   observer := observer sh; handlers := handlers sh |}).
Proof.
  unfold Main.on_watcher. destruct (c {| self := o; world := inside sh |});
    reflexivity.
Qed.

(** X18. Without a vault path [main] does nothing but say so: when the
    flag is absent or empty and the environment variable is unset or empty,
    it exits with 1, the world is untouched and no watcher is built. A flag
    that is not empty makes the environment variable irrelevant, and an
    empty flag is the same as no flag. *)
Theorem main_vault_path_resolution
    (json_load : string → option JSON) (cwd : Path) (getenv : option string)
    (args : Args) (b : BuildRun) (d : DevRun) (s : Shutdown) (wd : Watchdog) (sh : Shell) :
  ((vault_path args = None ∨ vault_path args = Some "") →
   (getenv = None ∨ getenv = Some "") →
   main json_load cwd getenv args b d s wd sh
   = (Returned (Exit 1),
      {| console := console sh ++ [VaultPathNotSet]; watcher := watcher sh;
         inside := inside sh; stopping := stopping sh;
                   observer := observer sh; handlers := handlers sh |}))
  ∧ (∀ v other, vault_path args = Some v → v ≠ "" →
       main json_load cwd getenv args b d s wd sh
       = main json_load cwd other args b d s wd sh)
  ∧ (vault_path args = Some "" →
     main json_load cwd getenv args b d s wd sh
     = main json_load cwd getenv {| mode := mode args; vault_path := None |}
         b d s wd sh).
Proof.
  split; [|split].
  - intros Hflag Henv. unfold main.
    assert (Main.resolve_vault_path args getenv = None) as ->.
    { unfold Main.resolve_vault_path.
      destruct Hflag as [-> | ->], Henv as [-> | ->]; reflexivity. }
    reflexivity.
  - intros v other Hflag Hv. unfold main.
    assert (Hres : ∀ env, Main.resolve_vault_path args env = Some v).
    { intros env. unfold Main.resolve_vault_path. rewrite Hflag.
      destruct v; [congruence | reflexivity]. }
    rewrite !Hres. reflexivity.
  - intros Hflag. unfold main, Main.resolve_vault_path. rewrite Hflag.
    reflexivity.
Qed.

Lemma main_build_mode (json_load : string → option JSON) (cwd : Path)
    (getenv : option string) (args : Args) (b : BuildRun) (d : DevRun)
    (s : Shutdown) (wd : Watchdog) (sh : Shell) (v : string) :
  Main.resolve_vault_path args getenv = Some v →
  mode args = BuildMode →
  (main json_load cwd getenv args b d s wd sh).1
  = match __init__ json_load cwd (PathOps.of_string v) (inside sh) with
    | (Returned o, w1) =>
        match (build_and_copy_once b {| self := o; world := w1 |}).1 with
        | Returned true => Returned (Exit 0)
        | _ => Returned (Exit 1)
        end
    | (Raised _, _) => Returned (Exit 1)
    end.
Proof.
  intros Hres Hmode. unfold main. rewrite Hres, Hmode.
  do 3 (rewrite run_bind, run_say; cbv beta iota).
  unfold try_except, except_Exception. rewrite run_bind, run_in_world.
  cbn [inside].
  destruct (__init__ json_load cwd (PathOps.of_string v) (inside sh))
    as [[o|e] w1]; cbn [fst snd]; [|reflexivity].
  rewrite run_bind. cbn [Main.bind_watcher modify].
  rewrite run_bind, run_on_watcher. cbn [inside].
  destruct (build_and_copy_once_returns_bool b {| self := o; world := w1 |})
    as [Hr | Hr]; rewrite Hr; reflexivity.
Qed.

(** X19. In build mode with a vault path, [main] ends with exit code 0 or
    1, and with 0 exactly when the manifest gives a descriptor and the
    one-shot build goes through: [manifest.json] is an object with a string
    [id], the plugin directory is there or can be created, the build is
    launched, ends within 60 seconds with code zero and leaves a non-empty
    [main.js], and at least one of the three files is copied. *)
Theorem main_build_mode_exit_code (json_load : string → option JSON) (cwd : Path)
    (getenv : option string) (args : Args) (b : BuildRun) (d : DevRun)
    (s : Shutdown) (wd : Watchdog) (sh : Shell) (v : string) :
  Main.resolve_vault_path args getenv = Some v →
  mode args = BuildMode →
  let w := inside sh in
  let built := writes b (project_files w) in
  let result := (main json_load cwd getenv args b d s wd sh).1 in
  (result = Returned (Exit 0) ∨ result = Returned (Exit 1))
  ∧ (result = Returned (Exit 0)
     ↔ (∃ f manifest ident,
          project_files w !! "manifest.json" = Some f
          ∧ json_load (content f) = Some (JDict manifest)
          ∧ manifest !! "id" = Some (JStr ident))
       ∧ (plugin_dir_exists w = true ∨ mkdir_fails w = false)
       ∧ launch_fails b = false
       ∧ (duration b <= 60)%Q
       ∧ returncode b = 0%Z
       ∧ (∃ f, built !! "main.js" = Some f ∧ (0 < st_size f)%Z)
       ∧ (∃ filename, filename ∈ files_to_copy
                      ∧ is_Some (built !! filename)
                      ∧ copy_fails w filename = false)).
Proof.
  intros Hres Hmode. cbn zeta. rewrite (main_build_mode _ _ _ _ _ _ _ _ _ _ Hres Hmode).
  pose proof (init_returns_iff json_load cwd (PathOps.of_string v) (inside sh))
    as Hinit.
  destruct (init_only_prints json_load cwd (PathOps.of_string v) (inside sh))
    as [msgs Hprints].
  destruct (__init__ json_load cwd (PathOps.of_string v) (inside sh))
    as [[o|e] w1]; cbn [fst snd] in *.
  - pose proof (build_and_copy_once_returns_bool b {| self := o; world := w1 |})
      as Hr.
    assert (Hiff : (build_and_copy_once b {| self := o; world := w1 |}).1
                   = Returned true
                   ↔ one_shot_copied b w1 ≠ []).
    { destruct (build_and_copy_once_spec b {| self := o; world := w1 |})
        as (-> & _). cbn [world]. split.
      - intros [= Hcopied]. apply bool_decide_eq_true in Hcopied. exact Hcopied.
      - intros Hcopied. f_equal. apply bool_decide_eq_true. exact Hcopied. }
    rewrite (one_shot_copied_iff b {| self := o; world := w1 |}) in Hiff.
    cbn zeta in Hiff.
    subst w1. cbn [world project_files plugin_dir_exists mkdir_fails copy_fails
                   set_trace] in Hiff.
    assert (Hmanifest : ∃ f manifest ident,
               project_files (inside sh) !! "manifest.json" = Some f
               ∧ json_load (content f) = Some (JDict manifest)
               ∧ manifest !! "id" = Some (JStr ident))
      by (apply Hinit; eauto).
    destruct Hr as [Hr | Hr]; rewrite Hr in *.
    + split; [left; reflexivity|]. split; [intros _|reflexivity].
      split; [exact Hmanifest | apply Hiff; reflexivity].
    + split; [right; reflexivity|]. split; [discriminate|].
      intros [_ Hall]. apply Hiff in Hall. discriminate Hall.
  - split; [right; reflexivity|]. split; [discriminate|].
    intros [Hmanifest _]. apply Hinit in Hmanifest as [o [=]].
Qed.












(** * Properties of the version bump *)

(** ** Decimal digits *)

Lemma digit_of_char (d : N) :
  (d < 10)%N →
  Digits.is_digit (pretty_N_char d) = true ∧ Digits.value (pretty_N_char d) = d.
Proof.
  intros Hd.
  assert (Hcases : d ∈ [0; 1; 2; 3; 4; 5; 6; 7; 8; 9]%N).
  { apply list_elem_of_In. cbn [In].
    destruct d as [|p]; [lia|].
    do 4 (try destruct p as [p|p|]); try lia; auto 20. }
  rewrite !elem_of_cons in Hcases.
  repeat (destruct Hcases as [->|Hcases]; [split; reflexivity|]).
  inversion Hcases.
Qed.

Lemma to_int_pretty_go (x : N) (s : string) :
  Digits.to_int 0 (pretty_N_go x s) = Digits.to_int x s.
Proof.
  revert s. induction (N.lt_wf_0 x) as [x _ IH]; intros s.
  destruct (decide (x = 0)%N) as [->|Hx].
  - rewrite pretty_N_go_0. reflexivity.
  - rewrite pretty_N_go_step by lia.
    rewrite IH by (apply N.div_lt; lia).
    cbn [Digits.to_int].
    destruct (digit_of_char (x `mod` 10)) as [_ ->];
      [apply N.mod_lt; lia|].
    f_equal. rewrite N.mul_comm. symmetry. apply N.div_mod. lia.
Qed.

Lemma all_digits_pretty_go (x : N) (s : string) :
  Digits.all_digits (pretty_N_go x s) = Digits.all_digits s.
Proof.
  revert s. induction (N.lt_wf_0 x) as [x _ IH]; intros s.
  destruct (decide (x = 0)%N) as [->|Hx].
  - rewrite pretty_N_go_0. reflexivity.
  - rewrite pretty_N_go_step by lia.
    rewrite IH by (apply N.div_lt; lia).
    cbn [Digits.all_digits].
    destruct (digit_of_char (x `mod` 10)) as [-> _];
      [apply N.mod_lt; lia|].
    reflexivity.
Qed.

Lemma nonempty_pretty_go (x : N) (s : string) :
  Str.nonempty s = true → Str.nonempty (pretty_N_go x s) = true.
Proof.
  revert s. induction (N.lt_wf_0 x) as [x _ IH]; intros s Hs.
  destruct (decide (x = 0)%N) as [->|Hx].
  - rewrite pretty_N_go_0. exact Hs.
  - rewrite pretty_N_go_step by lia.
    apply IH; [apply N.div_lt; lia|reflexivity].
Qed.

Lemma pretty_N_unfold (x : N) :
  pretty x = if decide (x = 0)%N then "0" else pretty_N_go x "".
Proof. reflexivity. Qed.

(** A printed number is a field of a version, and reads back as itself. *)
Lemma version_field_pretty (x : N) :
  version_field (pretty x) = true ∧ Digits.to_int 0 (pretty x) = x.
Proof.
  rewrite pretty_N_unfold. destruct (decide (x = 0)%N) as [->|Hx].
  - split; reflexivity.
  - unfold version_field.
    rewrite all_digits_pretty_go, to_int_pretty_go.
    rewrite pretty_N_go_step by lia.
    rewrite nonempty_pretty_go by reflexivity.
    split; reflexivity.
Qed.

Lemma digits_have_no_dot (s : string) :
  Digits.all_digits s = true → Str.rfind "."%char s = None.
Proof.
  induction s as [|c s IH]; cbn [Digits.all_digits Str.rfind]; [reflexivity|].
  intros [Hc Hs]%andb_prop. rewrite (IH Hs).
  destruct (Ascii.eqb_spec c "."%char) as [->|_]; [discriminate Hc|reflexivity].
Qed.

Lemma chomp_digits (s : string) :
  Digits.all_digits s = true → chomp s = s.
Proof.
  induction s as [|c s IH]; [reflexivity|].
  cbn [Digits.all_digits]. intros [Hc Hs]%andb_prop.
  destruct s as [|c' s].
  - cbn [chomp].
    destruct (Ascii.eqb_spec c "010"%char) as [->|_]; [discriminate Hc|reflexivity].
  - change (chomp (String c (String c' s))) with (String c (chomp (String c' s))).
    rewrite (IH Hs). reflexivity.
Qed.

Lemma chomp_app (a b : string) :
  Str.nonempty b = true → chomp (a +:+ b) = a +:+ chomp b.
Proof.
  intros Hb. induction a as [|c a IH]; [reflexivity|].
  change (String c a +:+ b) with (String c (a +:+ b)).
  change (String c a +:+ chomp b) with (String c (a +:+ chomp b)).
  rewrite <- IH.
  destruct (a +:+ b) as [|c' t] eqn:E; [|reflexivity].
  destruct a; [|discriminate E].
  change ("" +:+ b) with b in E. rewrite E in Hb. discriminate Hb.
Qed.

Lemma chomp_cons (c : ascii) (s : string) :
  Str.nonempty s = true → chomp (String c s) = String c (chomp s).
Proof. destruct s; [discriminate|reflexivity]. Qed.

(** ** The limit on the digits of an integer *)

Lemma value_of_digit (c : ascii) :
  Digits.is_digit c = true → (Digits.value c < 10)%N.
Proof.
  unfold Digits.is_digit, Digits.value.
  intros [_ H%Nat.leb_le]%andb_prop. lia.
Qed.

Lemma to_int_bound (s : string) (acc : N) :
  Digits.all_digits s = true →
  (Digits.to_int acc s < (acc + 1) * 10 ^ N.of_nat (String.length s))%N.
Proof.
  revert acc. induction s as [|c s IH]; intros acc.
  - intros _. cbn. lia.
  - cbn [Digits.all_digits Digits.to_int String.length].
    intros [Hc Hs]%andb_prop.
    specialize (IH (acc * 10 + Digits.value c)%N Hs).
    apply value_of_digit in Hc.
    rewrite Nat2N.inj_succ, N.pow_succ_r'.
    eapply N.lt_le_trans; [exact IH|].
    rewrite N.mul_assoc. apply N.mul_le_mono_r. lia.
Qed.

Lemma length_pretty_go (k : nat) (x : N) (s : string) :
  (x < 10 ^ N.of_nat k)%N →
  (String.length (pretty_N_go x s) ≤ k + String.length s)%nat.
Proof.
  revert x s. induction k as [|k IH]; intros x s Hx.
  - assert (x = 0%N) as -> by (cbn in Hx; lia).
    rewrite pretty_N_go_0. lia.
  - destruct (decide (x = 0)%N) as [->|Hx0].
    + rewrite pretty_N_go_0. lia.
    + rewrite pretty_N_go_step by lia.
      rewrite Nat2N.inj_succ, N.pow_succ_r' in Hx.
      etransitivity; [apply IH|cbn [String.length]; lia].
      apply N.Div0.div_lt_upper_bound. lia.
Qed.

Lemma length_pretty (k : nat) (x : N) :
  (x < 10 ^ N.of_nat k)%N → (1 ≤ k)%nat →
  (String.length (pretty x) ≤ k)%nat.
Proof.
  intros Hx Hk. rewrite pretty_N_unfold.
  destruct (decide (x = 0)%N) as [->|Hx0]; [exact Hk|].
  pose proof (length_pretty_go k x "" Hx) as H. cbn [String.length] in H. lia.
Qed.

(** A number read from a field prints in no more digits than the field. *)
Lemma length_pretty_to_int (s : string) :
  version_field s = true →
  (String.length (pretty (Digits.to_int 0 s)) ≤ String.length s)%nat.
Proof.
  intros [Hn Hd]%andb_prop. apply length_pretty.
  - pose proof (to_int_bound s 0 Hd) as H. lia.
  - destruct s; [discriminate Hn|cbn [String.length]; lia].
Qed.

Lemma within_limit_le (limit d1 d2 : nat) :
  (d1 ≤ d2)%nat → within_limit limit d2 = true → within_limit limit d1 = true.
Proof.
  unfold within_limit. intros Hle [H|H]%orb_prop.
  - rewrite H. reflexivity.
  - apply Nat.leb_le in H. apply orb_true_intro. right. apply Nat.leb_le. lia.
Qed.

Lemma printable_zero (limit : nat) : printable limit 0 = true.
Proof.
  unfold printable, within_limit. change (String.length (pretty 0%N)) with 1%nat.
  destruct limit as [|limit]; reflexivity.
Qed.

Lemma run_str (limit : nat) (n : N) :
  str limit n = if printable limit n then Returned (pretty n) else Raised ValueError.
Proof. reflexivity. Qed.

Lemma int_pretty (limit : nat) (n : N) :
  printable limit n = true → int limit (pretty n) = Returned n.
Proof.
  intros H. unfold int. unfold printable in H. rewrite H.
  destruct (version_field_pretty n) as [_ ->]. reflexivity.
Qed.

(** The numbers of an accepted version can be printed again. *)
Lemma parsed_is_printable (limit : nat) (version : string) (major minor patch : N) :
  parse_version limit version = Returned (major, minor, patch) →
  printable limit major = true ∧ printable limit minor = true
  ∧ printable limit patch = true.
Proof.
  unfold parse_version.
  destruct (Str.split "."%char (chomp version)) as [|a [|b [|c [|? ?]]]];
    try discriminate.
  destruct (version_field a) eqn:Fa; [|discriminate].
  destruct (version_field b) eqn:Fb; [|discriminate].
  destruct (version_field c) eqn:Fc; [|discriminate].
  cbn [andb]. unfold int, and_then.
  destruct (within_limit limit (String.length a)) eqn:La; [|discriminate].
  destruct (within_limit limit (String.length b)) eqn:Lb; [|discriminate].
  destruct (within_limit limit (String.length c)) eqn:Lc; [|discriminate].
  intros [= <- <- <-]. unfold printable.
  repeat split;
    (eapply within_limit_le; [apply length_pretty_to_int; eassumption|assumption]).
Qed.

(** What the script prints as a version, it parses as that version. *)
Lemma parse_printed_version (limit : nat) (major minor patch : N) :
  printable limit major = true → printable limit minor = true →
  printable limit patch = true →
  parse_version limit (pretty major +:+ "." +:+ pretty minor +:+ "." +:+ pretty patch)
  = Returned (major, minor, patch).
Proof.
  intros Pa Pb Pc.
  destruct (version_field_pretty major) as [Fa Ia].
  destruct (version_field_pretty minor) as [Fb Ib].
  destruct (version_field_pretty patch) as [Fc Ic].
  assert (Da : Digits.all_digits (pretty major) = true)
    by (apply andb_prop in Fa; tauto).
  assert (Db : Digits.all_digits (pretty minor) = true)
    by (apply andb_prop in Fb; tauto).
  assert (Dc : Digits.all_digits (pretty patch) = true)
    by (apply andb_prop in Fc; tauto).
  assert (Nc : Str.nonempty (pretty patch) = true)
    by (apply andb_prop in Fc; tauto).
  unfold parse_version.
  change ("." +:+ pretty minor +:+ "." +:+ pretty patch)
    with (String "."%char (pretty minor +:+ String "."%char (pretty patch))).
  rewrite (chomp_app (pretty major)) by reflexivity.
  rewrite chomp_cons
    by (destruct (pretty minor); reflexivity).
  rewrite (chomp_app (pretty minor)) by reflexivity.
  rewrite chomp_cons by exact Nc.
  rewrite (chomp_digits _ Dc).
  rewrite !split_app_sep.
  rewrite !split_no_sep by (apply digits_have_no_dot; assumption).
  cbn [app]. rewrite Fa, Fb, Fc. cbn [andb].
  rewrite !int_pretty by assumption. reflexivity.
Qed.

Lemma run_format_version (limit : nat) (major minor patch : N) :
  format_version limit major minor patch
  = if (printable limit major && printable limit minor
        && printable limit patch)%bool
    then Returned (pretty major +:+ "." +:+ pretty minor +:+ "." +:+ pretty patch)
    else Raised ValueError.
Proof.
  unfold format_version. rewrite !run_str.
  destruct (printable limit major), (printable limit minor),
    (printable limit patch); reflexivity.
Qed.

(** The outcome of printing a version: the version reads back as the numbers
    printed, or a number has too many digits. *)
Lemma format_version_reads_back (limit : nat) (major minor patch : N) :
  printable limit major = true → printable limit minor = true →
  if printable limit patch
  then ∃ new_version,
         format_version limit major minor patch = Returned new_version
         ∧ parse_version limit new_version = Returned (major, minor, patch)
  else format_version limit major minor patch = Raised ValueError.
Proof.
  intros Pa Pb. rewrite run_format_version, Pa, Pb. cbn [andb].
  destruct (printable limit patch) eqn:Pc; [|reflexivity].
  eexists. split; [reflexivity|]. apply parse_printed_version; assumption.
Qed.

(** X21. A bump of an accepted version gives a version the script accepts
    again, with the numbers of the bump: the part named is one higher and
    the parts after it are zero, whatever leading zeros or final newline the
    old version had. The one way a bump of an accepted version fails is that
    the number raised has more digits than the interpreter prints, which
    raises [ValueError]. *)
Theorem bump_version_reads_back (limit : nat) (version : string)
    (major minor patch : N) :
  parse_version limit version = Returned (major, minor, patch) →
  bumps_to limit version "major" (major + 1) (major + 1) 0 0
  ∧ bumps_to limit version "minor" (minor + 1) major (minor + 1) 0
  ∧ bumps_to limit version "patch" (patch + 1) major minor (patch + 1).
Proof.
  intros Hparse.
  destruct (parsed_is_printable _ _ _ _ _ Hparse) as (Pa & Pb & Pc).
  pose proof (printable_zero limit) as P0.
  unfold bumps_to, bump_version. rewrite Hparse. cbn [and_then String.eqb Ascii.eqb Bool.eqb].
  repeat split.
  - rewrite run_format_version, P0, !andb_true_r.
    destruct (printable limit (major + 1)) eqn:P; [|reflexivity].
    eexists. split; [reflexivity|]. apply parse_printed_version; assumption.
  - rewrite run_format_version, Pa, P0, andb_true_r. cbn [andb].
    destruct (printable limit (minor + 1)) eqn:P; [|reflexivity].
    eexists. split; [reflexivity|]. apply parse_printed_version; assumption.
  - apply format_version_reads_back; assumption.
Qed.

Lemma bump_version_reads_back_witness :
  parse_version 4300 "01.2.09" = Returned (1, 2, 9)%N
  ∧ bumps_to 4300 "01.2.09" "patch" 10 1 2 10.
Proof.
  split; [reflexivity|].
  apply (bump_version_reads_back 4300 "01.2.09" 1 2 9). reflexivity.
Defined.

(** ** Characters a version cannot hold *)

Lemma all_digits_In (s : string) (c : ascii) :
  Digits.all_digits s = true → In c (list_ascii_of_string s) →
  Digits.is_digit c = true.
Proof.
  induction s as [|a s IH]; cbn [Digits.all_digits list_ascii_of_string In];
    [tauto|].
  intros [Ha Hs]%andb_prop [->|Hin]; [exact Ha|exact (IH Hs Hin)].
Qed.

Lemma split_covers (sep c : ascii) (s : string) :
  In c (list_ascii_of_string s) → c ≠ sep →
  ∃ w, In w (Str.split sep s) ∧ In c (list_ascii_of_string w).
Proof.
  intros Hin Hc. induction s as [|a s IH]; [destruct Hin|].
  cbn [list_ascii_of_string In] in Hin. cbn [Str.split].
  destruct (Ascii.eqb_spec a sep) as [->|Ha].
  - destruct Hin as [->|Hin]; [congruence|].
    destruct (IH Hin) as (w & Hw & Hcw). exists w. split; [right; exact Hw|exact Hcw].
  - destruct Hin as [->|Hin].
    + destruct (Str.split sep s) as [|w ws].
      * exists (String c ""). split; left; reflexivity.
      * exists (String c w). split; left; reflexivity.
    + destruct (IH Hin) as (w & Hw & Hcw).
      destruct (Str.split sep s) as [|w0 ws]; [destruct Hw|].
      destruct Hw as [->|Hw].
      * exists (String a w). split; [left; reflexivity|right; exact Hcw].
      * exists w. split; [right; exact Hw|exact Hcw].
Qed.

(** X22. A version that holds any character other than a digit and a dot
    (the one newline that may end it apart) is refused with [ValueError], by
    [parse_version] and so by [bump_version] for every kind of bump: a
    prefix such as v, a sign, a blank or a pre-release suffix is never
    skipped or cut off. *)
Theorem foreign_character_is_refused (limit : nat) (version : string) (c : ascii) :
  In c (list_ascii_of_string (chomp version)) →
  Digits.is_digit c = false → c ≠ "."%char →
  parse_version limit version = Raised ValueError
  ∧ ∀ bump_type, bump_version limit version bump_type = Raised ValueError.
Proof.
  intros Hin Hc Hdot.
  assert (Hparse : parse_version limit version = Raised ValueError).
  { unfold parse_version.
    destruct (split_covers "."%char c _ Hin Hdot) as (w & Hw & Hcw).
    destruct (Str.split "."%char (chomp version)) as [|a [|b [|d [|? ?]]]];
      try reflexivity.
    assert (Hbad : version_field w = false).
    { unfold version_field. destruct (Digits.all_digits w) eqn:E.
      - rewrite (all_digits_In w c E Hcw) in Hc. discriminate Hc.
      - apply andb_false_r. }
    cbn [In] in Hw. destruct Hw as [->|[->|[->|[]]]]; rewrite Hbad;
      rewrite ?andb_false_r; reflexivity. }
  split; [exact Hparse|].
  intros bump_type. unfold bump_version. rewrite Hparse. reflexivity.
Qed.

Lemma foreign_character_is_refused_witness :
  parse_version 4300 "1.2.3-beta" = Raised ValueError
  ∧ ∀ bump_type, bump_version 4300 "1.2.3-beta" bump_type = Raised ValueError.
Proof.
  apply (foreign_character_is_refused 4300 "1.2.3-beta" "-"%char).
  - cbn. tauto.
  - reflexivity.
  - discriminate.
Defined.

(** ** The release files *)

Ltac brun :=
  unfold Bump.say, Bump.exists_, Bump.load, Bump.dump, Bump.get,
    Bump.set_item, Bump.bump, Bump.of_outcome, try_except,
    mbind, M_bind, mret, M_ret, gets, modify, raise;
  cbn [Bump.files Bump.unreadable Bump.unwritable Bump.printed fst snd negb].

Lemma found_some {A} (x : A) : bool_decide (is_Some (Some x)) = true.
Proof. apply bool_decide_eq_true_2. eauto. Qed.

Lemma found_none {A} : bool_decide (is_Some (@None A)) = false.
Proof. apply bool_decide_eq_false_2. apply is_Some_None. Qed.

Ltac known :=
  repeat match goal with
         | H : ?l = _ |- context [?l] => rewrite H
         end;
  rewrite ?found_some, ?found_none;
  cbn [negb fst snd Bump.files Bump.unreadable Bump.unwritable Bump.printed].

Ltac rejected := left; split; reflexivity.

Lemma bump_version_returns (limit : nat) (version bump_type new_version : string) :
  bump_version limit version bump_type = Returned new_version →
  Str.mem bump_type ["major"; "minor"; "patch"] = true
  ∧ Str.nonempty version = true.
Proof.
  intros H. split.
  - unfold bump_version in H.
    destruct (parse_version limit version) as [[[major minor] patch]|]; [|discriminate H].
    cbn [and_then] in H. cbn [Str.mem existsb].
    destruct (String.eqb bump_type "major"); [reflexivity|].
    destruct (String.eqb bump_type "minor"); [reflexivity|].
    destruct (String.eqb bump_type "patch"); [reflexivity|discriminate H].
  - destruct version; [discriminate H|reflexivity].
Qed.

Section BumpMain.

Variable json_load : string → option JSON.
Variable json_dump : JSON → string.
Variable limit : nat.


Lemma bump_main_cases (argv : list string) (r : Bump.Repo) :
  ((Bump.main json_load json_dump limit argv r).1 = Returned 1 ∧ Bump.files (Bump.main json_load json_dump limit argv r).2 = Bump.files r)
  ∨ ∃ bump_type manifest package versions new_version min_app_version,
      Bump.accepts json_load limit argv r bump_type manifest package versions new_version
        min_app_version.
Proof.
  unfold Bump.main.
  set (bump_type := match argv with _ :: t :: _ => t | _ => "minor" end).
  destruct (Str.mem bump_type ["major"; "minor"; "patch"]) eqn:Hkind;
    [|left; split; reflexivity].
  brun.
  destruct (Bump.files r !! "manifest.json") as [tm|] eqn:Hm; known;
    [|rejected].
  destruct (Bump.files r !! "package.json") as [tp|] eqn:Hp; known;
    [|rejected].
  destruct (Bump.files r !! "versions.json") as [tv|] eqn:Hv; known;
    [|rejected].
  destruct (Bump.unreadable r "manifest.json") eqn:Rm; known; [rejected|].
  destruct (json_load tm) as [jm|] eqn:Lm; known; [|rejected].
  destruct (Bump.unreadable r "package.json") eqn:Rp; known; [rejected|].
  destruct (json_load tp) as [jp|] eqn:Lp; known; [|rejected].
  destruct (Bump.unreadable r "versions.json") eqn:Rv; known; [rejected|].
  destruct (json_load tv) as [jv|] eqn:Lv; known; [|rejected].
  destruct jm as [| | | | | |manifest]; try rejected.
  destruct (manifest !! "version") as [current_version|] eqn:Hcur;
    cbn [default from_option id truthy negb]; [|rejected].
  destruct (truthy current_version) eqn:Tcur; known; [|rejected].
  destruct (manifest !! "minAppVersion") as [min_app_version|] eqn:Hmin;
    cbn [default from_option id truthy negb]; [|rejected].
  destruct (truthy min_app_version) eqn:Tmin; known; [|rejected].
  destruct current_version as [| | | |version| |]; try rejected.
  destruct (bump_version limit version bump_type) as [new_version|e] eqn:Hbump;
    known; [|destruct e; rejected].
  destruct jp as [| | | | | |package]; try rejected.
  destruct jv as [| | | | | |versions]; try rejected.
  right. exists bump_type, manifest, package, versions, new_version, min_app_version.
  unfold Bump.accepts. repeat split; eauto.
Qed.

(** What [main] does once its checks have passed: it writes the three
    files in turn and stops at the first that cannot be opened. *)
Lemma bump_main_accepted (argv : list string) (r : Bump.Repo)
    bump_type manifest package versions new_version min_app_version :
  Bump.accepts json_load limit argv r bump_type manifest package versions new_version
    min_app_version →
  (Bump.main json_load json_dump limit argv r).1
  = (if (Bump.unwritable r "manifest.json" || Bump.unwritable r "package.json"
         || Bump.unwritable r "versions.json")%bool
     then Returned 1 else Returned 0)
  ∧ Bump.files (Bump.main json_load json_dump limit argv r).2
    = if Bump.unwritable r "manifest.json" then Bump.files r
      else
        let f1 := <["manifest.json" := Bump.bumped_manifest json_dump manifest new_version]>
                    (Bump.files r) in
        if Bump.unwritable r "package.json" then f1
        else
          let f2 := <["package.json" := Bump.bumped_package json_dump package new_version]> f1 in
          if Bump.unwritable r "versions.json" then f2
          else <["versions.json" :=
                   Bump.bumped_versions json_dump versions new_version
                     min_app_version]> f2.
Proof.
  intros (Hkind & (tm & Hm & Lm) & (tp & Hp & Lp) & (tv & Hv & Lv)
          & Rm & Rp & Rv & (version & Hcur & Hbump) & Hmin & Tmin).
  destruct (bump_version_returns _ _ _ _ Hbump) as [Hmem Hne].
  subst bump_type. unfold Bump.main. rewrite Hmem. brun.
  repeat (progress (known; cbn [default from_option id truthy])).
  destruct (Bump.unwritable r "manifest.json") eqn:Wm; known;
    [split; reflexivity|].
  destruct (Bump.unwritable r "package.json") eqn:Wp; known;
    [split; reflexivity|].
  destruct (Bump.unwritable r "versions.json") eqn:Wv; known;
    split; reflexivity.
Qed.

(** X23. When the script ends with the exit code 0, its checks had passed
    (the three files exist, are readable and hold JSON objects, the manifest
    holds a version string that [bump_version] accepts and a non-empty
    minimum application version) and the three files are rewritten
    together: manifest.json and package.json with the new version under
    "version", versions.json with the new version mapped to the minimum
    application version, every other key as it was loaded. *)
Theorem bump_main_success (argv : list string) (r : Bump.Repo) :
  (Bump.main json_load json_dump limit argv r).1 = Returned 0 →
  ∃ bump_type manifest package versions new_version min_app_version,
    Bump.accepts json_load limit argv r bump_type manifest package versions new_version
      min_app_version
    ∧ Bump.files (Bump.main json_load json_dump limit argv r).2
      = <["versions.json" :=
            Bump.bumped_versions json_dump versions new_version min_app_version]>
          (<["package.json" := Bump.bumped_package json_dump package new_version]>
             (<["manifest.json" :=
                  Bump.bumped_manifest json_dump manifest new_version]>
                (Bump.files r))).
Proof.
  intros Hdone.
  destruct (bump_main_cases argv r)
    as [[Hcode _]|(bump_type & manifest & package & versions & new_version
                   & min_app_version & Hacc)].
  - rewrite Hcode in Hdone. discriminate Hdone.
  - exists bump_type, manifest, package, versions, new_version, min_app_version.
    split; [exact Hacc|].
    destruct (bump_main_accepted _ _ _ _ _ _ _ _ Hacc) as [Hcode Hfiles].
    rewrite Hfiles. rewrite Hcode in Hdone.
    destruct (Bump.unwritable r "manifest.json"); [discriminate Hdone|].
    destruct (Bump.unwritable r "package.json"); [discriminate Hdone|].
    destruct (Bump.unwritable r "versions.json"); [discriminate Hdone|].
    reflexivity.
Qed.


(** X25. The update is not atomic. When the checks pass and manifest.json
    can be written but package.json cannot be opened for writing, the
    script ends with the exit code 1 after it has rewritten manifest.json
    with the new version: package.json and versions.json keep their old
    text, so the three files no longer agree. *)
Theorem bump_main_partial_write (argv : list string) (r : Bump.Repo)
    bump_type manifest package versions new_version min_app_version :
  Bump.accepts json_load limit argv r bump_type manifest package versions new_version
    min_app_version →
  Bump.unwritable r "manifest.json" = false →
  Bump.unwritable r "package.json" = true →
  (Bump.main json_load json_dump limit argv r).1 = Returned 1
  ∧ Bump.files (Bump.main json_load json_dump limit argv r).2
    = <["manifest.json" := Bump.bumped_manifest json_dump manifest new_version]>
        (Bump.files r)
  ∧ Bump.files (Bump.main json_load json_dump limit argv r).2 !! "package.json"
    = Bump.files r !! "package.json"
  ∧ Bump.files (Bump.main json_load json_dump limit argv r).2 !! "versions.json"
    = Bump.files r !! "versions.json".
Proof.
  intros Hacc Wm Wp.
  destruct (bump_main_accepted _ _ _ _ _ _ _ _ Hacc) as [Hcode Hfiles].
  rewrite Hcode, Hfiles, Wm, Wp. cbn [orb].
  repeat split.
  - apply lookup_insert_ne. discriminate.
  - apply lookup_insert_ne. discriminate.
Qed.

End BumpMain.

Lemma release_repo_accepted (unwritable : string → bool) :
  Bump.accepts release_json_load 4300 ["bump-version.py"; "patch"]
    (release_repo unwritable) "patch"
    (<["version" := JStr "1.2.3"]> (<["minAppVersion" := JStr "1.0.0"]> ∅))
    (<["version" := JStr "1.2.3"]> ∅)
    (<["1.2.3" := JStr "1.0.0"]> ∅)
    "1.2.4" (JStr "1.0.0").
Proof.
  unfold Bump.accepts. repeat split; try reflexivity.
  - exists "manifest at 1.2.3". split; reflexivity.
  - exists "package at 1.2.3". split; reflexivity.
  - exists "versions up to 1.2.3". split; reflexivity.
  - exists "1.2.3". split; reflexivity.
Qed.

Lemma bump_main_success_witness :
  (Bump.main release_json_load release_json_dump 4300
     ["bump-version.py"; "patch"] (release_repo (λ _, false))).1 = Returned 0
  ∧ ∃ bump_type manifest package versions new_version min_app_version,
      Bump.accepts release_json_load 4300 ["bump-version.py"; "patch"]
        (release_repo (λ _, false)) bump_type manifest package versions
        new_version min_app_version
      ∧ Bump.files
          (Bump.main release_json_load release_json_dump 4300
             ["bump-version.py"; "patch"] (release_repo (λ _, false))).2
        = <["versions.json" :=
              Bump.bumped_versions release_json_dump versions new_version
                min_app_version]>
            (<["package.json" :=
                 Bump.bumped_package release_json_dump package new_version]>
               (<["manifest.json" :=
                    Bump.bumped_manifest release_json_dump manifest new_version]>
                  (Bump.files (release_repo (λ _, false))))).
Proof.
  assert (H : (Bump.main release_json_load release_json_dump 4300
                 ["bump-version.py"; "patch"] (release_repo (λ _, false))).1
              = Returned 0) by (vm_compute; reflexivity).
  split; [exact H|].
  exact (bump_main_success release_json_load release_json_dump 4300 _ _ H).
Defined.


Lemma bump_main_partial_write_witness :
  (Bump.main release_json_load release_json_dump 4300
     ["bump-version.py"; "patch"]
     (release_repo (String.eqb "package.json"))).1 = Returned 1
  ∧ Bump.files
      (Bump.main release_json_load release_json_dump 4300
         ["bump-version.py"; "patch"]
         (release_repo (String.eqb "package.json"))).2 !! "manifest.json"
    = Some (String.append "at 1.2.4" (String "010"%char ""))
  ∧ Bump.files
      (Bump.main release_json_load release_json_dump 4300
         ["bump-version.py"; "patch"]
         (release_repo (String.eqb "package.json"))).2 !! "package.json"
    = Some "package at 1.2.3".
Proof.
  destruct (bump_main_partial_write release_json_load release_json_dump 4300
              _ _ _ _ _ _ _ _
              (release_repo_accepted (String.eqb "package.json"))
              eq_refl eq_refl) as (Hcode & Hfiles & Hp & _).
  split; [exact Hcode|]. split.
  - rewrite Hfiles, lookup_insert_eq. vm_compute. reflexivity.
  - rewrite Hp. reflexivity.
Defined.

(** ** The further theorems at the sample inputs *)

Lemma config_file_triggers_anywhere_witness :
  let d := {| at_time := 1010;
              notified := {| is_directory := false;
                             src_path := "/home/dev/my-plugin/package.json" |};
              build := build_exiting 0 "" |} in
  let m := sample_machine (artifact_of "bundle") in
  (rebuild_debounce_seconds (self m) < at_time d - last_rebuild_time (self m))%Q
  ∧ builds_run (trace (world (deliver d m).2)) = S (builds_run (trace (world m))).
Proof.
  cbn zeta. split; [reflexivity|].
  apply (config_file_triggers_anywhere "/home/dev/my-plugin" "package.json").
  - left. reflexivity.
  - reflexivity.
  - vm_compute. reflexivity.
  - reflexivity.
Defined.

Lemma slow_rebuild_is_cut_witness :
  let b := {| launch_fails := false; duration := 45; writes := λ files, files;
              returncode := 0; stdout := ""; stderr := "" |} in
  let m := sample_machine (artifact_of "bundle") in
  (30 < duration b)%Q
  ∧ (_rebuild_plugin b m).1 = Returned tt
  ∧ plugin_files (world (_rebuild_plugin b m).2) = plugin_files (world m)
  ∧ last (trace (world (_rebuild_plugin b m).2)) = Some (Print BuildTimeout).
Proof.
  cbn zeta.
  assert (H : (30 < duration {| launch_fails := false; duration := 45;
                                writes := λ files, files; returncode := 0;
                                stdout := ""; stderr := "" |})%Q)
    by reflexivity.
  split; [exact H|].
  destruct (slow_rebuild_is_cut
              {| launch_fails := false; duration := 45;
                 writes := λ files, files; returncode := 0;
                 stdout := ""; stderr := "" |}
              (sample_machine (artifact_of "bundle"))
              eq_refl H) as (Hret & _ & _ & Hfiles & _ & Hlast).
  auto.
Defined.

Lemma build_and_copy_once_idempotent_witness :
  let b := build_exiting 0 "" in
  let m := sample_machine (artifact_of "bundle") in
  let m1 := (build_and_copy_once b m).2 in
  writes b (writes b (project_files (world m))) = writes b (project_files (world m))
  ∧ (build_and_copy_once b m1).1 = (build_and_copy_once b m).1
  ∧ plugin_files (world (build_and_copy_once b m1).2) = plugin_files (world m1).
Proof.
  cbn zeta. split; [reflexivity|].
  destruct (build_and_copy_once_idempotent (build_exiting 0 "")
              (sample_machine (artifact_of "bundle")) eq_refl)
    as (Hret & Hfiles & _).
  auto.
Defined.


Lemma change_gate_accepts_once_per_window_witness :
  let instants := [1000%Q; 1001.5%Q] in
  let m := sample_machine (artifact_of "bundle") in
  (∀ t, t ∈ instants →
     (1000 <= t)%Q ∧ (t <= 1000 + debounce_seconds (self m))%Q)
  ∧ ∃ answers,
      (poll _should_copy instants m).1 = Returned answers
      ∧ (accepted_count answers ≤ 1)%nat.
Proof.
  cbn zeta.
  assert (H : ∀ t, t ∈ [1000%Q; 1001.5%Q] →
              (1000 <= t)%Q
              ∧ (t <= 1000 + debounce_seconds
                               (self (sample_machine (artifact_of "bundle"))))%Q).
  { intros t Ht. apply elem_of_cons in Ht as [->|Ht];
      [|apply elem_of_cons in Ht as [->|Ht]; [|inversion Ht]];
      split; vm_compute; discriminate. }
  split; [exact H|].
  destruct (change_gate_accepts_once_per_window _ _ 1000 H)
    as (answers & Hret & _ & Hcount & _).
  exists answers. auto.
Defined.

Lemma absolute_id_leaves_the_vault_witness :
  let json_load := λ _ : string, Some (JDict {[ "id" := JStr "/srv/other" ]}) in
  let root := PathOps.of_string "/home/dev/my-plugin" in
  let vault := PathOps.of_string "/vault" in
  let w := sample_world (artifact_of "bundle") in
  ∃ o, (__init__ json_load root vault w).1 = Returned o
       ∧ plugin_dir (plugin_info o) = PathOps.of_string "/srv/other".
Proof.
  cbn zeta.
  apply (absolute_id_leaves_the_vault _ _ _ _
           {| content := sample_manifest_text; st_mtime := 800 |}
           {[ "id" := JStr "/srv/other" ]} "/srv/other");
    reflexivity.
Defined.

Lemma main_build_mode_exit_code_witness :
  let args := {| mode := BuildMode; vault_path := None |} in
  let result :=
    (main sample_json_load (PathOps.of_string "/home/dev/my-plugin")
       (Some "/vault") args (build_exiting 0 "")
       {| dev_launch_fails := false; dev_writes := λ files, files |}
       {| terminate_fails := false; exits_after := Some 1%Q; kill_fails := false |}
       (λ _, None)
       (fresh_shell (sample_world (artifact_of "bundle")) 1000)).1 in
  Main.resolve_vault_path args (Some "/vault") = Some "/vault"
  ∧ (result = Returned (Exit 0) ∨ result = Returned (Exit 1)).
Proof.
  cbn zeta. split; [reflexivity|].
  exact (proj1 (main_build_mode_exit_code sample_json_load
                  (PathOps.of_string "/home/dev/my-plugin") (Some "/vault")
                  {| mode := BuildMode; vault_path := None |} (build_exiting 0 "")
                  {| dev_launch_fails := false; dev_writes := λ files, files |}
                  {| terminate_fails := false; exits_after := Some 1%Q;
                     kill_fails := false |}
                  (λ _, None)
                  (fresh_shell (sample_world (artifact_of "bundle")) 1000)
                  "/vault" eq_refl eq_refl)).
Defined.


(** ** Notifications that wait for the handler *)

Global Instance keeps_clock_preorder : PreOrder keeps_clock.
Proof.
  split.
  - intros m. reflexivity.
  - intros m1 m2 m3 H1 H2. unfold keeps_clock in *. congruence.
Qed.

Lemma keeps_clock_lift {A} (c : M World A) :
  (∀ w, clock (c w).2 = clock w) → preserves keeps_clock (lift c).
Proof. intros Hc m. rewrite run_lift. apply Hc. Qed.

Lemma keeps_clock_print (msg : Message) : preserves keeps_clock (print msg).
Proof. apply keeps_clock_lift. intros w. reflexivity. Qed.

Lemma keeps_clock_exists (filename : string) :
  preserves keeps_clock (lift (Sys.project_file_exists filename)).
Proof. apply keeps_clock_lift. intros w. reflexivity. Qed.

Lemma keeps_clock_stat (filename : string) :
  preserves keeps_clock (lift (Sys.project_file_stat filename)).
Proof.
  apply keeps_clock_lift. intros w. wrun.
  destruct (project_files w !! filename); reflexivity.
Qed.

Lemma keeps_clock_time : preserves keeps_clock (lift Sys.time_time).
Proof. apply keeps_clock_lift. intros w. reflexivity. Qed.

Lemma keeps_clock_mkdir (dir : Path) : preserves keeps_clock (lift (Sys.mkdir dir)).
Proof.
  apply keeps_clock_lift. intros w. wrun.
  destruct (plugin_dir_exists w); [reflexivity|].
  destruct (mkdir_fails w); reflexivity.
Qed.

Lemma keeps_clock_copy2 (filename : string) :
  preserves keeps_clock (lift (Sys.copy2 filename)).
Proof.
  apply keeps_clock_lift. intros w. wrun.
  destruct (project_files w !! filename); [|reflexivity].
  destruct (negb (plugin_dir_exists w) || copy_fails w filename)%bool; reflexivity.
Qed.

Lemma keeps_clock_get_self {A} (f : PluginDevWatcher → A) :
  preserves keeps_clock (get_self f).
Proof. intros m. reflexivity. Qed.

Create HintDb clock discriminated.
#[export] Hint Resolve keeps_clock_print keeps_clock_exists keeps_clock_stat
  keeps_clock_time keeps_clock_mkdir keeps_clock_copy2
  keeps_clock_get_self : clock.

Ltac clock_tac := frame ltac:(eauto with clock).

Lemma keeps_clock_copy_each (files : list string) :
  ∀ copied_files, preserves keeps_clock (copy_each files copied_files).
Proof.
  induction files as [|filename rest IH]; intros copied_files; cbn [copy_each];
    clock_tac.
Qed.

Lemma keeps_clock_copy_plugin_files (is_initial_copy : bool) :
  preserves keeps_clock (_copy_plugin_files is_initial_copy).
Proof.
  unfold _copy_plugin_files, _check_build_success.
  pose proof keeps_clock_copy_each. clock_tac.
Qed.

Lemma keeps_clock_print_build_failure (result : CompletedProcess) :
  preserves keeps_clock (print_build_failure result).
Proof. unfold print_build_failure. clock_tac. Qed.

Lemma try_except_bind {St A B} (c : M St A) (k : A → M St B)
    (h : Exception → option (M St B)) (s : St) :
  try_except (c ≫= k) h s
  = match c s with
    | (Returned a, s') => try_except (k a) h s'
    | (Raised e, s') =>
        match h e with
        | Some handler => handler s'
        | None => (Raised e, s')
        end
    end.
Proof.
  unfold try_except. rewrite run_bind. destruct (c s) as [[a|e] s']; reflexivity.
Qed.

(** How long a rebuild keeps the handler: the time of the build, cut at the
    30 seconds of the timeout, and none when the build is not launched. *)
Lemma rebuild_plugin_clock (b : BuildRun) (m : Machine) :
  clock (world (_rebuild_plugin b m).2)
  = if launch_fails b then clock (world m)
    else if Qle_bool (duration b) 30 then (clock (world m) + duration b)%Q
         else (clock (world m) + 30)%Q.
Proof.
  unfold _rebuild_plugin. rewrite run_bind, run_print. cbv beta iota.
  rewrite try_except_bind, run_build. fields.
  destruct (launch_fails b); [reflexivity|]. cbn zeta.
  destruct (Qle_bool (duration b) 30); [|reflexivity].
  set (m2 := {| self := _; world := _ |}).
  set (c := try_except _ _).
  assert (Hc : preserves keeps_clock c).
  { subst c. pose proof keeps_clock_copy_plugin_files.
    pose proof keeps_clock_print_build_failure. clock_tac. }
  rewrite (Hc m2). reflexivity.
Qed.

(** The clock an accepted call leaves: a second of sleep and the rebuild
    after the instant of the call. *)
Lemma accepted_call_clock (d : Delivery) (m : Machine) :
  relevant (project_root (self m)) (notified d) = true →
  Qgtb (at_time d - last_rebuild_time (self m)) (rebuild_debounce_seconds (self m))
  = true →
  clock (world (deliver d m).2)
  = if launch_fails (build d) then (at_time d + 1)%Q
    else if Qle_bool (duration (build d)) 30
         then (at_time d + 1 + duration (build d))%Q
         else (at_time d + 1 + 30)%Q.
Proof.
  intros Hrel Hgate. rewrite (deliver_accepted d m Hrel Hgate).
  rewrite run_bind, run_print. cbv beta iota.
  rewrite run_bind, run_lift. unfold Sys.time_sleep at 1 2. wrun.
  rewrite rebuild_plugin_clock. fields. reflexivity.
Qed.

(** X26. After a call that the gate has accepted and whose build was
    launched and took some time, the gate with a cooldown of at most one
    second is open again: the handler has slept a second and waited for the
    build, so the next relevant notification, whenever it arrived, is
    handled more than a second after the acceptance and is rebuilt. The
    notifications that arrive during a rebuild are therefore never dropped:
    each gets a rebuild of its own. *)
Theorem queued_notification_is_rebuilt (d d' : Delivery) (m : Machine) :
  let t := at_time (at_handling d m) in
  let m1 := (dispatch d m).2 in
  relevant (project_root (self m)) (notified d) = true →
  (rebuild_debounce_seconds (self m) < t - last_rebuild_time (self m))%Q →
  (rebuild_debounce_seconds (self m) <= 1)%Q →
  launch_fails (build d) = false →
  (0 < duration (build d))%Q →
  relevant (project_root (self m)) (notified d') = true →
  last_rebuild_time (self m1) = t
  ∧ (t + 1 < at_time (at_handling d' m1))%Q
  ∧ builds_run (trace (world (dispatch d' m1).2))
    = S (builds_run (trace (world m1))).
Proof.
  intros t m1 Hrel Hopen Hcool Hlaunch Hlong Hrel'.
  apply Qgtb_gt in Hopen.
  assert (Hself : self m1 = set_last_rebuild_time t (self m)).
  { destruct (deliver_spec (at_handling d m) m) as (_ & Hself & _).
    cbn [notified at_handling] in Hself. fold t in Hself.
    rewrite Hrel, Hopen in Hself. exact Hself. }
  assert (Hclock : (t + 1 < clock (world m1))%Q).
  { unfold m1. rewrite dispatch_run.
    rewrite (accepted_call_clock (at_handling d m) m Hrel Hopen).
    change (build (at_handling d m)) with (build d).
    change (at_time (at_handling d m)) with t. rewrite Hlaunch.
    clearbody t. destruct (Qle_bool (duration (build d)) 30); lra. }
  assert (Hlate : (t + 1 < at_time (at_handling d' m1))%Q).
  { change (at_time (at_handling d' m1))
      with (Qmax (clock (world m1)) (at_time d')).
    pose proof (Q.le_max_l (clock (world m1)) (at_time d')).
    clearbody t m1. lra. }
  split; [rewrite Hself; reflexivity|]. split; [exact Hlate|].
  rewrite dispatch_run.
  destruct (deliver_spec (at_handling d' m1) m1) as (_ & _ & Hbuilds).
  rewrite Hbuilds. cbn [notified at_handling].
  rewrite Hself. cbn [project_root last_rebuild_time rebuild_debounce_seconds
                      set_last_rebuild_time].
  rewrite Hrel'. cbn [andb].
  match goal with
  | |- context [Qgtb ?a ?b] => assert (Qgtb a b = true) as ->
  end.
  { apply Qgtb_gt. clearbody t m1. lra. }
  lia.
Qed.

Lemma queued_notification_is_rebuilt_witness :
  let d := save_at 1000 (build_exiting 1 "Parse error") in
  let d' := save_at 1000.5 (build_exiting 0 "") in
  let m := sample_machine (artifact_of "bundle") in
  let m1 := (dispatch d m).2 in
  (0 < duration (build d))%Q
  ∧ (at_time (at_handling d m) + 1 < at_time (at_handling d' m1))%Q
  ∧ builds_run (trace (world (dispatch d' m1).2))
    = S (builds_run (trace (world m1))).
Proof.
  cbn zeta. split; [reflexivity|].
  destruct (queued_notification_is_rebuilt
              (save_at 1000 (build_exiting 1 "Parse error"))
              (save_at 1000.5 (build_exiting 0 ""))
              (sample_machine (artifact_of "bundle")))
    as (_ & Hlate & Hbuilds).
  - vm_compute. reflexivity.
  - reflexivity.
  - vm_compute. discriminate.
  - reflexivity.
  - reflexivity.
  - vm_compute. reflexivity.
  - auto.
Defined.
